(** * UEFI-Binary-Tool: image packer containers (ASUS and MSI)

    A shallow embedding of the container scanner, the change detector and
    the rebuild engines of the two repackers, together with the BMP sniffer
    of the ASUS analyzer, and the properties of the specification that can
    be stated over them.

    Conventions of the embedding.
    - A Python [bytes]/[bytearray] value is a [list byte]; Python integers
      are [Z]; [len(x)] is [blen x].
    - Slices follow Python: indices are clamped to the buffer, negative
      indices count from the end.
    - Functions that can raise return a [result]; loops of the source that
      are [while True] are written with a fuel argument, and the fuel that
      the entry points pass is proved sufficient.
    - The file system is data: a directory is a finite map from names to
      contents, the output file is the value returned.  Console output is
      dropped. *)

From Stdlib Require Import ZArith List String Ascii Lia Bool.
From Stdlib Require Import Strings.Byte.
From stdpp Require Import base tactics option list gmap strings sorting.

Local Open Scope Z_scope.

(** ** Bytes and buffers *)

Abbreviation bytes := (list byte).

#[global] Instance byte_eq_decision : EqDecision byte := Byte.byte_eq_dec.

Definition blen {A} (l : list A) : Z := Z.of_nat (length l).

Definition Z_of_byte (b : byte) : Z := Z.of_N (Byte.to_N b).

Definition byte_of_Z (z : Z) : byte :=
  match Byte.of_N (Z.to_N (z mod 256)) with
  | Some b => b
  | None => x00
  end.

(** Python index normalisation for slices: [i] if it is in range, clamped
    to the ends otherwise, negative indices counted from the end. *)
Definition norm_index (n i : Z) : Z :=
  if i <? 0 then Z.max (i + n) 0 else Z.min i n.

(** [data[a:b]] *)
Definition py_slice {A} (data : list A) (a b : Z) : list A :=
  let a' := norm_index (blen data) a in
  let b' := norm_index (blen data) b in
  take (Z.to_nat (b' - a')) (drop (Z.to_nat a') data).

(** [data[a:]] *)
Definition py_slice_from {A} (data : list A) (a : Z) : list A :=
  drop (Z.to_nat (norm_index (blen data) a)) data.

(** [buf[a:b] = v] on a bytearray: the slice is replaced, the buffer grows
    or shrinks when [v] has another length. *)
Definition py_slice_assign {A} (buf : list A) (a b : Z) (v : list A) : list A :=
  let a' := norm_index (blen buf) a in
  let b' := Z.max a' (norm_index (blen buf) b) in
  take (Z.to_nat a') buf ++ v ++ drop (Z.to_nat b') buf.

(** Exceptions of the source that the model distinguishes. *)
Inductive exn := AttributeError | StructError | IndexError | ValueError | TypeError.

Inductive result (A : Type) :=
| Ok (a : A)
| Raise (e : exn).
Arguments Ok {A} a.
Arguments Raise {A} e.

#[global] Instance result_bind : MBind result := λ A B k r,
  match r with
  | Ok a => k a
  | Raise e => Raise e
  end.

(** The four bytes of [n], least significant first. *)
Definition le32 (n : Z) : bytes :=
  [byte_of_Z n; byte_of_Z (n / 2 ^ 8); byte_of_Z (n / 2 ^ 16); byte_of_Z (n / 2 ^ 24)].

(** [struct.pack('<I', n)]: raises [struct.error] outside [0, 2^32). *)
Definition pack_le32 (n : Z) : result bytes :=
  if (0 <=? n) && (n <? 2 ^ 32) then Ok (le32 n) else Raise StructError.

(** [struct.unpack('<I', bs)[0]]: raises unless [bs] has exactly 4 bytes. *)
Definition unpack_le32 (bs : bytes) : result Z :=
  match bs with
  | [b0; b1; b2; b3] =>
      Ok (Z_of_byte b0 + 2 ^ 8 * Z_of_byte b1 + 2 ^ 16 * Z_of_byte b2 + 2 ^ 24 * Z_of_byte b3)
  | _ => Raise StructError
  end.

(** [bytes.find(pat, start)] and [re.search] of a literal pattern from
    [start]: the least index [i >= start] at which [pat] occurs, the walk is
    over the suffix [rest] that begins at index [i]. *)
Fixpoint find_in (pat rest : bytes) (i : Z) : option Z :=
  if bool_decide (take (length pat) rest = pat) then Some i
  else match rest with
       | [] => None
       | _ :: rest' => find_in pat rest' (i + 1)
       end.

Definition bytes_find (pat data : bytes) (start : Z) : option Z :=
  let s := norm_index (blen data) start in
  if blen data <? start then None
  else find_in pat (drop (Z.to_nat s) data) s.

(** [pat] occurs in [data] at index [p]. *)
Definition occurs_at (pat data : bytes) (p : Z) : Prop :=
  0 <= p ∧ take (length pat) (drop (Z.to_nat p) data) = pat.

(** [b'\x00' * n] *)
Definition zeros (n : Z) : bytes := replicate (Z.to_nat n) x00.

(** A fold whose step can raise: the loop stops at the first exception. *)
Fixpoint fold_result {S A} (f : S → A → result S) (s : S) (l : list A) : result S :=
  match l with
  | [] => Ok s
  | x :: l' => s' ← f s x; fold_result f s' l'
  end.

(** [enumerate(l, start)] *)
Fixpoint enumerate_from {A} (start : Z) (l : list A) : list (Z * A) :=
  match l with
  | [] => []
  | x :: l' => (start, x) :: enumerate_from (start + 1) l'
  end.

(** ** Text: number formatting, [int()], and the file-name pattern

    File names are strings of 8-bit characters.  The character classes of
    the regular expressions are the ASCII ones ([\d] is [0-9]). *)

Definition digit_char (upper : bool) (d : Z) : ascii :=
  if d <? 10 then ascii_of_N (Z.to_N (48 + d))
  else ascii_of_N (Z.to_N ((if upper then 55 else 87) + d)).

Fixpoint format_digits (upper : bool) (base : Z) (fuel : nat) (n : Z) (acc : string) : string :=
  let acc' := String (digit_char upper (n mod base)) acc in
  match fuel with
  | O => acc'
  | S f => if n / base =? 0 then acc' else format_digits upper base f (n / base) acc'
  end.

(** The digits of [n >= 0] in base [base]; [log2 n + 1] digits are enough
    in every base from 2 on. *)
Definition format_nat_base (upper : bool) (base : Z) (n : Z) : string :=
  format_digits upper base (Z.to_nat (Z.log2 n)) n "".

Definition format_int (upper : bool) (base : Z) (n : Z) : string :=
  if n <? 0 then String "-" (format_nat_base upper base (- n))
  else format_nat_base upper base n.

(** [f"{n}"] *)
Definition format_d (n : Z) : string := format_int false 10 n.

(** [f"{n:X}"] *)
Definition format_X (n : Z) : string := format_int true 16 n.

Fixpoint string_repeat (c : ascii) (n : nat) : string :=
  match n with
  | O => ""
  | S n' => String c (string_repeat c n')
  end.

(** [f"{n:08x}"]: lower-case hexadecimal, padded with zeros to 8 columns
    (after the sign, if any). *)
Definition format_08x (n : Z) : string :=
  if n <? 0 then
    let d := format_nat_base false 16 (- n) in
    String "-" (string_repeat "0" (7 - String.length d) +:+ d)
  else
    let d := format_nat_base false 16 n in
    string_repeat "0" (8 - String.length d) +:+ d.

Definition is_digit (c : ascii) : bool :=
  let n := Z.of_N (N_of_ascii c) in (48 <=? n) && (n <=? 57).

Definition is_hex_digit (c : ascii) : bool :=
  let n := Z.of_N (N_of_ascii c) in
  ((48 <=? n) && (n <=? 57)) || ((65 <=? n) && (n <=? 70)) || ((97 <=? n) && (n <=? 102)).

Definition is_alnum (c : ascii) : bool :=
  let n := Z.of_N (N_of_ascii c) in
  ((48 <=? n) && (n <=? 57)) || ((65 <=? n) && (n <=? 90)) || ((97 <=? n) && (n <=? 122)).

(** [int(s)] for a string of decimal digits. *)
Fixpoint parse_decimal_go (s : string) (acc : Z) : Z :=
  match s with
  | EmptyString => acc
  | String c s' => parse_decimal_go s' (10 * acc + (Z.of_N (N_of_ascii c) - 48))
  end.

Definition parse_decimal (s : string) : Z := parse_decimal_go s 0.

(** The longest prefix of [s] whose characters satisfy [p], and the rest. *)
Fixpoint span_while (p : ascii → bool) (s : string) : string * string :=
  match s with
  | EmptyString => (EmptyString, EmptyString)
  | String c s' =>
      if p c then let '(a, b) := span_while p s' in (String c a, b)
      else (EmptyString, s)
  end.

(** Every character of [s] satisfies [p]. *)
Fixpoint string_forall (p : ascii → bool) (s : string) : bool :=
  match s with
  | EmptyString => true
  | String c s' => p c && string_forall p s'
  end.

(** [s.startswith(p)], with the remainder. *)
Fixpoint strip_prefix (p s : string) : option string :=
  match p, s with
  | EmptyString, _ => Some s
  | String a p', String b s' => if Ascii.eqb a b then strip_prefix p' s' else None
  | String _ _, EmptyString => None
  end.

Definition starts_with (p s : string) : bool :=
  match strip_prefix p s with Some _ => true | None => false end.

Fixpoint ends_with (p s : string) : bool :=
  String.eqb p s ||
  match s with
  | EmptyString => false
  | String _ s' => ends_with p s'
  end.

Definition string_is_empty (s : string) : bool :=
  match s with EmptyString => true | _ => false end.

(** [re.match(r'^image_nr(\d+)_off0x([0-9A-Fa-f]+)\.[a-zA-Z0-9]+$', s)]:
    the two groups when the name matches.  Every repetition is followed by
    a character outside its class, so the greedy match is the only one; [$]
    also accepts one final line feed. *)
Definition match_image_name (s : string) : option (string * string) :=
  rest ← strip_prefix "image_nr" s;
  let '(num, rest) := span_while is_digit rest in
  if string_is_empty num then None else
  rest ← strip_prefix "_off0x" rest;
  let '(hex, rest) := span_while is_hex_digit rest in
  if string_is_empty hex then None else
  rest ← strip_prefix "." rest;
  let '(ext, rest) := span_while is_alnum rest in
  if string_is_empty ext then None else
  if string_is_empty rest || String.eqb rest (String "010" EmptyString)
  then Some (num, hex) else None.

Definition matches_image_name (s : string) : bool :=
  match match_image_name s with Some _ => true | None => false end.

(** [binascii.hexlify(bs).decode('utf-8').upper()] *)
Fixpoint hexlify_upper (bs : bytes) : string :=
  match bs with
  | [] => ""
  | b :: bs' =>
      String (digit_char true (Z_of_byte b / 16))
        (String (digit_char true (Z_of_byte b mod 16)) (hexlify_upper bs'))
  end.

(** [s[:n]] on a string. *)
Definition string_take (n : nat) (s : string) : string := String.substring 0 n s.

(** ** Format A: the ASUS packer ([asus_repacker.py], [asus_analyzer.py]) *)

Module Asus.

(** The dictionary [image_info] that the scanner builds for an entry. *)
Record image_info := {
  number : Z;
  img_type : string;
  size : Z;
  offset_in_package : Z;
  absolute_offset : Z;
  data : bytes;
  metadata_offset : Z;
  special_pattern_offset : Z;
  special_pattern : bytes
}.

(** The dictionary [package_info] of a located container. *)
Record package_info := {
  header_offset : Z;
  header_end : Z;
  images : list image_info;
  total_size : Z
}.

(** The 32-byte signature that [asus_pattern] searches for. *)
Definition asus_pattern : bytes :=
  [x00; x00; x00; x00; x20; x00; x00; x00; xff; xff; x00; x00; xff; xff; x00; x00;
   x00; x00; x00; x00; x00; x00; x00; x00; x00; x00; x00; x00; x00; x00; x00; x00].

(** [bytes.fromhex("00000000300009040000000000000000")] *)
Definition expected_pattern : bytes :=
  [x00; x00; x00; x00; x30; x00; x09; x04; x00; x00; x00; x00; x00; x00; x00; x00].

(** [detect_asus_image_type] *)
Definition detect_asus_image_type (img_data : bytes) : string :=
  if blen img_data <? 4 then "img"
  else
    let header_hex := hexlify_upper (py_slice img_data 0 4) in
    if String.eqb (string_take 4 header_hex) "424D" then "bmp"
    else if String.eqb (string_take 6 header_hex) "FFD8FF" then "jpg"
    else if String.eqb header_hex "89504E47" then "png"
    else if String.eqb header_hex "47494638" then "gif"
    else if String.eqb header_hex "00000100" || String.eqb header_hex "00000200" then "ico"
    else "img".

(** Why the entry loop of [detect_asus_packer_format] left at a [break]. *)
Inductive stop_reason :=
| Truncated            (* head + 8 > len(data) *)
| ShortRead            (* a field slice shorter than 4 bytes *)
| Sentinel             (* isize == 0 or ioffs == 0 *)
| GuardMismatch        (* check_pattern != expected_pattern *)
| PayloadOutOfBounds.  (* img_end > len(data) *)

Inductive step :=
| Stop (r : stop_reason)
| Next (img : image_info) (head' : Z).

(** One pass through the body of the inner [while True] at cursor [head];
    [image_nr] is the counter before the pass.  Both field slices have 4
    bytes when they are unpacked, so [struct.unpack] cannot raise. *)
Definition entry_step (data : bytes) (head image_nr : Z) : step :=
  if blen data <? head + 8 then Stop Truncated
  else
    let isize_bytes := py_slice data head (head + 4) in
    let ioffs_bytes := py_slice data (head + 4) (head + 8) in
    if (blen isize_bytes <? 4) || (blen ioffs_bytes <? 4) then Stop ShortRead
    else
      match unpack_le32 isize_bytes, unpack_le32 ioffs_bytes with
      | Ok isize, Ok ioffs =>
          if (isize =? 0) || (ioffs =? 0) then Stop Sentinel
          else
            let check_offset := head + ioffs - 16 in
            if (0 <=? check_offset) && (check_offset + 16 <=? blen data)
               && negb (bool_decide
                          (py_slice data check_offset (check_offset + 16) = expected_pattern))
            then Stop GuardMismatch
            else
              let img_start := head + ioffs in
              let img_end := img_start + isize in
              if blen data <? img_end then Stop PayloadOutOfBounds
              else
                let img_data := py_slice data img_start img_end in
                let img_type := detect_asus_image_type img_data in
                let image_nr := image_nr + 1 in
                let special_pattern_start := head + 8 in
                let special_pattern :=
                  py_slice data special_pattern_start (special_pattern_start + 24) in
                let next_metadata_pos := head + 32 + isize in
                let padding := (4 - isize mod 4) mod 4 in
                Next {| number := image_nr;
                        img_type := img_type;
                        size := isize;
                        offset_in_package := ioffs;
                        absolute_offset := img_start;
                        data := img_data;
                        metadata_offset := head;
                        special_pattern_offset := special_pattern_start;
                        special_pattern := special_pattern |}
                     (next_metadata_pos + padding)
      | _, _ => Stop ShortRead
      end.

(** The inner [while True]: decoded images so far, and the final cursor. *)
Fixpoint entry_loop (fuel : nat) (data : bytes) (head image_nr : Z)
    (images : list image_info) : list image_info * Z :=
  match fuel with
  | O => (images, head)
  | S fuel' =>
      match entry_step data head image_nr with
      | Stop _ => (images, head)
      | Next img head' => entry_loop fuel' data head' (image_nr + 1) (images ++ [img])
      end
  end.

(** The entry loop from cursor [head] with counter [image_nr]: every pass
    moves the cursor forward inside the buffer, so [length data] passes are
    enough. *)
Definition entries_from (data : bytes) (head image_nr : Z) : list image_info * Z :=
  entry_loop (length data) data head image_nr [].

(** The entry loop as the scanner runs it after a signature that ends at
    [end_match]. *)
Definition scan_entries (data : bytes) (end_match : Z) : list image_info * Z :=
  entries_from data end_match 0.

(** The outer [while True] over signature matches. *)
Fixpoint package_loop (fuel : nat) (data : bytes) (position : Z)
    (asus_packages : list package_info) : list package_info :=
  match fuel with
  | O => asus_packages
  | S fuel' =>
      match bytes_find asus_pattern data position with
      | None => asus_packages
      | Some start_match =>
          let end_match := start_match + blen asus_pattern in
          let '(images, head) := scan_entries data end_match in
          package_loop fuel' data head
            (asus_packages ++ [{| header_offset := start_match;
                                  header_end := end_match;
                                  images := images;
                                  total_size := head - start_match |}])
      end
  end.

(** The packages found from [position] on: every pass moves the position
    forward by a whole signature at least. *)
Definition packages_from (data : bytes) (position : Z) : list package_info :=
  package_loop (S (length data)) data position [].

(** [detect_asus_packer_format] *)
Definition detect_asus_packer_format (data : bytes) : list package_info :=
  packages_from data 0.

(** The stop conditions of the entry loop in the words of the
    specification: a field that reads as zero, a validation window that
    differs from the constant, or a payload span that leaves the buffer. *)
Definition spec_stop_condition (data : bytes) (head : Z) : Prop :=
  unpack_le32 (py_slice data head (head + 4)) = Ok 0
  ∨ unpack_le32 (py_slice data (head + 4) (head + 8)) = Ok 0
  ∨ ∃ size rel_offset,
      unpack_le32 (py_slice data head (head + 4)) = Ok size
      ∧ unpack_le32 (py_slice data (head + 4) (head + 8)) = Ok rel_offset
      ∧ (py_slice data (head + rel_offset - 16) (head + rel_offset) ≠ expected_pattern
         ∨ blen data < head + rel_offset + size).

(** [_validate_image_replacement] *)
Definition _validate_image_replacement (original_image : image_info) (new_data : bytes) : bool :=
  String.eqb (img_type original_image) (detect_asus_image_type new_data).

(** The entry of [modified_images] for a replaced image. *)
Record modified_info := {
  original_image : image_info;
  new_data : bytes;
  new_size : Z;
  size_diff : Z;
  package_idx : Z
}.

(** The extracted directory: sub-directory name to (file name to contents). *)
Abbreviation tree := (gmap string (gmap string bytes)).

(** [f"asus_pack_{pkg_idx}"] *)
Definition pkg_dir_name (pkg_idx : Z) : string := "asus_pack_" +:+ format_d pkg_idx.

(** [f"image_nr{image['number']}_off0x{abs_offset:08x}.{image['type']}"] *)
Definition image_filename (image : image_info) : string :=
  "image_nr" +:+ format_d (number image) +:+ "_off0x"
  +:+ format_08x (absolute_offset image) +:+ "." +:+ img_type image.

(** The branch that the change detection takes for one image of a package
    whose directory holds [files]. *)
Inductive classification :=
| BadName                      (* generated name fails the pattern *)
| Missing                      (* no such file *)
| TypeMismatch                 (* _validate_image_replacement is False *)
| Unchanged                    (* extracted_data == original_data *)
| Modified (extracted : bytes).

Definition classify (files : gmap string bytes) (image : image_info) : classification :=
  let filename := image_filename image in
  if negb (matches_image_name filename) then BadName
  else
    match files !! filename with
    | Some extracted_data =>
        if negb (_validate_image_replacement image extracted_data) then TypeMismatch
        else if bool_decide (extracted_data = data image) then Unchanged
        else Modified extracted_data
    | None => Missing
    end.

(** State of step 2 of [rebuild_asus_packer_preserve_structure]:
    [modified_images], [unchanged_count], [modified_count]. *)
Abbreviation detect_state := (gmap Z modified_info * Z * Z)%type.

Definition detect_image (pkg_idx : Z) (files : gmap string bytes)
    (st : detect_state) (image : image_info) : detect_state :=
  let '(modified_images, unchanged_count, modified_count) := st in
  match classify files image with
  | BadName | TypeMismatch | Unchanged =>
      (modified_images, unchanged_count + 1, modified_count)
  | Modified extracted_data =>
      (<[absolute_offset image :=
           {| original_image := image;
              new_data := extracted_data;
              new_size := blen extracted_data;
              size_diff := blen extracted_data - size image;
              package_idx := pkg_idx |}]> modified_images,
       unchanged_count, modified_count + 1)
  | Missing => st
  end.

Definition detect_package (extracted : tree) (st : detect_state)
    (p : Z * package_info) : detect_state :=
  let '(pkg_idx, package) := p in
  match extracted !! pkg_dir_name pkg_idx with
  | None => st
  | Some files => foldl (detect_image pkg_idx files) st (images package)
  end.

Definition detect_changes (extracted : tree) (original_packages : list package_info)
    : detect_state :=
  foldl (detect_package extracted) (∅, 0, 0) (enumerate_from 1 original_packages).

Definition is_modified (c : classification) : bool :=
  match c with Modified _ => true | _ => false end.

(** The entries that the change detection classifies as modified, with the
    index of their package. *)
Definition modified_entries (extracted : tree) (original_packages : list package_info)
    : list (Z * image_info) :=
  flat_map
    (λ p : Z * package_info,
       match extracted !! pkg_dir_name (fst p) with
       | None => []
       | Some files =>
           map (pair (fst p))
             (filter (λ image, is_modified (classify files image) = true) (images (snd p)))
       end)
    (enumerate_from 1 original_packages).

(** What a rebuild leaves behind: [return False] without an output file,
    an output file with the given contents and [return True], or an
    exception that no handler of the repacker catches. *)
Inductive outcome :=
| Failed
| Written (out : bytes)
| Crashed (e : exn).

(** One pass of the loop of [_direct_replace_images] over an offset. *)
Definition direct_replace_step (modified_images : gmap Z modified_info)
    (buf : bytes) (offset : Z) : bytes :=
  match modified_images !! offset with
  | None => buf
  | Some info =>
      let original_size := size (original_image info) in
      if negb (blen (new_data info) =? original_size) then buf
      else if negb (_validate_image_replacement (original_image info) (new_data info)) then buf
      else py_slice_assign buf offset (offset + original_size) (new_data info)
  end.

(** [sorted(modified_images.keys(), reverse=True)] *)
Definition sorted_offsets (modified_images : gmap Z modified_info) : list Z :=
  reverse (merge_sort Z.le (map fst (map_to_list modified_images))).

(** [_direct_replace_images] *)
Definition _direct_replace_images (data : bytes)
    (modified_images : gmap Z modified_info) : outcome :=
  Written (foldl (direct_replace_step modified_images) data (sorted_offsets modified_images)).

(** [sorted(package['images'], key=lambda x: x['number'])]: a stable sort. *)
Fixpoint insert_by_number (x : image_info) (l : list image_info) : list image_info :=
  match l with
  | [] => [x]
  | y :: l' => if number x <=? number y then x :: l else y :: insert_by_number x l'
  end.

Definition sorted_by_number (l : list image_info) : list image_info :=
  foldr insert_by_number [] l.

(** The two published fall-back patterns. *)
Definition default_pattern_first : bytes :=
  [xff; xff; x0a; x00; xff; xff; x00; x40; x00; x00; x00; x00;
   x30; x00; x09; x04; x00; x00; x00; x00; x00; x00; x00; x00].

Definition default_pattern_other : bytes :=
  [x00; xff; xff; x0a; x00; xff; xff; x02; x00; x00; x00; x00;
   x30; x00; x09; x04; x00; x00; x00; x00; x00; x00; x00; x00].

(** The payload that the structural rebuild emits for an image. *)
Definition emitted_payload (modified_images : gmap Z modified_info)
    (img_info : image_info) : bytes :=
  match modified_images !! absolute_offset img_info with
  | Some info => new_data info
  | None => data img_info
  end.

(** The 24 bytes emitted after the two fields of an image. *)
Definition emitted_pattern (data : bytes) (img_info : image_info) : bytes :=
  let original_special_pattern := special_pattern img_info in
  if negb (bool_decide (original_special_pattern = []))
     && (blen original_special_pattern =? 24)
  then original_special_pattern
  else
    let metadata_start := metadata_offset img_info in
    if metadata_start + 32 <=? blen data
    then py_slice data (metadata_start + 8) (metadata_start + 32)
    else if number img_info =? 1 then default_pattern_first
    else default_pattern_other.

(** [(4 - (n % 4)) % 4] *)
Definition padding_of (n : Z) : Z := (4 - n mod 4) mod 4.

(** The body of the loop over [sorted_images] in
    [_structure_preserving_rebuild]; [buf] is [new_data]. *)
Definition emit_image (data : bytes) (modified_images : gmap Z modified_info)
    (buf : bytes) (img_info : image_info) : result bytes :=
  let img_data := emitted_payload modified_images img_info in
  size_bytes ← pack_le32 (blen img_data);
  let buf := buf ++ size_bytes in
  offset_bytes ← pack_le32 32;
  let buf := buf ++ offset_bytes in
  let buf := buf ++ emitted_pattern data img_info in
  let buf := buf ++ img_data in
  let padding := padding_of (blen img_data) in
  Ok (if 0 <? padding then buf ++ zeros padding else buf).

(** The body of the loop over packages; the state is
    [(new_data, current_pos)]. *)
Definition rebuild_package (data : bytes) (modified_images : gmap Z modified_info)
    (st : bytes * Z) (package : package_info) : result (bytes * Z) :=
  let '(buf, current_pos) := st in
  let pkg_start := header_offset package in
  let buf :=
    if current_pos <? pkg_start then buf ++ py_slice data current_pos pkg_start else buf in
  let buf := buf ++ py_slice data pkg_start (header_end package) in
  let sorted_images := sorted_by_number (images package) in
  buf ← fold_result (emit_image data modified_images) buf sorted_images;
  Ok (buf, pkg_start + total_size package).

(** The buffer that [_structure_preserving_rebuild] hands to the writer. *)
Definition structural_buffer (data : bytes) (original_packages : list package_info)
    (modified_images : gmap Z modified_info) : result bytes :=
  st ← fold_result (rebuild_package data modified_images) ([], 0) original_packages;
  let '(buf, current_pos) := st in
  Ok (if current_pos <? blen data then buf ++ py_slice_from data current_pos else buf).

(** The layout of the rebuilt buffer, written as a concatenation.  A
    record is the size field, the relative offset [0x20], the 24-byte
    pattern, the payload, and the zero bytes that pad the payload. *)
Definition emitted_metadata (data : bytes) (modified_images : gmap Z modified_info)
    (img_info : image_info) : bytes :=
  le32 (blen (emitted_payload modified_images img_info)) ++ le32 32
  ++ emitted_pattern data img_info.

Definition emitted_record (data : bytes) (modified_images : gmap Z modified_info)
    (img_info : image_info) : bytes :=
  emitted_metadata data modified_images img_info
  ++ emitted_payload modified_images img_info
  ++ zeros (padding_of (blen (emitted_payload modified_images img_info))).

(** The bytes of a package: the preserved bytes between the previous
    package and this one, the header, and the records in emission order. *)
Definition package_bytes (data : bytes) (modified_images : gmap Z modified_info)
    (current_pos : Z) (package : package_info) : bytes :=
  (if current_pos <? header_offset package
   then py_slice data current_pos (header_offset package) else [])
  ++ py_slice data (header_offset package) (header_end package)
  ++ flat_map (emitted_record data modified_images) (sorted_by_number (images package)).

Fixpoint layout (data : bytes) (modified_images : gmap Z modified_info)
    (current_pos : Z) (packages : list package_info) : bytes :=
  match packages with
  | [] => if current_pos <? blen data then py_slice_from data current_pos else []
  | package :: packages' =>
      package_bytes data modified_images current_pos package
      ++ layout data modified_images (header_offset package + total_size package) packages'
  end.

(** Every emitted payload of every package is short enough for a 32-bit
    size field. *)
Definition payloads_fit (m : gmap Z modified_info) (pkgs : list package_info) : Prop :=
  Forall (λ pkg, Forall (λ img, blen (emitted_payload m img) < 2 ^ 32)
                   (sorted_by_number (images pkg))) pkgs.

(** [_structure_preserving_rebuild]: [struct.pack] is outside the [try]. *)
Definition _structure_preserving_rebuild (data : bytes)
    (original_packages : list package_info)
    (modified_images : gmap Z modified_info) : outcome :=
  match structural_buffer data original_packages modified_images with
  | Ok buf => Written buf
  | Raise e => Crashed e
  end.

(** [sum(info['size_diff'] for info in modified_images.values())] *)
Definition total_size_change (modified_images : gmap Z modified_info) : Z :=
  foldr Z.add 0 (map (λ kv, size_diff (snd kv)) (map_to_list modified_images)).

(** The strategy chosen in step 3. *)
Inductive strategy := CopyOriginal | DirectReplace | StructuralRebuild.

Definition choose_strategy (st : detect_state) : strategy :=
  let '(modified_images, _, modified_count) := st in
  if modified_count =? 0 then CopyOriginal
  else if total_size_change modified_images =? 0 then DirectReplace
  else StructuralRebuild.

(** [rebuild_asus_packer_preserve_structure] on the loaded buffer [data];
    [extracted_dir] is [None] when the directory does not exist.  The copy
    of the input file is the buffer itself. *)
Definition rebuild_asus_packer_preserve_structure (data : bytes)
    (extracted_dir : option tree) : outcome :=
  match extracted_dir with
  | None => Failed
  | Some extracted =>
      let original_packages := detect_asus_packer_format data in
      match original_packages with
      | [] => Failed
      | _ :: _ =>
          let st := detect_changes extracted original_packages in
          match choose_strategy st with
          | CopyOriginal => Written data
          | DirectReplace => _direct_replace_images data (fst (fst st))
          | StructuralRebuild =>
              _structure_preserving_rebuild data original_packages (fst (fst st))
          end
      end
  end.

(** *** The BMP pass of [analyze_embedded_files] ([asus_analyzer.py]) *)

Record embedded_file := {
  ef_type : string;
  ef_start : Z;
  ef_size : Z;
  ef_end : Z
}.

(** The body of the BMP [while True] for a found position [bmp_pos]. *)
Definition bmp_candidate (data : bytes) (bmp_pos : Z) : option embedded_file :=
  if bmp_pos + 6 <=? blen data then
    match unpack_le32 (py_slice data (bmp_pos + 2) (bmp_pos + 6)) with
    | Ok bmp_size =>
        if (100 <=? bmp_size) && (bmp_size <=? 50 * 1024 * 1024)
           && (bmp_pos + bmp_size <=? blen data)
        then Some {| ef_type := "BMP Image"; ef_start := bmp_pos;
                     ef_size := bmp_size; ef_end := bmp_pos + bmp_size |}
        else None
    | Raise _ => None
    end
  else None.

Definition bmp_magic : bytes := list_byte_of_string "BM".

Fixpoint bmp_loop (fuel : nat) (data : bytes) (bmp_start : Z)
    (embedded_files : list embedded_file) : list embedded_file :=
  match fuel with
  | O => embedded_files
  | S fuel' =>
      match bytes_find bmp_magic data bmp_start with
      | None => embedded_files
      | Some bmp_pos =>
          let embedded_files :=
            match bmp_candidate data bmp_pos with
            | Some f => embedded_files ++ [f]
            | None => embedded_files
            end in
          bmp_loop fuel' data (bmp_pos + 1) embedded_files
      end
  end.

(** The BMP entries that [analyze_embedded_files] appends. *)
Definition find_bmp_files (data : bytes) : list embedded_file :=
  bmp_loop (S (length data)) data 0 [].

(** The bytes that an entry occupies in the scanned buffer, from its
    metadata to the next metadata position. *)
Definition record_span (img : image_info) : Z :=
  32 + size img + padding_of (size img).

(** What the change detection has established for every entry of
    [modified_images]. *)
Definition recorded (extracted : tree) (pkgs : list package_info)
    (off : Z) (info : modified_info) : Prop :=
  ∃ (k i : nat) pkg files,
    pkgs !! k = Some pkg
    ∧ images pkg !! i = Some (original_image info)
    ∧ package_idx info = Z.of_nat k + 1
    ∧ extracted !! pkg_dir_name (Z.of_nat k + 1) = Some files
    ∧ files !! image_filename (original_image info) = Some (new_data info)
    ∧ off = absolute_offset (original_image info)
    ∧ new_size info = blen (new_data info)
    ∧ size_diff info = blen (new_data info) - size (original_image info)
    ∧ new_data info ≠ data (original_image info)
    ∧ detect_asus_image_type (new_data info) = img_type (original_image info).

(** The span of the file that an entry of [modified_images] stands for. *)
Definition in_span (off : Z) (info : modified_info) (p : nat) : Prop :=
  off <= Z.of_nat p < off + size (original_image info).

(** *** The PNG and JPEG passes of [analyze_embedded_files] *)

(** [b'\x89PNG\r\n\x1a\n'] and [b'IEND\xaeB`\x82'] *)
Definition png_signature : bytes := [x89; x50; x4e; x47; x0d; x0a; x1a; x0a].
Definition png_iend : bytes := [x49; x45; x4e; x44; xae; x42; x60; x82].

(** The body of the PNG [while True] for a found position [png_pos]. *)
Definition png_candidate (data : bytes) (png_pos : Z) : option embedded_file :=
  match bytes_find png_iend data png_pos with
  | Some iend_pos =>
      let png_size := iend_pos + 8 - png_pos in
      Some {| ef_type := "PNG Image"; ef_start := png_pos;
              ef_size := png_size; ef_end := png_pos + png_size |}
  | None => None
  end.

Fixpoint png_loop (fuel : nat) (data : bytes) (png_start : Z)
    (embedded_files : list embedded_file) : list embedded_file :=
  match fuel with
  | O => embedded_files
  | S fuel' =>
      match bytes_find png_signature data png_start with
      | None => embedded_files
      | Some png_pos =>
          let embedded_files :=
            match png_candidate data png_pos with
            | Some f => embedded_files ++ [f]
            | None => embedded_files
            end in
          png_loop fuel' data (png_pos + 1) embedded_files
      end
  end.

(** [b'\xff\xd8\xff'] and [b'\xff\xd9'] *)
Definition jpeg_magic : bytes := [xff; xd8; xff].
Definition jpeg_eoi : bytes := [xff; xd9].

(** The inner [while] of the JPEG pass: [jpeg_end], or [None] for [-1]. *)
Fixpoint jpeg_end_loop (fuel : nat) (data : bytes) (search_pos : Z) : option Z :=
  match fuel with
  | O => None
  | S fuel' =>
      if search_pos <? blen data - 1 then
        if bool_decide (py_slice data search_pos (search_pos + 2) = jpeg_eoi)
        then Some (search_pos + 2)
        else jpeg_end_loop fuel' data (search_pos + 1)
      else None
  end.

(** The body of the JPEG [while True] for a found position [jpeg_pos]. *)
Definition jpeg_candidate (data : bytes) (jpeg_pos : Z) : option embedded_file :=
  match jpeg_end_loop (length data) data (jpeg_pos + 3) with
  | Some jpeg_end =>
      Some {| ef_type := "JPEG Image"; ef_start := jpeg_pos;
              ef_size := jpeg_end - jpeg_pos; ef_end := jpeg_end |}
  | None => None
  end.

Fixpoint jpeg_loop (fuel : nat) (data : bytes) (jpeg_start : Z)
    (embedded_files : list embedded_file) : list embedded_file :=
  match fuel with
  | O => embedded_files
  | S fuel' =>
      match bytes_find jpeg_magic data jpeg_start with
      | None => embedded_files
      | Some jpeg_pos =>
          let embedded_files :=
            match jpeg_candidate data jpeg_pos with
            | Some f => embedded_files ++ [f]
            | None => embedded_files
            end in
          jpeg_loop fuel' data (jpeg_pos + 1) embedded_files
      end
  end.

(** The list [embedded_files] of [analyze_embedded_files] after its three
    passes: PNG, then JPEG, then BMP. *)
Definition embedded_files (data : bytes) : list embedded_file :=
  bmp_loop (S (length data)) data 0
    (jpeg_loop (S (length data)) data 0
       (png_loop (S (length data)) data 0 [])).

End Asus.
(** ** Format B: the MSI packer ([msi_analyzer.py], [msi_repacker.py]) *)

Module Msi.

(** *** Instances and their attributes

    [self.name] on an instance looks [name] up among the attributes that
    [__init__] has set (no method of the two classes is read as data), and
    raises [AttributeError] when there is none. *)

Inductive pyval :=
| VBytes (b : bytes)
| VInt (n : Z)
| VStrings (l : list string)
| VDict.

Abbreviation instance := (gmap string pyval).

Definition getattr (self : instance) (name : string) : result pyval :=
  match self !! name with
  | Some v => Ok v
  | None => Raise AttributeError
  end.

Definition getattr_bytes (self : instance) (name : string) : result bytes :=
  v ← getattr self name;
  match v with VBytes b => Ok b | _ => Raise TypeError end.

Definition getattr_int (self : instance) (name : string) : result Z :=
  v ← getattr self name;
  match v with VInt n => Ok n | _ => Raise TypeError end.

(** [b'$MsI$'] *)
Definition msi_signature_literal : bytes := list_byte_of_string "$MsI$".

(** [MSIFileAnalyzer.__init__] (the attributes that the scanner reads). *)
Definition analyzer_init : instance :=
  <["MSI_SIGNATURE"%string := VBytes msi_signature_literal]>
    (<["HEADER_SIZE"%string := VInt 12]> ∅).

(** [MSIImageRepacker.__init__] *)
Definition supported_extensions : list string :=
  [".bin"; ".jpg"; ".jpeg"; ".png"; ".bmp"; ".ico"]%string.

Definition repacker_init : instance :=
  <["MSI_SIGNATURE"%string := VBytes msi_signature_literal]>
    (<["HEADER_SIZE"%string := VInt 12]>
       (<["supported_extensions"%string := VStrings supported_extensions]>
          (<["repack_results"%string := VDict]> ∅))).

(** *** The analyzer's entry scan *)

(** [MSIHeader] *)
Record msi_header := {
  signature : bytes;
  sector : Z;
  layer : Z;
  image_number : Z;
  reserved : Z;
  image_size : Z
}.

(** An element of [results['msi_entries']]. *)
Record msi_entry := {
  index : Z;
  offset : Z;
  header : msi_header;
  image_data_offset : Z;
  image_data_size : Z;
  image_type : string;
  image_preview : string
}.

(** [header_data[i]] on a [bytes] value. *)
Definition byte_at (bs : bytes) (i : nat) : result Z :=
  match bs !! i with
  | Some b => Ok (Z_of_byte b)
  | None => Raise IndexError
  end.

(** [_parse_msi_header] *)
Definition _parse_msi_header (self : instance) (data : bytes) (offset : Z)
    : result msi_header :=
  header_size ← getattr_int self "HEADER_SIZE";
  if blen data <? offset + header_size then Raise ValueError
  else
    let header_data := py_slice data offset (offset + header_size) in
    let signature := py_slice header_data 0 4 in
    sector ← byte_at header_data 4;
    layer ← byte_at header_data 5;
    image_number ← byte_at header_data 6;
    reserved ← byte_at header_data 7;
    image_size ← unpack_le32 (py_slice header_data 8 12);
    Ok {| signature := signature; sector := sector; layer := layer;
          image_number := image_number; reserved := reserved;
          image_size := image_size |}.

(** [self.magic_patterns], in insertion order. *)
Definition magic_patterns : list (bytes * string) :=
  [(msi_signature_literal, "MSI Packer Header"%string);
   ([xff; xd8; xff], "JPEG Image Start"%string);
   ([x89; x50; x4e; x47], "PNG Image Start"%string);
   (list_byte_of_string "BM", "BMP Image Start"%string);
   ([x00; x00; x01; x00], "ICO Image Start"%string);
   (list_byte_of_string "RIFF", "RIFF Container"%string);
   (list_byte_of_string "MZ", "PE/DOS Executable"%string);
   (list_byte_of_string "_FVH", "UEFI Firmware Volume"%string)].

Definition bytes_startswith (data pat : bytes) : bool :=
  bool_decide (take (length pat) data = pat).

(** The UTF-8 bytes of the two Hangul syllables of the "unknown" label. *)
Definition unknown_label : string :=
  "Unknown (" +:+
  String "236" (String "139" (String "156" (String "236" (String "158" (String "145" ""))))) +:+
  ": ".

(** [_detect_image_type] *)
Definition _detect_image_type (image_data : bytes) : string :=
  match image_data with
  | [] => "Empty"
  | _ =>
      match find (λ p, bytes_startswith image_data (fst p)) magic_patterns with
      | Some (_, desc) => desc
      | None =>
          if 4 <=? blen image_data
          then unknown_label +:+ hexlify_upper (py_slice image_data 0 4) +:+ ")"
          else "Unknown"
      end
  end.

(** The body of the [while] of [_find_msi_entries] at cursor [offset]:
    the entries and the next cursor.  An exception of the header parser is
    caught and moves the cursor by one. *)
Definition find_step (self : instance) (data : bytes) (entries : list msi_entry)
    (offset : Z) : result (list msi_entry * Z) :=
  sig ← getattr_bytes self "MSI_SIGNATURE";
  header_size ← getattr_int self "HEADER_SIZE";
  if bool_decide (py_slice data offset (offset + 4) = sig) then
    match _parse_msi_header self data offset with
    | Ok header =>
        let image_start := offset + header_size in
        let image_end := image_start + image_size header in
        if image_end <=? blen data then
          let image_data := py_slice data image_start image_end in
          let entry :=
            {| index := blen entries;
               offset := offset;
               header := header;
               image_data_offset := image_start;
               image_data_size := image_size header;
               image_type := _detect_image_type image_data;
               image_preview := hexlify_upper (py_slice image_data 0 32) |} in
          Ok (entries ++ [entry], image_end)
        else Ok (entries, offset + 1)
    | Raise _ => Ok (entries, offset + 1)
    end
  else Ok (entries, offset + 1).

Fixpoint find_loop (fuel : nat) (self : instance) (data : bytes)
    (entries : list msi_entry) (offset : Z) : result (list msi_entry) :=
  match fuel with
  | O => Ok entries
  | S fuel' =>
      header_size ← getattr_int self "HEADER_SIZE";
      if offset <? blen data - header_size then
        st ← find_step self data entries offset;
        find_loop fuel' self data (fst st) (snd st)
      else Ok entries
  end.

(** [_find_msi_entries]: the cursor starts at 0 and moves forward by at
    least one in every pass. *)
Definition _find_msi_entries (self : instance) (data : bytes) : result (list msi_entry) :=
  find_loop (length data) self data [] 0.

(** Every entry of the list carries its 0-based position as index. *)
Definition indexed (entries : list msi_entry) : Prop :=
  ∀ i e, entries !! i = Some e → index e = Z.of_nat i.

(** *** The repacker *)

(** An element of [structure_info['entries']]; the keys other than
    ['index'] can be absent when the list comes from the metadata file. *)
Record structure_entry := {
  se_index : Z;
  se_offset : option Z;
  se_image_size : option Z;
  se_image_type : option string;
  se_sector : option Z;
  se_layer : option Z;
  se_image_number : option Z;
  se_reserved : option Z;
  se_filename : option string
}.

(** What a name in a directory denotes. *)
Inductive dirent :=
| File (contents : bytes)
| Directory.

(** A directory in [os.listdir] order. *)
Abbreviation directory := (list (string * dirent)).

Fixpoint dir_lookup (name : string) (dir : directory) : option dirent :=
  match dir with
  | [] => None
  | (n, e) :: dir' => if String.eqb n name then Some e else dir_lookup name dir'
  end.

(** [header[i] = v] on a bytearray. *)
Definition set_byte (buf : bytes) (i : nat) (v : Z) : result bytes :=
  if (v <? 0) || (255 <? v) then Raise ValueError
  else if bool_decide (i < length buf)%nat then Ok (<[i := byte_of_Z v]> buf)
  else Raise IndexError.

(** [struct.pack_into('<I', buf, off, n)] *)
Definition pack_into_le32 (buf : bytes) (off : Z) (n : Z) : result bytes :=
  packed ← pack_le32 n;
  if blen buf <? off + 4 then Raise StructError
  else Ok (take (Z.to_nat off) buf ++ packed ++ drop (Z.to_nat (off + 4)) buf).

(** [bytearray(n)] *)
Definition bytearray_zeros (n : Z) : result bytes :=
  if n <? 0 then Raise ValueError else Ok (zeros n).

(** [_create_msi_header] *)
Definition _create_msi_header (self : instance) (image_number image_size : Z)
    : result bytes :=
  header_size ← getattr_int self "HEADER_SIZE";
  header ← bytearray_zeros header_size;
  sig ← getattr_bytes self "MSI_SIGNATURE";
  let header := py_slice_assign header 0 4 sig in
  header ← set_byte header 4 0;
  header ← set_byte header 5 0;
  header ← set_byte header 6 (Z.land image_number 255);
  header ← set_byte header 7 0;
  pack_into_le32 header 8 image_size.

(** [_create_msi_header_from_structure] *)
Definition _create_msi_header_from_structure (self : instance)
    (structure_info : structure_entry) (image_size : Z) : result bytes :=
  header_size ← getattr_int self "HEADER_SIZE";
  header ← bytearray_zeros header_size;
  sig ← getattr_bytes self "msi_signature";
  let header := py_slice_assign header 0 4 sig in
  header ← set_byte header 4 (Z.land (default 0 (se_sector structure_info)) 255);
  header ← set_byte header 5 (Z.land (default 0 (se_layer structure_info)) 255);
  header ← set_byte header 6 (Z.land (default 0 (se_image_number structure_info)) 255);
  header ← set_byte header 7 (Z.land (default 0 (se_reserved structure_info)) 255);
  pack_into_le32 header 8 image_size.

(** What a repack leaves behind: the return value and the output file, if
    one was opened for writing. *)
Inductive outcome :=
| Failed (file : option bytes)
| Succeeded (file : bytes).

(** The header that [_create_msi_binary_with_structure] writes for the
    [i]-th file. *)
Definition header_for (self : instance) (structure_info : option (list structure_entry))
    (i : Z) (image_data : bytes) : result bytes :=
  let header_info :=
    match structure_info with
    | Some entries => if i <? blen entries then entries !! Z.to_nat i else None
    | None => None
    end in
  match header_info with
  | Some info => _create_msi_header_from_structure self info (blen image_data)
  | None => _create_msi_header self i (blen image_data)
  end.

(** The loop of [_create_msi_binary_with_structure] over the enumerated
    files; [written] is what the output file holds so far.  An exception
    ends the loop; the file keeps what was written. *)
Fixpoint write_entries (self : instance) (structure_info : option (list structure_entry))
    (files : list (Z * (string * bytes))) (written : bytes) : outcome :=
  match files with
  | [] => Succeeded written
  | (i, (_, image_data)) :: files' =>
      match header_for self structure_info i image_data with
      | Ok header =>
          write_entries self structure_info files' (written ++ header ++ image_data)
      | Raise _ => Failed (Some written)
      end
  end.

(** The header that a successful run has written for an enumerated file
    (empty when the builder raises). *)
Definition emitted_header (self : instance) (structure_info : option (list structure_entry))
    (f : Z * (string * bytes)) : bytes :=
  match header_for self structure_info (fst f) (snd (snd f)) with
  | Ok header => header
  | Raise _ => []
  end.

(** [_create_msi_binary_with_structure]; [image_files] pairs a name with
    the contents read from its path. *)
Definition _create_msi_binary_with_structure (self : instance)
    (image_files : list (string * bytes))
    (structure_info : option (list structure_entry)) : outcome :=
  write_entries self structure_info (enumerate_from 0 image_files) [].

(** [_extract_image_number] *)
Definition _extract_image_number (filename : string) : Z :=
  match strip_prefix "image_nr" filename with
  | Some rest =>
      let '(num, rest) := span_while is_digit rest in
      if string_is_empty num then 0
      else if starts_with "_" rest then parse_decimal num else 0
  | None => 0
  end.

(** [image_files.sort(key=...)]: a stable sort by image number. *)
Fixpoint insert_by_image_number (x : string * bytes) (l : list (string * bytes))
    : list (string * bytes) :=
  match l with
  | [] => [x]
  | y :: l' =>
      if _extract_image_number (fst x) <=? _extract_image_number (fst y)
      then x :: l else y :: insert_by_image_number x l'
  end.

Definition sort_image_files (l : list (string * bytes)) : list (string * bytes) :=
  foldr insert_by_image_number [] l.

(** The test that admits a directory entry to [image_files]. *)
Definition admitted (p : string * dirent) : option (string * bytes) :=
  let '(filename, e) := p in
  if starts_with "image_nr" filename && negb (ends_with ".txt" filename) then
    if matches_image_name filename then
      match e with
      | File contents => Some (filename, contents)
      | Directory => None
      end
    else None
  else None.

(** The [image_files] list before sorting. *)
Definition collect_image_files (msi_pack_dir : directory) : list (string * bytes) :=
  omap admitted msi_pack_dir.

(** [f"image_nr{entry['index']}_off0x{entry['offset']:X}"]: the name,
    without extension, under which the candidate of an entry is kept. *)
Definition entry_filename (entry : msi_entry) : string :=
  "image_nr" +:+ format_d (index entry) +:+ "_off0x" +:+ format_X (offset entry).

(** The [structure_info] entry that is derived from an analysis entry. *)
Definition structure_of_entry (entry : msi_entry) : structure_entry :=
  {| se_index := index entry;
     se_offset := Some (offset entry);
     se_image_size := Some (image_data_size entry);
     se_image_type := Some (image_type entry);
     se_sector := Some (sector (header entry));
     se_layer := Some (layer (header entry));
     se_image_number := Some (image_number (header entry));
     se_reserved := Some (reserved (header entry));
     se_filename := Some (entry_filename entry) |}.

(** The inputs of the structure-preservation mode.
    - [msi_pack_dir]: the [MSI_pack] directory.
    - [original_analysis]: [Some entries] when the analysis is given and
      has the key ['msi_entries'].
    - [metadata_entries]: the entries that [_parse_metadata_file] returns
      for [msi_structure_info.txt], when that file exists (the text parser
      itself is outside the model). *)
Record pack_input := {
  msi_pack_dir : directory;
  original_analysis : option (list msi_entry);
  metadata_entries : option (list structure_entry)
}.

Definition structure_info_of (inp : pack_input) : option (list structure_entry) :=
  match original_analysis inp with
  | Some entries => Some (map structure_of_entry entries)
  | None => metadata_entries inp
  end.

(** [_repack_with_structure_preservation]; the verification pass after a
    successful write only prints. *)
Definition _repack_with_structure_preservation (self : instance) (inp : pack_input) : outcome :=
  let structure_info := structure_info_of inp in
  let image_files := sort_image_files (collect_image_files (msi_pack_dir inp)) in
  if blen image_files <? 2 then Failed None
  else _create_msi_binary_with_structure self image_files structure_info.

(** The entry of [modified_images] of the change detection. *)
Record modified_info := {
  original_entry : msi_entry;
  new_data : bytes;
  new_size : Z;
  size_diff : Z;
  filepath : string
}.

(** The path that the change detection settles on for an entry: the name
    with the entry's type as extension, else the first supported extension
    under which something exists. *)
Definition candidate_path (dir : directory) (filename image_type : string) : string :=
  let filepath := filename +:+ "." +:+ image_type in
  match dir_lookup filepath dir with
  | Some _ => filepath
  | None =>
      match find (λ ext, bool_decide (is_Some (dir_lookup (filename +:+ ext) dir)))
                 supported_extensions with
      | Some ext => filename +:+ ext
      | None => filepath
      end
  end.

(** The branch of [_detect_modified_images] for one entry. *)
Inductive classification :=
| Skipped                      (* offset range beyond the original *)
| Missing                      (* no candidate file *)
| Unreadable                   (* the candidate cannot be read *)
| Unchanged
| Modified (path : string) (extracted : bytes).

Definition classify (original_data : bytes) (dir : directory) (entry : msi_entry)
    : classification :=
  let abs_offset := offset entry in
  let original_size := image_data_size entry in
  let start_offset := abs_offset in
  let end_offset := start_offset + original_size in
  if blen original_data <? end_offset then Skipped
  else
    let original_image_data := py_slice original_data start_offset end_offset in
    let filename := entry_filename entry in
    let filepath := candidate_path dir filename (image_type entry) in
    match dir_lookup filepath dir with
    | Some (File extracted_data) =>
        if bool_decide (extracted_data = original_image_data) then Unchanged
        else Modified filepath extracted_data
    | Some Directory => Unreadable
    | None => Missing
    end.

Definition is_modified (c : classification) : bool :=
  match c with Modified _ _ => true | _ => false end.

(** The entries that the change detection classifies as modified. *)
Definition modified_entries (inp : pack_input) (original_data : bytes) : list msi_entry :=
  match original_analysis inp with
  | None => []
  | Some entries =>
      filter (λ entry, is_modified (classify original_data (msi_pack_dir inp) entry) = true)
        entries
  end.

Abbreviation detect_state := (gmap Z modified_info * Z * Z)%type.

Definition detect_entry (original_data : bytes) (dir : directory)
    (st : detect_state) (entry : msi_entry) : detect_state :=
  let '(modified_images, unchanged_count, modified_count) := st in
  match classify original_data dir entry with
  | Skipped => st
  | Missing | Unreadable | Unchanged =>
      (modified_images, unchanged_count + 1, modified_count)
  | Modified path extracted_data =>
      (<[index entry :=
           {| original_entry := entry;
              new_data := extracted_data;
              new_size := blen extracted_data;
              size_diff := blen extracted_data - image_data_size entry;
              filepath := path |}]> modified_images,
       unchanged_count, modified_count + 1)
  end.

(** [_detect_modified_images] *)
Definition _detect_modified_images (inp : pack_input) (original_data : bytes)
    : gmap Z modified_info :=
  match original_analysis inp with
  | None => ∅
  | Some entries =>
      fst (fst (foldl (detect_entry original_data (msi_pack_dir inp)) (∅, 0, 0) entries))
  end.

(** [_copy_original_file] *)
Definition _copy_original_file (original_data : bytes) : outcome :=
  Succeeded original_data.

(** [repack_from_directory] when the input directory holds an [MSI_pack]
    directory (the structure-preservation branch); [original_file] is the
    contents of the original file when one is given and exists. *)
Definition repack_from_directory (self : instance) (inp : pack_input)
    (original_file : option bytes) : outcome :=
  match original_file with
  | Some original_data =>
      let modified_images := _detect_modified_images inp original_data in
      if bool_decide (modified_images = ∅) then _copy_original_file original_data
      else _repack_with_structure_preservation self inp
  | None => _repack_with_structure_preservation self inp
  end.

(** The loop of [_create_msi_binary] over the enumerated files, given by
    their contents; [written] is what the output file holds so far. *)
Fixpoint create_loop (self : instance) (files : list (Z * bytes)) (written : bytes)
    : outcome :=
  match files with
  | [] => Succeeded written
  | (i, image_data) :: files' =>
      match _create_msi_header self i (blen image_data) with
      | Ok header => create_loop self files' (written ++ header ++ image_data)
      | Raise _ => Failed (Some written)
      end
  end.

(** [_create_msi_binary] *)
Definition _create_msi_binary (self : instance) (image_files : list bytes) : outcome :=
  create_loop self (enumerate_from 0 image_files) [].

(** The header and payload that the repacker as shipped writes for the
    [i]-th file. *)
Definition written_entry (f : Z * bytes) : bytes :=
  list_byte_of_string "$MsI"
  ++ [x00; x00; byte_of_Z (Z.land (fst f) 255); x00]
  ++ le32 (blen (snd f)) ++ [x00] ++ snd f.

(** What the change detection has established for every entry of
    [modified_images]. *)
Definition recorded (inp : pack_input) (original_data : bytes)
    (idx : Z) (info : modified_info) : Prop :=
  let entry := original_entry info in
  ∃ entries (i : nat),
    original_analysis inp = Some entries
    ∧ entries !! i = Some entry
    ∧ idx = index entry
    ∧ offset entry + image_data_size entry <= blen original_data
    ∧ filepath info
      = candidate_path (msi_pack_dir inp) (entry_filename entry) (image_type entry)
    ∧ dir_lookup (filepath info) (msi_pack_dir inp) = Some (File (new_data info))
    ∧ new_data info
      ≠ py_slice original_data (offset entry) (offset entry + image_data_size entry)
    ∧ new_size info = blen (new_data info)
    ∧ size_diff info = blen (new_data info) - image_data_size entry.

(** [_find_original_image_at_offset]; [None] is Python's [None]. *)
Definition _find_original_image_at_offset (original_data : bytes)
    (offset expected_size : Z) : option bytes :=
  if blen original_data <=? offset then None
  else if offset + expected_size <=? blen original_data
  then Some (py_slice original_data offset (offset + expected_size))
  else Some (py_slice_from original_data offset).

End Msi.
(** ** Concrete buffers used by the examples *)

Module Samples.

Definition png4 : bytes := [x89; x50; x4e; x47].
Definition png8 : bytes := [x89; x50; x4e; x47; x61; x62; x63; x64].
Definition jpg4 : bytes := [xff; xd8; xff; xe0].

(** A format-A metadata record with relative offset [0x20], followed by
    its payload. *)
Definition record_a (size_byte : byte) (pattern payload : bytes) : bytes :=
  [size_byte; x00; x00; x00; x20; x00; x00; x00] ++ pattern ++ payload.

(** A format-A host buffer: one container with a 4-byte and an 8-byte PNG
    stub (108 bytes). *)
Definition host_a : bytes :=
  Asus.asus_pattern
  ++ record_a x04 Asus.default_pattern_first png4
  ++ record_a x08 Asus.default_pattern_other png8.

(** The extracted directory of [host_a] with both images as extracted. *)
Definition extracted_a : Asus.tree :=
  <["asus_pack_1"%string :=
      <["image_nr1_off0x00000040.png"%string := png4]>
        (<["image_nr2_off0x00000064.png"%string := png8]> ∅)]> ∅.

(** Both images replaced, the first by a longer and the second by a
    shorter PNG stub: the two size changes are [+4] and [-4]. *)
Definition extracted_a_swapped : Asus.tree :=
  <["asus_pack_1"%string :=
      <["image_nr1_off0x00000040.png"%string := png8]>
        (<["image_nr2_off0x00000064.png"%string := png4]> ∅)]> ∅.

(** The first image replaced by a longer PNG stub. *)
Definition extracted_a_grown : Asus.tree :=
  <["asus_pack_1"%string :=
      <["image_nr1_off0x00000040.png"%string := png8]>
        (<["image_nr2_off0x00000064.png"%string := png8]> ∅)]> ∅.

(** The first image replaced by a JPEG stub, the second as extracted. *)
Definition files_a_mismatch : gmap string bytes :=
  <["image_nr1_off0x00000040.png"%string := jpg4]>
    (<["image_nr2_off0x00000064.png"%string := png8]> ∅).

Definition extracted_a_mismatch : Asus.tree :=
  <["asus_pack_1"%string := files_a_mismatch]> ∅.

(** The package of [host_a] and its first image, as the scanner decodes
    them. *)
Definition package_a : Asus.package_info :=
  Eval vm_compute in
    default {| Asus.header_offset := 0; Asus.header_end := 0;
               Asus.images := []; Asus.total_size := 0 |}
      (Asus.detect_asus_packer_format host_a !! 0%nat).

Definition image_a1 : Asus.image_info :=
  Eval vm_compute in
    default {| Asus.number := 0; Asus.img_type := ""; Asus.size := 0;
               Asus.offset_in_package := 0; Asus.absolute_offset := 0;
               Asus.data := []; Asus.metadata_offset := 0;
               Asus.special_pattern_offset := 0; Asus.special_pattern := [] |}
      (Asus.images package_a !! 0%nat).

(** The entries of [host_a] that the change detection records as modified
    for [extracted_a_grown]. *)
Definition modified_a_grown : gmap Z Asus.modified_info :=
  fst (fst (Asus.detect_changes extracted_a_grown (Asus.detect_asus_packer_format host_a))).

(** The buffer that the rebuild of [host_a] writes for [extracted_a_grown]
    (112 bytes). *)
Definition rebuilt_a_grown : bytes :=
  Eval vm_compute in
    match Asus.rebuild_asus_packer_preserve_structure host_a (Some extracted_a_grown) with
    | Asus.Written out => out
    | _ => []
    end.

(** A buffer that starts with [BM] and declares its own length, 100. *)
Definition bmp_100 : bytes := [x42; x4d; x64; x00; x00; x00] ++ zeros 94.

(** A buffer that starts with [BM] and declares 200 bytes but has 100. *)
Definition bmp_past_end : bytes := [x42; x4d; xc8; x00; x00; x00] ++ zeros 94.

(** A format-B analysis entry for a 4-byte PNG stub at offset 0. *)
Definition entry_b : Msi.msi_entry :=
  {| Msi.index := 0;
     Msi.offset := 0;
     Msi.header := {| Msi.signature := [x24; x4d; x73; x49];
                      Msi.sector := 0; Msi.layer := 0; Msi.image_number := 0;
                      Msi.reserved := 0; Msi.image_size := 4 |};
     Msi.image_data_offset := 12;
     Msi.image_data_size := 4;
     Msi.image_type := "PNG Image Start";
     Msi.image_preview := "89504E47" |}.

(** An original file whose first four bytes are the PNG stub. *)
Definition original_b : bytes := png4 ++ zeros 12.

(** Two candidate files; the first is a JPEG stub where the entry holds a
    PNG stub. *)
Definition dir_b_mismatch : Msi.directory :=
  [("image_nr0_off0x0.png"%string, Msi.File jpg4);
   ("image_nr1_off0x10.png"%string, Msi.File png8)].

(** The same directory with the first candidate equal to the original. *)
Definition dir_b_unchanged : Msi.directory :=
  [("image_nr0_off0x0.png"%string, Msi.File png4);
   ("image_nr1_off0x10.png"%string, Msi.File png8)].

(** The inputs of the structure-preservation mode for the two
    directories, with the analysis entry above. *)
Definition input_b_mismatch : Msi.pack_input :=
  {| Msi.msi_pack_dir := dir_b_mismatch;
     Msi.original_analysis := Some [entry_b];
     Msi.metadata_entries := None |}.

Definition input_b_unchanged : Msi.pack_input :=
  {| Msi.msi_pack_dir := dir_b_unchanged;
     Msi.original_analysis := Some [entry_b];
     Msi.metadata_entries := None |}.

(** A directory with a single candidate. *)
Definition dir_b_single : Msi.directory :=
  [("image_nr0_off0x0.png"%string, Msi.File png4);
   ("notes.txt"%string, Msi.File [])].

Definition input_b_single : Msi.pack_input :=
  {| Msi.msi_pack_dir := dir_b_single;
     Msi.original_analysis := None;
     Msi.metadata_entries := None |}.

(** A format-B buffer with two well-formed 12-byte headers (4-byte
    signature), payloads of 2 and 1 bytes, and trailing bytes. *)
Definition host_b : bytes :=
  [x24; x4d; x73; x49; x00; x00; x00; x00; x02; x00; x00; x00; x41; x42]
  ++ [x24; x4d; x73; x49; x00; x00; x01; x00; x01; x00; x00; x00; x43]
  ++ zeros 14.

(** An analyzer instance whose signature attribute has 4 bytes. *)
Definition analyzer_sig4 : Msi.instance :=
  <["MSI_SIGNATURE"%string := Msi.VBytes [x24; x4d; x73; x49]]> Msi.analyzer_init.

(** Two candidate files in image-number order, and the binary that the
    repacker creates from them without structure information. *)
Definition files_b : list (string * bytes) :=
  [("image_nr0_off0x0.png"%string, png4); ("image_nr1_off0x10.png"%string, png8)].

Definition rebuilt_b : bytes :=
  Eval vm_compute in
    match Msi._create_msi_binary_with_structure Msi.repacker_init files_b None with
    | Msi.Succeeded out => out
    | Msi.Failed _ => []
    end.

(** The entries that the scan with the 4-byte signature finds in
    [host_b]. *)
Definition entries_b : list Msi.msi_entry :=
  Eval vm_compute in
    match Msi._find_msi_entries analyzer_sig4 host_b with
    | Ok entries => entries
    | Raise _ => []
    end.

(** Two containers, one after the other, and the packages that the
    scanner decodes from them. *)
Definition host_a_twice : bytes := host_a ++ host_a.

Definition package_a_first : Asus.package_info :=
  Eval vm_compute in
    default package_a (Asus.detect_asus_packer_format host_a_twice !! 0%nat).


(** The entry that the change detection records for the grown first image
    of [host_a]. *)
Definition info_a_grown : Asus.modified_info :=
  Eval vm_compute in
    default {| Asus.original_image := image_a1; Asus.new_data := [];
               Asus.new_size := 0; Asus.size_diff := 0; Asus.package_idx := 0 |}
      (modified_a_grown !! 64).

(** The second image of [host_a] replaced by a PNG stub of the same
    length, and what the change detection records for it. *)
Definition png8_edited : bytes := [x89; x50; x4e; x47; x77; x78; x79; x7a].

Definition extracted_a_edited : Asus.tree :=
  <["asus_pack_1"%string :=
      <["image_nr1_off0x00000040.png"%string := png4]>
        (<["image_nr2_off0x00000064.png"%string := png8_edited]> ∅)]> ∅.

Definition modified_a_edited : gmap Z Asus.modified_info :=
  fst (fst (Asus.detect_changes extracted_a_edited (Asus.detect_asus_packer_format host_a))).

(** The header that the repacker builds for image number 3 with a 4-byte
    payload. *)
Definition header_b3 : bytes :=
  Eval vm_compute in
    match Msi._create_msi_header Msi.repacker_init 3 4 with
    | Ok h => h
    | Raise _ => []
    end.

(** The entry that the format-B change detection records for
    [input_b_mismatch]. *)
Definition info_b_mismatch : Msi.modified_info :=
  Eval vm_compute in
    default {| Msi.original_entry := entry_b; Msi.new_data := []; Msi.new_size := 0;
               Msi.size_diff := 0; Msi.filepath := "" |}
      (Msi._detect_modified_images input_b_mismatch original_b !! 0).

(** A buffer with a PNG signature and an [IEND] trailer, and one with a
    JPEG start marker and an end marker. *)
Definition png_24 : bytes := [x00] ++ Asus.png_signature ++ zeros 7 ++ Asus.png_iend.

Definition jpeg_9 : bytes := [x00] ++ Asus.jpeg_magic ++ [xe0; x00; x10] ++ Asus.jpeg_eoi.

(** The first file that the three passes report for [bmp_100]. *)
Definition embedded_bmp_100 : Asus.embedded_file :=
  Eval vm_compute in
    default {| Asus.ef_type := ""; Asus.ef_start := 0; Asus.ef_size := 0; Asus.ef_end := 0 |}
      (head (Asus.embedded_files bmp_100)).

(** What the rebuild of [host_a] writes for [extracted_a_edited]. *)
Definition rebuilt_a_edited : bytes :=
  Eval vm_compute in
    match Asus.rebuild_asus_packer_preserve_structure host_a (Some extracted_a_edited) with
    | Asus.Written out => out
    | _ => []
    end.

(** The entry that the change detection records for the edited second
    image of [host_a]. *)
Definition info_a_edited : Asus.modified_info :=
  Eval vm_compute in default info_a_grown (modified_a_edited !! 100).

End Samples.
(** ** Elementary facts about bytes and slices *)

Lemma blen_nonneg {A} (l : list A) : 0 <= blen l.
Proof. unfold blen. lia. Qed.

Lemma blen_app {A} (l1 l2 : list A) : blen (l1 ++ l2) = blen l1 + blen l2.
Proof. unfold blen. rewrite length_app. lia. Qed.

Lemma Z_of_byte_range b : 0 <= Z_of_byte b < 256.
Proof.
  unfold Z_of_byte. pose proof (Byte.to_N_bounded b). lia.
Qed.

Lemma Z_of_byte_of_Z z : Z_of_byte (byte_of_Z z) = z mod 256.
Proof.
  unfold byte_of_Z, Z_of_byte.
  pose proof (Z.mod_pos_bound z 256 ltac:(lia)) as Hb.
  destruct (Byte.of_N (Z.to_N (z mod 256))) as [b|] eqn:E.
  - apply Byte.to_of_N in E. rewrite E. lia.
  - apply Byte.of_N_None_iff in E. lia.
Qed.

Lemma unpack_pack_le32 n bs : pack_le32 n = Ok bs → unpack_le32 bs = Ok n.
Proof.
  unfold pack_le32. destruct (_ && _) eqn:E; [|discriminate].
  intros [= <-]. apply andb_prop in E as [H1 H2].
  apply Z.leb_le in H1. apply Z.ltb_lt in H2.
  unfold le32. cbn [unpack_le32]. rewrite !Z_of_byte_of_Z. f_equal.
  change (2 ^ 8) with 256. change (2 ^ 16) with 65536.
  change (2 ^ 24) with 16777216. change (2 ^ 32) with 4294967296 in H2.
  pose proof (Z.div_mod n 256 ltac:(lia)).
  pose proof (Z.div_mod (n / 256) 256 ltac:(lia)).
  pose proof (Z.div_mod (n / 256 / 256) 256 ltac:(lia)).
  replace (n / 65536) with (n / 256 / 256)
    by (rewrite Z.div_div by lia; reflexivity).
  replace (n / 16777216) with (n / 256 / 256 / 256)
    by (rewrite !Z.div_div by lia; reflexivity).
  assert (n / 256 / 256 / 256 < 256).
  { rewrite !Z.div_div by lia. apply Z.div_lt_upper_bound; lia. }
  assert (0 <= n / 256 / 256 / 256).
  { rewrite !Z.div_div by lia. apply Z.div_pos; lia. }
  rewrite (Z.mod_small (n / 256 / 256 / 256) 256) by lia.
  lia.
Qed.

Lemma pack_le32_length n bs : pack_le32 n = Ok bs → length bs = 4%nat.
Proof.
  unfold pack_le32. destruct (_ && _); [|discriminate]. by intros [= <-].
Qed.

Lemma pack_le32_ok n : 0 <= n < 2 ^ 32 → pack_le32 n = Ok (le32 n).
Proof.
  intros [H1 H2]. unfold pack_le32.
  apply Z.leb_le in H1. apply Z.ltb_lt in H2. by rewrite H1, H2.
Qed.

Lemma pack_le32_inv n bs : pack_le32 n = Ok bs → bs = le32 n ∧ 0 <= n < 2 ^ 32.
Proof.
  unfold pack_le32. destruct (Z.leb_spec 0 n); [|done].
  destruct (Z.ltb_spec n (2 ^ 32)); [|done]. intros [= <-]. split; [done|lia].
Qed.

Lemma unpack_le32_le32 n : 0 <= n < 2 ^ 32 → unpack_le32 (le32 n) = Ok n.
Proof. intros Hn. by apply unpack_pack_le32, pack_le32_ok. Qed.

Lemma fold_result_app {S A} (f : S → A → result S) s l1 l2 :
  fold_result f s (l1 ++ l2) = (s' ← fold_result f s l1; fold_result f s' l2).
Proof.
  revert s. induction l1 as [|x l1 IH]; intros s; cbn [fold_result app]; [done|].
  destruct (f s x) as [s'|e]; cbn; [apply IH|done].
Qed.

Lemma unpack_le32_range bs n : unpack_le32 bs = Ok n → 0 <= n < 2 ^ 32.
Proof.
  destruct bs as [|b0 [|b1 [|b2 [|b3 [|]]]]]; try discriminate.
  intros [= <-].
  pose proof (Z_of_byte_range b0). pose proof (Z_of_byte_range b1).
  pose proof (Z_of_byte_range b2). pose proof (Z_of_byte_range b3).
  change (2 ^ 8) with 256. change (2 ^ 16) with 65536.
  change (2 ^ 24) with 16777216. change (2 ^ 32) with 4294967296. lia.
Qed.

Lemma norm_index_in_range n i : 0 <= i <= n → norm_index n i = i.
Proof. intros. unfold norm_index. destruct (Z.ltb_spec i 0); lia. Qed.

Lemma norm_index_nonneg n i : 0 <= i → norm_index n i = Z.min i n.
Proof. intros. unfold norm_index. destruct (Z.ltb_spec i 0); lia. Qed.

Lemma py_slice_in_range {A} (data : list A) a b :
  0 <= a → a <= b → b <= blen data →
  py_slice data a b = take (Z.to_nat (b - a)) (drop (Z.to_nat a) data).
Proof.
  intros. unfold py_slice. rewrite !norm_index_in_range by lia. done.
Qed.

Lemma py_slice_length {A} (data : list A) a b :
  0 <= a → 0 <= b →
  blen (py_slice data a b) = Z.max 0 (Z.min b (blen data) - Z.min a (blen data)).
Proof.
  intros Ha Hb. unfold py_slice.
  rewrite !norm_index_nonneg by done.
  pose proof (blen_nonneg data). unfold blen in *.
  rewrite length_take, length_drop. lia.
Qed.

Lemma py_slice_length_in_range {A} (data : list A) a b :
  0 <= a → a <= b → b <= blen data → blen (py_slice data a b) = b - a.
Proof. intros. rewrite py_slice_length by lia. lia. Qed.

(** A slice of the expected length lies inside the buffer. *)
Lemma py_slice_full {A} (data : list A) a n :
  0 <= a → 0 < n → blen (py_slice data a (a + n)) = n → a + n <= blen data.
Proof. intros Ha Hn. rewrite py_slice_length by lia. lia. Qed.

Lemma py_slice_app_skip {A} (pre l post : list A) :
  py_slice (pre ++ l ++ post) (blen pre) (blen pre + blen l) = l.
Proof.
  rewrite py_slice_in_range.
  - unfold blen. rewrite Nat2Z.id.
    replace (Z.to_nat (_ + _ - _)) with (length l) by lia.
    rewrite drop_app_length. by rewrite take_app_length.
  - apply blen_nonneg.
  - pose proof (blen_nonneg l). lia.
  - rewrite !blen_app. pose proof (blen_nonneg post). lia.
Qed.

(** *** Searching *)

Lemma occurs_at_bound pat data p :
  pat ≠ [] → occurs_at pat data p → p + blen pat <= blen data.
Proof.
  intros Hne [Hp Hocc]. apply (f_equal length) in Hocc.
  rewrite length_take, length_drop in Hocc.
  destruct pat as [|b pat]; [done|]. unfold blen.
  cbn [length] in *. lia.
Qed.

Lemma find_in_some pat rest i j :
  find_in pat rest i = Some j →
  i <= j ∧ take (length pat) (drop (Z.to_nat (j - i)) rest) = pat
  ∧ ∀ k, i <= k < j → take (length pat) (drop (Z.to_nat (k - i)) rest) ≠ pat.
Proof.
  revert i. induction rest as [|b rest IH]; intros i; cbn [find_in].
  - case_bool_decide as Hd; [|done]. intros [= <-].
    rewrite Z.sub_diag. split_and!; [lia|done|lia].
  - case_bool_decide as Hd.
    + intros [= <-]. rewrite Z.sub_diag. split_and!; [lia|done|lia].
    + intros Hf. apply IH in Hf as (Hle & Hocc & Hno).
      split_and!; [lia| |].
      * replace (Z.to_nat (j - i)) with (S (Z.to_nat (j - (i + 1)))) by lia. done.
      * intros k Hk. destruct (decide (k = i)) as [->|Hne].
        { by rewrite Z.sub_diag. }
        replace (Z.to_nat (k - i)) with (S (Z.to_nat (k - (i + 1)))) by lia.
        apply Hno. lia.
Qed.

Lemma find_in_none pat rest i :
  find_in pat rest i = None →
  ∀ k, 0 <= k → take (length pat) (drop (Z.to_nat k) rest) ≠ pat.
Proof.
  revert i. induction rest as [|b rest IH]; intros i; cbn [find_in].
  - case_bool_decide as Hd; [done|]. intros _ k _. by rewrite drop_nil.
  - case_bool_decide as Hd; [done|]. intros Hf k Hk.
    destruct (decide (k = 0)) as [->|Hne]; [done|].
    replace (Z.to_nat k) with (S (Z.to_nat (k - 1))) by lia.
    apply (IH _ Hf). lia.
Qed.

Lemma bytes_find_some pat data start j :
  0 <= start → bytes_find pat data start = Some j →
  start <= j ∧ occurs_at pat data j ∧ ∀ k, start <= k < j → ¬ occurs_at pat data k.
Proof.
  intros Hs. unfold bytes_find.
  destruct (Z.ltb_spec (blen data) start) as [|Hle]; [done|].
  rewrite norm_index_in_range by lia.
  intros Hf. apply find_in_some in Hf as (Hle' & Hocc & Hno).
  rewrite drop_drop in Hocc.
  split_and!; [done| |].
  - split; [lia|]. by replace (Z.to_nat j) with (Z.to_nat start + Z.to_nat (j - start))%nat by lia.
  - intros k Hk [_ Hk']. apply (Hno k Hk). rewrite drop_drop.
    by replace (Z.to_nat start + Z.to_nat (k - start))%nat with (Z.to_nat k) by lia.
Qed.

Lemma bytes_find_none pat data start :
  pat ≠ [] → 0 <= start → bytes_find pat data start = None →
  ∀ k, start <= k → ¬ occurs_at pat data k.
Proof.
  intros Hne Hs. unfold bytes_find.
  destruct (Z.ltb_spec (blen data) start) as [Hlt|Hle].
  - intros _ k Hk Hocc. apply occurs_at_bound in Hocc; [|done].
    pose proof (blen_nonneg pat). lia.
  - rewrite norm_index_in_range by lia.
    intros Hf k Hk [_ Hocc].
    apply (find_in_none _ _ _ Hf (k - start)); [lia|].
    rewrite drop_drop.
    by replace (Z.to_nat start + Z.to_nat (k - start))%nat with (Z.to_nat k) by lia.
Qed.

Lemma py_slice_occurs pat data p :
  pat ≠ [] → 0 <= p → py_slice data p (p + blen pat) = pat ↔ occurs_at pat data p.
Proof.
  intros Hne Hp. split.
  - intros Hs. split; [done|].
    assert (p + blen pat <= blen data) as Hb.
    { apply py_slice_full; [done| |by rewrite Hs].
      destruct pat; [done|]. unfold blen. cbn [length]. lia. }
    rewrite py_slice_in_range in Hs by (pose proof (blen_nonneg pat); lia).
    rewrite <- Hs at 2. f_equal. unfold blen. lia.
  - intros Hocc. pose proof (occurs_at_bound _ _ _ Hne Hocc) as Hb.
    destruct Hocc as [_ Hocc].
    rewrite py_slice_in_range by (pose proof (blen_nonneg pat); lia).
    rewrite <- Hocc at 2. f_equal. unfold blen. lia.
Qed.

Lemma py_slice_app_at {A} (pre l post : list A) a b :
  a = blen pre → b = a + blen l → py_slice (pre ++ l ++ post) a b = l.
Proof. intros -> ->. apply py_slice_app_skip. Qed.

Lemma le32_length n : blen (le32 n) = 4.
Proof. done. Qed.

Lemma enumerate_from_lookup {A} (l : list A) start j idx x :
  enumerate_from start l !! j = Some (idx, x) ↔ idx = start + Z.of_nat j ∧ l !! j = Some x.
Proof.
  revert start j. induction l as [|y l IH]; intros start j; cbn [enumerate_from].
  - split; [done|]. by intros [_ ?].
  - destruct j as [|j]; cbn [lookup list_lookup].
    + split; [intros [= <- <-]; split; [lia|done]|].
      intros [-> [= ->]]. do 2 f_equal. lia.
    + rewrite IH. split; intros [-> ?]; split; (lia || done).
Qed.


(** ** Text: formatting and the file-name pattern *)

Section Text.

Lemma string_app_cons c (s1 s2 : string) : String c s1 +:+ s2 = String c (s1 +:+ s2).
Proof. reflexivity. Qed.

Lemma string_app_nil_l (s : string) : EmptyString +:+ s = s.
Proof. reflexivity. Qed.

Lemma string_app_nil_r (s : string) : s +:+ EmptyString = s.
Proof. induction s as [|c s IH]; [done|]. by rewrite string_app_cons, IH. Qed.

Lemma string_app_assoc (s1 s2 s3 : string) : (s1 +:+ s2) +:+ s3 = s1 +:+ (s2 +:+ s3).
Proof. induction s1 as [|c s1 IH]; [done|]. by rewrite !string_app_cons, IH. Qed.

Lemma string_forall_app p s1 s2 :
  string_forall p (s1 +:+ s2) = string_forall p s1 && string_forall p s2.
Proof.
  induction s1 as [|c s1 IH]; [done|]. rewrite string_app_cons. cbn [string_forall].
  rewrite IH. by rewrite andb_assoc.
Qed.

Lemma span_while_app p s c r :
  string_forall p s = true → p c = false →
  span_while p (s +:+ String c r) = (s, String c r).
Proof.
  intros Hs Hc. induction s as [|a s IH].
  - rewrite string_app_nil_l. cbn [span_while]. by rewrite Hc.
  - rewrite string_app_cons. cbn [span_while string_forall] in *.
    apply andb_prop in Hs as [Ha Hs]. by rewrite Ha, (IH Hs).
Qed.

Lemma span_while_all p s :
  string_forall p s = true → span_while p s = (s, EmptyString).
Proof.
  induction s as [|a s IH]; [done|]. cbn [string_forall span_while].
  intros [Ha Hs]%andb_prop. by rewrite Ha, (IH Hs).
Qed.

Lemma parse_decimal_go_app s1 s2 a :
  parse_decimal_go (s1 +:+ s2) a = parse_decimal_go s2 (parse_decimal_go s1 a).
Proof.
  revert a. induction s1 as [|c s1 IH]; intros a; [done|].
  rewrite string_app_cons. cbn [parse_decimal_go]. apply IH.
Qed.

Lemma digit_char_decimal d :
  0 <= d < 10 →
  is_digit (digit_char false d) = true
  ∧ is_hex_digit (digit_char false d) = true
  ∧ Z.of_N (N_of_ascii (digit_char false d)) - 48 = d.
Proof.
  intros Hd.
  assert (d = 0 ∨ d = 1 ∨ d = 2 ∨ d = 3 ∨ d = 4 ∨ d = 5 ∨ d = 6 ∨ d = 7 ∨ d = 8 ∨ d = 9)
    as Hc by lia.
  repeat (destruct Hc as [-> | Hc]; [by vm_compute|]). subst d. by vm_compute.
Qed.

Lemma digit_char_hex d :
  0 <= d < 16 → is_hex_digit (digit_char false d) = true.
Proof.
  intros Hd. destruct (decide (d < 10)) as [Hlt|Hge].
  { by destruct (digit_char_decimal d ltac:(lia)) as (_ & ? & _). }
  assert (d = 10 ∨ d = 11 ∨ d = 12 ∨ d = 13 ∨ d = 14 ∨ d = 15) as Hc by lia.
  repeat (destruct Hc as [-> | Hc]; [by vm_compute|]). subst d. by vm_compute.
Qed.

(** The digits that [format_digits] puts in front of the accumulator. *)
Lemma format_digits_prefix up base fuel n acc :
  ∃ ds, format_digits up base fuel n acc = ds +:+ acc ∧ ds ≠ EmptyString
        ∧ ∀ p, (∀ d, 0 <= d < base → p (digit_char up d) = true) →
               1 < base → string_forall p ds = true.
Proof.
  revert n acc. induction fuel as [|fuel IH]; intros n acc; cbn [format_digits].
  - exists (String (digit_char up (n mod base)) EmptyString). split_and!; [done..|].
    intros p Hp Hb. cbn. rewrite Hp; [done|]. apply Z.mod_pos_bound. lia.
  - destruct (n / base =? 0).
    + exists (String (digit_char up (n mod base)) EmptyString). split_and!; [done..|].
      intros p Hp Hb. cbn. rewrite Hp; [done|]. apply Z.mod_pos_bound. lia.
    + destruct (IH (n / base) (String (digit_char up (n mod base)) acc))
        as (ds & -> & Hne & Hall).
      exists (ds +:+ String (digit_char up (n mod base)) EmptyString). split_and!.
      * by rewrite string_app_assoc.
      * by destruct ds.
      * intros p Hp Hb. rewrite string_forall_app, (Hall p Hp Hb). cbn.
        rewrite Hp; [done|]. apply Z.mod_pos_bound. lia.
Qed.

(** With enough fuel the decimal digits read back as the number. *)
Lemma format_digits_decimal fuel n acc :
  0 <= n < 2 ^ (Z.of_nat fuel + 1) →
  ∃ ds, format_digits false 10 fuel n acc = ds +:+ acc
        ∧ string_forall is_digit ds = true ∧ parse_decimal_go ds 0 = n.
Proof.
  revert n acc. induction fuel as [|fuel IH]; intros n acc Hn; cbn [format_digits].
  - change (2 ^ (Z.of_nat 0 + 1)) with 2 in Hn.
    exists (String (digit_char false (n mod 10)) EmptyString).
    rewrite Z.mod_small by lia.
    destruct (digit_char_decimal n ltac:(lia)) as (Hd & _ & Hv).
    split_and!; [done|by cbn; rewrite Hd|]. cbn. lia.
  - pose proof (Z.mod_pos_bound n 10 ltac:(lia)) as Hm.
    pose proof (Z.div_mod n 10 ltac:(lia)) as Hdm.
    destruct (digit_char_decimal (n mod 10) Hm) as (Hd & _ & Hv).
    destruct (Z.eqb_spec (n / 10) 0) as [Hz|Hnz].
    + exists (String (digit_char false (n mod 10)) EmptyString).
      split_and!; [done|by cbn; rewrite Hd|]. cbn. lia.
    + destruct (IH (n / 10) (String (digit_char false (n mod 10)) acc))
        as (ds & -> & Hall & Hval).
      { split; [apply Z.div_pos; lia|].
        apply Z.div_lt_upper_bound; [lia|].
        replace (Z.of_nat (S fuel) + 1) with (Z.succ (Z.of_nat fuel + 1)) in Hn by lia.
        rewrite Z.pow_succ_r in Hn by lia. lia. }
      exists (ds +:+ String (digit_char false (n mod 10)) EmptyString). split_and!.
      * by rewrite string_app_assoc.
      * rewrite string_forall_app, Hall. cbn. by rewrite Hd.
      * rewrite parse_decimal_go_app, Hval. cbn. lia.
Qed.

Lemma format_d_decimal n :
  0 <= n →
  string_forall is_digit (format_d n) = true ∧ format_d n ≠ EmptyString
  ∧ parse_decimal (format_d n) = n.
Proof.
  intros Hn. unfold format_d, format_int, format_nat_base.
  destruct (Z.ltb_spec n 0); [lia|].
  destruct (format_digits_decimal (Z.to_nat (Z.log2 n)) n EmptyString)
    as (ds & Hf & Hall & Hval).
  { split; [done|]. rewrite Z2Nat.id by apply Z.log2_nonneg.
    destruct (decide (n = 0)) as [->|]; [done|].
    replace (Z.log2 n + 1) with (Z.succ (Z.log2 n)) by lia.
    apply Z.log2_spec. lia. }
  destruct (format_digits_prefix false 10 (Z.to_nat (Z.log2 n)) n EmptyString)
    as (ds' & Hf' & Hne & _).
  rewrite Hf in *. rewrite !string_app_nil_r in *. subst ds'.
  split_and!; done.
Qed.

(** The number can be read off the front of any string that continues the
    decimal digits with an underscore. *)
Lemma format_d_read_back n r :
  0 <= n →
  parse_decimal (fst (span_while is_digit (format_d n +:+ String "_" r))) = n.
Proof.
  intros Hn. destruct (format_d_decimal n Hn) as (Hall & _ & Hval).
  by rewrite span_while_app.
Qed.

Lemma format_08x_hex n :
  0 <= n →
  string_forall is_hex_digit (format_08x n) = true ∧ format_08x n ≠ EmptyString.
Proof.
  intros Hn. unfold format_08x, format_nat_base.
  destruct (Z.ltb_spec n 0); [lia|].
  destruct (format_digits_prefix false 16 (Z.to_nat (Z.log2 n)) n EmptyString)
    as (ds & -> & Hne & Hall).
  assert (∀ k, string_forall is_hex_digit (string_repeat "0" k) = true) as Hrep.
  { intros k. induction k as [|k IH]; [done|]. cbn [string_repeat string_forall].
    by rewrite IH. }
  split.
  - rewrite !string_forall_app, Hrep, (Hall is_hex_digit); [done| |lia].
    intros d Hd. by apply digit_char_hex.
  - destruct (string_repeat "0" _); [|done]. by destruct ds.
Qed.

End Text.

Section FileNames.
Import Asus.

Lemma strip_prefix_app p s : strip_prefix p (p +:+ s) = Some s.
Proof.
  induction p as [|c p IH]; [done|].
  rewrite string_app_cons. cbn [strip_prefix]. by rewrite Ascii.eqb_refl.
Qed.

Lemma detect_asus_image_type_cases d :
  let t := detect_asus_image_type d in
  t = "img"%string ∨ t = "bmp"%string ∨ t = "jpg"%string
  ∨ t = "png"%string ∨ t = "gif"%string ∨ t = "ico"%string.
Proof.
  cbv zeta. unfold detect_asus_image_type.
  repeat (match goal with |- context [if ?b then _ else _] => destruct b end); tauto.
Qed.

Lemma image_type_alnum d :
  let t := detect_asus_image_type d in
  span_while is_alnum t = (t, EmptyString) ∧ t ≠ EmptyString.
Proof.
  cbv zeta.
  destruct (detect_asus_image_type_cases d) as [-> | [-> | [-> | [-> | [-> | ->]]]]];
    by vm_compute.
Qed.

(** A generated candidate name always passes the pattern check. *)
Lemma image_filename_matches img :
  0 <= number img → 0 <= absolute_offset img →
  img_type img = detect_asus_image_type (data img) →
  matches_image_name (image_filename img) = true.
Proof.
  intros Hn Ha Ht. unfold matches_image_name, match_image_name, image_filename.
  destruct (format_d_decimal (number img) Hn) as (Hd & Hdne & _).
  destruct (format_08x_hex (absolute_offset img) Ha) as (Hx & Hxne).
  destruct (image_type_alnum (data img)) as [Hal Htne]. rewrite <- Ht in Hal, Htne.
  rewrite strip_prefix_app. cbn [mbind option_bind].
  change ("_off0x" +:+ ?r)%string with (String "_" ("off0x" +:+ r)).
  rewrite span_while_app by done.
  destruct (format_d (number img)) as [|c0 r0] eqn:E0; [done|]. cbn [string_is_empty].
  change (String "_" ("off0x" +:+ ?r)) with ("_off0x" +:+ r)%string.
  rewrite strip_prefix_app. cbn [mbind option_bind].
  change ("." +:+ ?r)%string with (String "." r).
  rewrite span_while_app by done.
  destruct (format_08x (absolute_offset img)) as [|c1 r1] eqn:E1; [done|].
  cbn [string_is_empty].
  change (String "." ?r) with ("." +:+ r)%string.
  rewrite strip_prefix_app. cbn [mbind option_bind]. rewrite Hal.
  by destruct (img_type img).
Qed.

Lemma image_filename_number img1 img2 :
  0 <= number img1 → 0 <= number img2 →
  image_filename img1 = image_filename img2 → number img1 = number img2.
Proof.
  intros H1 H2 Heq. unfold image_filename in Heq.
  apply (f_equal (strip_prefix "image_nr")) in Heq. rewrite !strip_prefix_app in Heq.
  injection Heq as Heq.
  change ("_off0x" +:+ ?r)%string with (String "_" ("off0x" +:+ r)) in Heq.
  apply (f_equal (λ s, parse_decimal (fst (span_while is_digit s)))) in Heq.
  by rewrite !format_d_read_back in Heq.
Qed.

Lemma pkg_dir_name_inj k1 k2 :
  0 <= k1 → 0 <= k2 → pkg_dir_name k1 = pkg_dir_name k2 → k1 = k2.
Proof.
  intros H1 H2 Heq. unfold pkg_dir_name in Heq.
  apply (f_equal (strip_prefix "asus_pack_")) in Heq. rewrite !strip_prefix_app in Heq.
  injection Heq as Heq. apply (f_equal parse_decimal) in Heq.
  destruct (format_d_decimal k1 H1) as (_ & _ & <-).
  by destruct (format_d_decimal k2 H2) as (_ & _ & <-).
Qed.

End FileNames.

(** ** Format A: properties of the scanner and of the BMP sniffer *)

Section AsusBmp.
Import Asus.

Lemma bmp_candidate_start data p f : bmp_candidate data p = Some f → ef_start f = p.
Proof.
  unfold bmp_candidate. repeat case_match; try done. by intros [= <-].
Qed.

Lemma bmp_candidate_some_iff data p :
  0 <= p →
  is_Some (bmp_candidate data p) ↔
  ∃ size, unpack_le32 (py_slice data (p + 2) (p + 6)) = Ok size
          ∧ 100 <= size <= 50 * 1024 * 1024 ∧ p + size <= blen data.
Proof.
  intros Hp. unfold bmp_candidate. split.
  - intros [f Hf].
    destruct (Z.leb_spec (p + 6) (blen data)); [|done].
    destruct (unpack_le32 _) as [sz|] eqn:Hu; [|done].
    destruct (_ && _) eqn:Hc; [|done].
    apply andb_prop in Hc as [Hc H3]. apply andb_prop in Hc as [H1 H2].
    exists sz. split; [done|]. lia.
  - intros (sz & Hu & Hr & Hb). rewrite Hu.
    destruct (Z.leb_spec (p + 6) (blen data)) as [|Hlt]; [|lia].
    destruct (Z.leb_spec 100 sz); [|lia].
    destruct (Z.leb_spec sz (50 * 1024 * 1024)); [|lia].
    destruct (Z.leb_spec (p + sz) (blen data)); [|lia].
    by eexists.
Qed.

Lemma bmp_magic_nonempty : bmp_magic ≠ [].
Proof. done. Qed.

(** The BMP loop visits exactly the occurrences of the magic from its
    start position on, provided the fuel covers the rest of the buffer. *)
Lemma bmp_loop_elem fuel data start acc f :
  0 <= start → blen data - start < Z.of_nat fuel →
  f ∈ bmp_loop fuel data start acc ↔
  f ∈ acc ∨ ∃ p, start <= p ∧ occurs_at bmp_magic data p ∧ bmp_candidate data p = Some f.
Proof.
  revert start acc. induction fuel as [|fuel IH]; intros start acc Hs Hfuel.
  - cbn [bmp_loop]. split; [by left|]. intros [?|(p & Hp & Hocc & _)]; [done|].
    apply occurs_at_bound in Hocc; [|apply bmp_magic_nonempty].
    pose proof (blen_nonneg bmp_magic). lia.
  - cbn [bmp_loop]. destruct (bytes_find bmp_magic data start) as [pos|] eqn:Hfind.
    + apply bytes_find_some in Hfind as (Hle & Hocc & Hno); [|done].
      pose proof (occurs_at_bound _ _ _ bmp_magic_nonempty Hocc) as Hb.
      change (blen bmp_magic) with 2 in Hb.
      rewrite IH by lia. split.
      * intros [Hin|(p & Hp & Hop & Hc)].
        -- destruct (bmp_candidate data pos) as [f0|] eqn:Hc; [|by left].
           apply elem_of_app in Hin as [Hin|Hin]; [by left|].
           apply list_elem_of_singleton in Hin as ->. right. exists pos. split_and!; [lia|done..].
        -- right. exists p. split_and!; [lia|done..].
      * intros [Hin|(p & Hp & Hop & Hc)].
        -- left. destruct (bmp_candidate data pos); [|done].
           apply elem_of_app. by left.
        -- destruct (decide (p = pos)) as [->|Hne].
           ++ left. rewrite Hc. apply elem_of_app. right. by apply list_elem_of_singleton.
           ++ right. exists p. split_and!; [|done..].
              destruct (decide (p < pos)); [|lia].
              exfalso. apply (Hno p); [lia|done].
    + split; [by left|]. intros [?|(p & Hp & Hocc & _)]; [done|].
      exfalso. by apply (bytes_find_none _ _ _ bmp_magic_nonempty Hs Hfind p).
Qed.

(** C7.  A span that starts with ASCII [BM] is reported as a BMP image by
    the analyzer's BMP pass exactly when the little-endian 32-bit field at
    [offset+2] can be read and lies in [100, 50 MiB] with [offset+size]
    inside the buffer; a [BM] whose declared size points past the end of
    the buffer is never reported. *)
Theorem bmp_classified_iff (data : bytes) (p : Z) :
  0 <= p →
  py_slice data p (p + 2) = bmp_magic →
  ((∃ f, f ∈ find_bmp_files data ∧ ef_start f = p ∧ ef_type f = "BMP Image"%string) ↔
   (∃ size, unpack_le32 (py_slice data (p + 2) (p + 6)) = Ok size
            ∧ 100 <= size <= 50 * 1024 * 1024 ∧ p + size <= blen data))
  ∧ (∀ size, unpack_le32 (py_slice data (p + 2) (p + 6)) = Ok size →
             blen data < p + size →
             ¬ ∃ f, f ∈ find_bmp_files data ∧ ef_start f = p).
Proof.
  intros Hp Hbm.
  assert (occurs_at bmp_magic data p) as Hocc.
  { apply py_slice_occurs; [apply bmp_magic_nonempty|done|done]. }
  assert (∀ f, f ∈ find_bmp_files data ↔
               ∃ q, 0 <= q ∧ occurs_at bmp_magic data q ∧ bmp_candidate data q = Some f)
    as Hchar.
  { intros f. unfold find_bmp_files. rewrite bmp_loop_elem; [|lia|].
    - split; [intros [Hin|?]; [by apply elem_of_nil in Hin|done]|by right].
    - pose proof (blen_nonneg data). unfold blen in *. lia. }
  assert ((∃ f, f ∈ find_bmp_files data ∧ ef_start f = p) ↔
          is_Some (bmp_candidate data p)) as Hstart.
  { split.
    - intros (f & Hin & Hst). apply Hchar in Hin as (q & Hq & _ & Hc).
      pose proof (bmp_candidate_start _ _ _ Hc) as Hq'.
      rewrite Hst in Hq'. subst q. by eexists.
    - intros [f Hc]. exists f. split; [|by eapply bmp_candidate_start].
      apply Hchar. by exists p. }
  split.
  - rewrite <- bmp_candidate_some_iff by done. rewrite <- Hstart. split.
    + intros (f & Hin & Hst & _). eauto.
    + intros (f & Hin & Hst). exists f. split_and!; [done..|].
      apply Hchar in Hin as (q & _ & _ & Hc).
      unfold bmp_candidate in Hc. repeat case_match; try done. by injection Hc as <-.
  - intros size Hu Hpast Hex. apply Hstart in Hex.
    apply bmp_candidate_some_iff in Hex as (sz & Hu' & _ & Hb); [|done].
    rewrite Hu in Hu'. injection Hu' as <-. lia.
Qed.

Lemma bmp_classified_iff_witness :
  ((∃ f, f ∈ find_bmp_files Samples.bmp_100 ∧ ef_start f = 0
         ∧ ef_type f = "BMP Image"%string) ↔
   (∃ size, unpack_le32 (py_slice Samples.bmp_100 (0 + 2) (0 + 6)) = Ok size
            ∧ 100 <= size <= 50 * 1024 * 1024 ∧ 0 + size <= blen Samples.bmp_100))
  ∧ (∀ size, unpack_le32 (py_slice Samples.bmp_100 (0 + 2) (0 + 6)) = Ok size →
             blen Samples.bmp_100 < 0 + size →
             ¬ ∃ f, f ∈ find_bmp_files Samples.bmp_100 ∧ ef_start f = 0).
Proof.
  apply (bmp_classified_iff Samples.bmp_100 0); [lia|vm_compute; reflexivity].
Defined.

(** The two sample buffers: the first is reported, the second, whose
    declared size points past the end of the buffer, is not. *)
Lemma bmp_samples :
  map ef_start (find_bmp_files Samples.bmp_100) = [0]
  ∧ find_bmp_files Samples.bmp_past_end = [].
Proof. split; vm_compute; reflexivity. Qed.

End AsusBmp.

Section AsusScan.
Import Asus.

Lemma unpack_le32_slice_ok (data : bytes) a :
  0 <= a → a + 4 <= blen data → ∃ n, unpack_le32 (py_slice data a (a + 4)) = Ok n.
Proof.
  intros Ha Hb.
  pose proof (py_slice_length_in_range data a (a + 4) Ha ltac:(lia) Hb) as Hl.
  destruct (py_slice data a (a + 4)) as [|b0 [|b1 [|b2 [|b3 [|]]]]];
    unfold blen in Hl; cbn [length] in Hl; try lia.
  by eexists.
Qed.

Lemma unpack_le32_ok_length bs n : unpack_le32 bs = Ok n → blen bs = 4.
Proof. by destruct bs as [|b0 [|b1 [|b2 [|b3 [|]]]]]. Qed.

(** What a pass that decodes an entry has established. *)
Lemma entry_step_next data head nr img head' :
  entry_step data head nr = Next img head' →
  ∃ isize ioffs,
    head + 8 <= blen data
    ∧ unpack_le32 (py_slice data head (head + 4)) = Ok isize
    ∧ unpack_le32 (py_slice data (head + 4) (head + 8)) = Ok ioffs
    ∧ 0 < isize ∧ 0 < ioffs
    ∧ (0 <= head + ioffs - 16 →
       py_slice data (head + ioffs - 16) (head + ioffs) = expected_pattern)
    ∧ head + ioffs + isize <= blen data
    ∧ img = {| number := nr + 1;
               img_type := detect_asus_image_type
                             (py_slice data (head + ioffs) (head + ioffs + isize));
               size := isize;
               offset_in_package := ioffs;
               absolute_offset := head + ioffs;
               data := py_slice data (head + ioffs) (head + ioffs + isize);
               metadata_offset := head;
               special_pattern_offset := head + 8;
               special_pattern := py_slice data (head + 8) (head + 8 + 24) |}
    ∧ head' = head + 32 + isize + padding_of isize.
Proof.
  unfold entry_step.
  destruct (Z.ltb_spec (blen data) (head + 8)); [done|].
  destruct (_ || _); [done|].
  destruct (unpack_le32 (py_slice data head _)) as [isize|] eqn:E1; [|done].
  destruct (unpack_le32 (py_slice data (head + 4) _)) as [ioffs|] eqn:E2; [|done].
  destruct (Z.eqb_spec isize 0); [done|].
  destruct (Z.eqb_spec ioffs 0); [done|]. cbn [orb].
  destruct (_ && _) eqn:E4; [done|].
  destruct (Z.ltb_spec (blen data) (head + ioffs + isize)); [done|].
  intros [= <- <-]. exists isize, ioffs.
  pose proof (unpack_le32_range _ _ E1). pose proof (unpack_le32_range _ _ E2).
  split_and!; try done; try lia.
  intros Hc.
  destruct (Z.leb_spec 0 (head + ioffs - 16)); [|lia].
  destruct (Z.leb_spec (head + ioffs - 16 + 16) (blen data)); [|lia].
  cbn [andb] in E4. apply negb_false_iff, bool_decide_eq_true in E4.
  by replace (head + ioffs - 16 + 16) with (head + ioffs) in E4 by lia.
Qed.

Lemma entry_step_next_head data head nr img head' :
  entry_step data head nr = Next img head' → head + 8 <= blen data ∧ head + 32 < head'.
Proof.
  intros (isize & ioffs & ? & _ & _ & ? & _ & _ & _ & _ & ->)%entry_step_next.
  unfold padding_of. pose proof (Z.mod_pos_bound (4 - isize mod 4) 4). lia.
Qed.

(** The stop conditions of the source, for a cursor of the scan. *)
Lemma entry_step_stop_iff data head nr :
  16 <= head →
  (∃ r, entry_step data head nr = Stop r) ↔
  blen data < head + 8 ∨ spec_stop_condition data head.
Proof.
  intros Hh. split.
  - intros [r Hr]. destruct (Z.ltb_spec (blen data) (head + 8)) as [|Hin]; [by left|].
    right. revert Hr. unfold entry_step.
    destruct (Z.ltb_spec (blen data) (head + 8)); [lia|].
    destruct (unpack_le32_slice_ok data head) as [isize E1]; [lia..|].
    destruct (unpack_le32_slice_ok data (head + 4)) as [ioffs E2]; [lia..|].
    replace (head + 4 + 4) with (head + 8) in E2 by lia.
    rewrite E1, E2.
    rewrite (unpack_le32_ok_length _ _ E1), (unpack_le32_ok_length _ _ E2). cbn [Z.ltb orb].
    change (4 ?= 4) with Eq. cbn match.
    destruct (Z.eqb_spec isize 0) as [->|]; [intros _; by left|].
    destruct (Z.eqb_spec ioffs 0) as [->|]; [intros _; right; by left|]. cbn [orb].
    intros Hr. right. right. exists isize, ioffs. split_and!; [done..|].
    destruct (_ && _) eqn:E4.
    + left. apply andb_prop in E4 as [_ E4].
      apply negb_true_iff, bool_decide_eq_false in E4.
      by replace (head + ioffs - 16 + 16) with (head + ioffs) in E4 by lia.
    + destruct (Z.ltb_spec (blen data) (head + ioffs + isize)); [by right|done].
  - intros [Ht|Hspec].
    + exists Truncated. unfold entry_step.
      by destruct (Z.ltb_spec (blen data) (head + 8)); [|lia].
    + destruct (entry_step data head nr) as [r|img head'] eqn:Hstep; [by eexists|].
      exfalso. apply entry_step_next in Hstep
        as (isize & ioffs & ? & E1 & E2 & ? & ? & Hguard & ? & _ & _).
      destruct Hspec as [Hz|[Hz|(sz & ro & E1' & E2' & Hc)]].
      * rewrite E1 in Hz. injection Hz as ->. lia.
      * rewrite E2 in Hz. injection Hz as ->. lia.
      * rewrite E1 in E1'. rewrite E2 in E2'. injection E1' as <-. injection E2' as <-.
        destruct Hc as [Hc|Hc]; [|lia]. apply Hc, Hguard. lia.
Qed.

(** *** The loops: accumulators and fuel *)

Lemma entry_loop_acc fuel data head nr acc :
  entry_loop fuel data head nr acc =
  (acc ++ fst (entry_loop fuel data head nr []), snd (entry_loop fuel data head nr [])).
Proof.
  revert head nr acc. induction fuel as [|fuel IH]; intros head nr acc; cbn [entry_loop].
  - by rewrite app_nil_r.
  - destruct (entry_step data head nr) as [r|img head'].
    + by rewrite app_nil_r.
    + rewrite (IH _ _ (acc ++ [img])), (IH _ _ ([] ++ [img])). cbn [fst snd].
      by rewrite <- app_assoc.
Qed.

Lemma entry_loop_fuel fuel1 fuel2 data head nr acc :
  blen data - head <= Z.of_nat fuel1 → blen data - head <= Z.of_nat fuel2 →
  entry_loop fuel1 data head nr acc = entry_loop fuel2 data head nr acc.
Proof.
  revert fuel2 head nr acc.
  induction fuel1 as [|fuel1 IH]; intros fuel2 head nr acc H1 H2.
  - destruct fuel2 as [|fuel2]; [done|]. cbn [entry_loop].
    destruct (entry_step data head nr) as [r|img head'] eqn:Hstep; [done|].
    apply entry_step_next_head in Hstep. lia.
  - cbn [entry_loop].
    destruct (entry_step data head nr) as [r|img head'] eqn:Hstep.
    + destruct fuel2; cbn [entry_loop]; by rewrite ?Hstep.
    + pose proof (entry_step_next_head _ _ _ _ _ Hstep).
      destruct fuel2 as [|fuel2]; [lia|]. cbn [entry_loop]. rewrite Hstep.
      apply IH; lia.
Qed.

Lemma entries_from_stop data head nr r :
  entry_step data head nr = Stop r → entries_from data head nr = ([], head).
Proof.
  intros Hstep. unfold entries_from. destruct (length data); cbn [entry_loop]; [done|].
  by rewrite Hstep.
Qed.

Lemma entries_from_next data head nr img head' :
  0 <= head → entry_step data head nr = Next img head' →
  entries_from data head nr =
  (img :: fst (entries_from data head' (nr + 1)), snd (entries_from data head' (nr + 1))).
Proof.
  intros Hh Hstep. unfold entries_from.
  pose proof (entry_step_next_head _ _ _ _ _ Hstep) as [Hb Hlt].
  destruct (length data) as [|n] eqn:Hlen; [unfold blen in Hb; lia|].
  cbn [entry_loop]. rewrite Hstep, entry_loop_acc. cbn [app].
  rewrite (entry_loop_fuel n (S n)); [done|unfold blen in *; lia..].
Qed.

Lemma entry_loop_head_le fuel data head nr acc :
  head <= snd (entry_loop fuel data head nr acc).
Proof.
  revert head nr acc. induction fuel as [|fuel IH]; intros head nr acc; cbn [entry_loop].
  - done.
  - destruct (entry_step data head nr) as [r|img head'] eqn:Hstep; [done|].
    apply entry_step_next_head in Hstep. specialize (IH head' (nr + 1) (acc ++ [img])). lia.
Qed.

(** A property that every decoding pass establishes holds for every image
    of the loop's result, together with its position in the result. *)
Lemma entry_loop_lookup (P : Z → Z → image_info → Prop) fuel data head nr i img :
  (∀ h n im h', entry_step data h n = Next im h' → P h n im) →
  fst (entry_loop fuel data head nr []) !! i = Some img →
  ∃ h, head <= h ∧ P h (nr + Z.of_nat i) img.
Proof.
  intros HP. revert head nr i. induction fuel as [|fuel IH]; intros head nr i; cbn [entry_loop].
  - done.
  - destruct (entry_step data head nr) as [r|im head'] eqn:Hstep; [done|].
    rewrite entry_loop_acc. cbn [fst app]. destruct i as [|i]; cbn [lookup list_lookup].
    + intros [= <-]. exists head. split; [lia|]. rewrite Z.add_0_r. by eapply HP.
    + intros Hl. apply IH in Hl as (h & Hh & Hp).
      apply entry_step_next_head in Hstep. exists h. split; [lia|].
      by replace (nr + Z.of_nat (S i)) with (nr + 1 + Z.of_nat i) by lia.
Qed.

Lemma package_loop_acc fuel data pos acc :
  package_loop fuel data pos acc = acc ++ package_loop fuel data pos [].
Proof.
  revert pos acc. induction fuel as [|fuel IH]; intros pos acc; cbn [package_loop].
  - by rewrite app_nil_r.
  - destruct (bytes_find asus_pattern data pos) as [s|]; [|by rewrite app_nil_r].
    destruct (scan_entries data _) as [imgs h].
    rewrite (IH _ (acc ++ _)), (IH _ ([] ++ _)). by rewrite <- app_assoc.
Qed.

Lemma asus_pattern_nonempty : asus_pattern ≠ [].
Proof. done. Qed.

Lemma package_loop_fuel fuel1 fuel2 data pos acc :
  0 <= pos →
  blen data - pos < Z.of_nat fuel1 → blen data - pos < Z.of_nat fuel2 →
  package_loop fuel1 data pos acc = package_loop fuel2 data pos acc.
Proof.
  revert fuel2 pos acc.
  induction fuel1 as [|fuel1 IH]; intros fuel2 pos acc Hp H1 H2.
  - destruct fuel2 as [|fuel2]; [done|]. cbn [package_loop].
    unfold bytes_find. by destruct (Z.ltb_spec (blen data) pos); [|lia].
  - destruct fuel2 as [|fuel2].
    + cbn [package_loop]. unfold bytes_find.
      by destruct (Z.ltb_spec (blen data) pos); [|lia].
    + cbn [package_loop].
      destruct (bytes_find asus_pattern data pos) as [s|] eqn:Hfind; [|done].
      apply bytes_find_some in Hfind as (Hle & Hocc & _); [|done].
      apply occurs_at_bound in Hocc; [|apply asus_pattern_nonempty].
      destruct (scan_entries data _) as [imgs h] eqn:Hscan.
      pose proof (entry_loop_head_le (length data) data (s + blen asus_pattern) 0 []) as Hh.
      unfold scan_entries, entries_from in Hscan. rewrite Hscan in Hh. cbn [snd] in Hh.
      change (blen asus_pattern) with 32 in *.
      apply IH; lia.
Qed.

Lemma packages_from_none data pos :
  bytes_find asus_pattern data pos = None → packages_from data pos = [].
Proof. intros Hf. unfold packages_from. cbn [package_loop]. by rewrite Hf. Qed.

Lemma packages_from_some data pos s :
  0 <= pos → bytes_find asus_pattern data pos = Some s →
  packages_from data pos =
  {| header_offset := s;
     header_end := s + 32;
     images := fst (scan_entries data (s + 32));
     total_size := snd (scan_entries data (s + 32)) - s |}
  :: packages_from data (snd (scan_entries data (s + 32))).
Proof.
  intros Hp Hfind. unfold packages_from at 1. cbn [package_loop]. rewrite Hfind.
  change (blen asus_pattern) with 32.
  apply bytes_find_some in Hfind as (Hle & Hocc & _); [|done].
  apply occurs_at_bound in Hocc; [|apply asus_pattern_nonempty].
  change (blen asus_pattern) with 32 in Hocc.
  pose proof (entry_loop_head_le (length data) data (s + 32) 0 []) as Hh.
  fold (entries_from data (s + 32) 0) in Hh. fold (scan_entries data (s + 32)) in Hh.
  destruct (scan_entries data (s + 32)) as [imgs h]. cbn [fst snd] in *.
  rewrite package_loop_acc. cbn [app]. f_equal. unfold packages_from.
  apply package_loop_fuel; unfold blen in *; lia.
Qed.

(** Every package of a scan is a signature match followed by the result
    of the entry loop. *)
Lemma packages_from_lookup fuel data pos k pkg :
  0 <= pos →
  package_loop fuel data pos [] !! k = Some pkg →
  ∃ s, pos <= s ∧ occurs_at asus_pattern data s
       ∧ pkg = {| header_offset := s;
                  header_end := s + 32;
                  images := fst (scan_entries data (s + 32));
                  total_size := snd (scan_entries data (s + 32)) - s |}.
Proof.
  revert pos k. induction fuel as [|fuel IH]; intros pos k Hp; cbn [package_loop]; [done|].
  destruct (bytes_find asus_pattern data pos) as [s|] eqn:Hfind; [|done].
  change (blen asus_pattern) with 32.
  apply bytes_find_some in Hfind as (Hle & Hocc & _); [|done].
  pose proof (entry_loop_head_le (length data) data (s + 32) 0 []) as Hh.
  fold (entries_from data (s + 32) 0) in Hh. fold (scan_entries data (s + 32)) in Hh.
  destruct (scan_entries data (s + 32)) as [imgs h] eqn:Hscan. cbn [fst snd] in *.
  rewrite package_loop_acc. cbn [app]. destruct k as [|k]; cbn [lookup list_lookup].
  - intros [= <-]. exists s. by rewrite Hscan.
  - intros Hl. apply IH in Hl as (s' & Hs' & Hocc' & ->); [|lia].
    exists s'. split_and!; [lia|done..].
Qed.

End AsusScan.

Section AsusScanClaims.
Import Asus.

(** C5, at a concrete input.  On a buffer that ends with the signature the
    entry loop stops at the first cursor although none of the three
    conditions of the claim holds there: no field can be read at all. *)
Lemma entry_loop_stop_outside_three_conditions :
  (∃ r, entry_step asus_pattern 32 0 = Stop r)
  ∧ ¬ spec_stop_condition asus_pattern 32
  ∧ scan_entries asus_pattern 32 = ([], 32).
Proof.
  split_and!.
  - by exists Truncated.
  - intros [H|[H|(sz & ro & H & _)]]; vm_compute in H; discriminate.
  - reflexivity.
Qed.

(** C5, amended.  At a cursor of the scan the entry loop stops exactly when
    fewer than 8 bytes are left at the cursor or one of the three
    conditions holds (a field reads as zero, the 16 bytes before the
    payload differ from the constant, the payload span leaves the buffer).
    When it stops the entries decoded before are kept, and the search for
    further containers resumes at the final cursor. *)
Theorem entry_loop_stops_exactly (data : bytes) :
  (∀ head nr, 32 <= head →
     (∃ r, entry_step data head nr = Stop r) ↔
     blen data < head + 8 ∨ spec_stop_condition data head)
  ∧ (∀ head nr r, entry_step data head nr = Stop r →
       entries_from data head nr = ([], head))
  ∧ (∀ head nr img head', 0 <= head → entry_step data head nr = Next img head' →
       entries_from data head nr =
       (img :: fst (entries_from data head' (nr + 1)),
        snd (entries_from data head' (nr + 1))))
  ∧ (∀ pos s, 0 <= pos → bytes_find asus_pattern data pos = Some s →
       packages_from data pos =
       {| header_offset := s;
          header_end := s + 32;
          images := fst (scan_entries data (s + 32));
          total_size := snd (scan_entries data (s + 32)) - s |}
       :: packages_from data (snd (scan_entries data (s + 32)))).
Proof.
  split_and!.
  - intros head nr Hh. apply entry_step_stop_iff. lia.
  - apply entries_from_stop.
  - apply entries_from_next.
  - apply packages_from_some.
Qed.

Lemma entry_loop_stops_exactly_witness :
  32 <= 108
  ∧ ((∃ r, entry_step Samples.host_a 108 2 = Stop r) ↔
     blen Samples.host_a < 108 + 8 ∨ spec_stop_condition Samples.host_a 108).
Proof.
  split; [lia|].
  apply (proj1 (entry_loop_stops_exactly Samples.host_a) 108 2). lia.
Defined.

(** The images of a scanned package carry their 1-based position. *)
Lemma scan_entries_number data e i img :
  fst (scan_entries data e) !! i = Some img → number img = Z.of_nat i + 1.
Proof.
  intros Hl. unfold scan_entries, entries_from in Hl.
  apply (entry_loop_lookup (λ _ n im, number im = n + 1)) in Hl as (h & _ & Hn); [lia|].
  intros h n im h' (isize & ioffs & _ & _ & _ & _ & _ & _ & _ & -> & _)%entry_step_next.
  done.
Qed.

Lemma scan_entries_type data e i img :
  fst (scan_entries data e) !! i = Some img →
  img_type img = detect_asus_image_type (Asus.data img).
Proof.
  intros Hl. unfold scan_entries, entries_from in Hl.
  apply (entry_loop_lookup (λ _ _ im, img_type im = detect_asus_image_type (Asus.data im)))
    in Hl as (h & _ & Hn); [done|].
  intros h n im h' (isize & ioffs & _ & _ & _ & _ & _ & _ & _ & -> & _)%entry_step_next.
  done.
Qed.

Lemma detect_lookup data k pkg :
  detect_asus_packer_format data !! k = Some pkg →
  ∃ s, 0 <= s ∧ occurs_at asus_pattern data s
       ∧ pkg = {| header_offset := s;
                  header_end := s + 32;
                  images := fst (scan_entries data (s + 32));
                  total_size := snd (scan_entries data (s + 32)) - s |}.
Proof.
  unfold detect_asus_packer_format, packages_from. by apply packages_from_lookup.
Qed.

Lemma detect_images_number data k pkg i img :
  detect_asus_packer_format data !! k = Some pkg →
  images pkg !! i = Some img → number img = Z.of_nat i + 1.
Proof.
  intros (s & _ & _ & ->)%detect_lookup. cbn [images]. apply scan_entries_number.
Qed.

Lemma detect_images_type data k pkg i img :
  detect_asus_packer_format data !! k = Some pkg →
  images pkg !! i = Some img → img_type img = detect_asus_image_type (Asus.data img).
Proof.
  intros (s & _ & _ & ->)%detect_lookup. cbn [images]. apply scan_entries_type.
Qed.

End AsusScanClaims.

(** ** Format A: properties of the change detection and of the rebuild *)

Section AsusDetect.
Import Asus.

Lemma detect_image_count pkg_idx files st image :
  snd (detect_image pkg_idx files st image) =
  snd st + (if is_modified (classify files image) then 1 else 0).
Proof.
  destruct st as [[m u] c]. unfold detect_image.
  destruct (classify files image); cbn [snd is_modified]; lia.
Qed.

Lemma detect_images_count pkg_idx files st imgs :
  snd (foldl (detect_image pkg_idx files) st imgs) =
  snd st + blen (filter (λ image, is_modified (classify files image) = true) imgs).
Proof.
  revert st. induction imgs as [|img imgs IH]; intros st; cbn [foldl].
  - unfold blen. cbn. lia.
  - rewrite IH, detect_image_count, filter_cons.
    destruct (is_modified (classify files img)) eqn:E.
    + rewrite decide_True by done. unfold blen. cbn [length]. lia.
    + rewrite decide_False by done. lia.
Qed.

Lemma detect_packages_count extracted st start pkgs :
  snd (foldl (detect_package extracted) st (enumerate_from start pkgs)) =
  snd st
  + blen (flat_map
            (λ p : Z * package_info,
               match extracted !! pkg_dir_name (fst p) with
               | None => []
               | Some files =>
                   map (pair (fst p))
                     (filter (λ image, is_modified (classify files image) = true)
                        (images (snd p)))
               end)
            (enumerate_from start pkgs)).
Proof.
  revert st start. induction pkgs as [|pkg pkgs IH]; intros st start;
    cbn [enumerate_from foldl flat_map].
  - unfold blen. cbn. lia.
  - rewrite IH, blen_app. unfold detect_package. cbn [fst snd].
    destruct (extracted !! pkg_dir_name start) as [files|].
    + rewrite detect_images_count. unfold blen. rewrite length_map. lia.
    + unfold blen. cbn [length]. lia.
Qed.

(** The counter [modified_count] is the number of entries classified as
    modified. *)
Lemma detect_changes_count extracted pkgs :
  snd (detect_changes extracted pkgs) = blen (modified_entries extracted pkgs).
Proof.
  unfold detect_changes, modified_entries. by rewrite detect_packages_count.
Qed.

Lemma choose_strategy_copy st : snd st = 0 → choose_strategy st = CopyOriginal.
Proof. destruct st as [[m u] c]. cbn. by intros ->. Qed.

Lemma rebuild_copy data extracted pkg pkgs :
  detect_asus_packer_format data = pkg :: pkgs →
  modified_entries extracted (pkg :: pkgs) = [] →
  rebuild_asus_packer_preserve_structure data (Some extracted) = Written data.
Proof.
  intros Hd Hm. unfold rebuild_asus_packer_preserve_structure. rewrite Hd.
  rewrite choose_strategy_copy; [done|].
  by rewrite detect_changes_count, Hm.
Qed.

End AsusDetect.

Section AsusStructural.
Import Asus.

Lemma padding_of_range n : 0 <= padding_of n < 4.
Proof. unfold padding_of. apply Z.mod_pos_bound. lia. Qed.

Lemma padding_of_aligned n : (n + padding_of n) mod 4 = 0.
Proof.
  pose proof (Z.mod_pos_bound n 4 ltac:(lia)) as Hr.
  pose proof (Z.div_mod n 4 ltac:(lia)) as Hd.
  assert (∃ k, n + padding_of n = k * 4) as [k ->]; [|apply Z.mod_mul; lia].
  assert (n mod 4 = 0 ∨ n mod 4 = 1 ∨ n mod 4 = 2 ∨ n mod 4 = 3) as Hc by lia.
  unfold padding_of.
  destruct Hc as [Hc | [Hc | [Hc | Hc]]]; rewrite Hc in *.
  - exists (n / 4). change ((4 - 0) mod 4) with 0. lia.
  - exists (n / 4 + 1). change ((4 - 1) mod 4) with 3. lia.
  - exists (n / 4 + 1). change ((4 - 2) mod 4) with 2. lia.
  - exists (n / 4 + 1). change ((4 - 3) mod 4) with 1. lia.
Qed.

Lemma zeros_length n : 0 <= n → blen (zeros n) = n.
Proof. intros. unfold zeros, blen. rewrite length_replicate. lia. Qed.

(** The pattern that is emitted always has 24 bytes. *)
Lemma emitted_pattern_length data img :
  0 <= metadata_offset img → blen (emitted_pattern data img) = 24.
Proof.
  intros Hm. unfold emitted_pattern.
  destruct (_ && _) eqn:E.
  - apply andb_prop in E as [_ E]. by apply Z.eqb_eq in E.
  - destruct (Z.leb_spec (metadata_offset img + 32) (blen data)).
    + rewrite py_slice_length_in_range by lia. lia.
    + by destruct (number img =? 1).
Qed.

Lemma emit_image_ok data m buf img buf' :
  emit_image data m buf img = Ok buf' ↔
  blen (emitted_payload m img) < 2 ^ 32 ∧ buf' = buf ++ emitted_record data m img.
Proof.
  unfold emit_image, emitted_record, emitted_metadata.
  set (payload := emitted_payload m img).
  pose proof (blen_nonneg payload) as Hnn.
  pose proof (padding_of_range (blen payload)) as Hpad.
  assert (∀ b : bytes, (if 0 <? padding_of (blen payload)
                        then b ++ zeros (padding_of (blen payload)) else b)
                       = b ++ zeros (padding_of (blen payload))) as Hz.
  { intros b. destruct (Z.ltb_spec 0 (padding_of (blen payload))); [done|].
    replace (padding_of (blen payload)) with 0 by lia. by rewrite app_nil_r. }
  change (pack_le32 32) with (Ok (le32 32)).
  split.
  - destruct (pack_le32 (blen payload)) as [sf|] eqn:E1; [|done].
    apply pack_le32_inv in E1 as [-> Hrange]. cbn -[le32 padding_of zeros].
    rewrite Hz. intros [= <-]. split; [lia|]. by rewrite <- !app_assoc.
  - intros [Hlt ->]. rewrite pack_le32_ok by lia. cbn -[le32 padding_of zeros].
    rewrite Hz. by rewrite <- !app_assoc.
Qed.

Lemma emit_images_ok data m buf imgs buf' :
  fold_result (emit_image data m) buf imgs = Ok buf' ↔
  Forall (λ img, blen (emitted_payload m img) < 2 ^ 32) imgs
  ∧ buf' = buf ++ flat_map (emitted_record data m) imgs.
Proof.
  revert buf. induction imgs as [|img imgs IH]; intros buf; cbn [fold_result flat_map].
  - rewrite app_nil_r. split; [intros [= <-]; by split|intros [_ ->]; done].
  - destruct (emit_image data m buf img) as [b1|e] eqn:E; cbn.
    + apply emit_image_ok in E as [Hlt ->]. rewrite IH, <- app_assoc. split.
      * intros [Hall ->]. split; [by constructor|done].
      * intros [Hall ->]. by inversion Hall.
    + split; [done|]. intros [Hall ->]. inversion Hall as [|? ? Hlt Hrest]; subst.
      assert (emit_image data m buf img = Ok (buf ++ emitted_record data m img)) as E'
        by by apply emit_image_ok.
      congruence.
Qed.

Lemma rebuild_package_ok data m buf cur pkg st' :
  rebuild_package data m (buf, cur) pkg = Ok st' ↔
  Forall (λ img, blen (emitted_payload m img) < 2 ^ 32) (sorted_by_number (images pkg))
  ∧ st' = (buf ++ package_bytes data m cur pkg, header_offset pkg + total_size pkg).
Proof.
  unfold rebuild_package, package_bytes.
  set (gap := if cur <? header_offset pkg then py_slice data cur (header_offset pkg) else []).
  assert ((if cur <? header_offset pkg
           then buf ++ py_slice data cur (header_offset pkg) else buf) = buf ++ gap) as ->.
  { unfold gap. destruct (cur <? header_offset pkg); [done|by rewrite app_nil_r]. }
  destruct (fold_result _ _ _) as [b|e] eqn:E; cbn.
  - apply emit_images_ok in E as [Hall ->]. split.
    + intros [= <-]. split; [done|]. by rewrite <- !app_assoc.
    + intros [_ ->]. by rewrite <- !app_assoc.
  - split; [done|]. intros [Hall _].
    assert (fold_result (emit_image data m)
              ((buf ++ gap) ++ py_slice data (header_offset pkg) (header_end pkg))
              (sorted_by_number (images pkg)) = Ok
              (((buf ++ gap) ++ py_slice data (header_offset pkg) (header_end pkg))
               ++ flat_map (emitted_record data m) (sorted_by_number (images pkg)))) as E'
      by by apply emit_images_ok.
    congruence.
Qed.

Lemma rebuild_packages_ok data m buf cur pkgs buf' cur' :
  fold_result (rebuild_package data m) (buf, cur) pkgs = Ok (buf', cur') →
  payloads_fit m pkgs
  ∧ buf' ++ (if cur' <? blen data then py_slice_from data cur' else [])
    = buf ++ layout data m cur pkgs.
Proof.
  revert buf cur. induction pkgs as [|pkg pkgs IH]; intros buf cur;
    cbn [fold_result layout].
  - intros [= <- <-]. split; [constructor|done].
  - destruct (rebuild_package data m (buf, cur) pkg) as [st|e] eqn:E; cbn; [|done].
    apply rebuild_package_ok in E as [Hall ->].
    intros [Hfit ->]%IH. split; [by constructor|]. by rewrite <- app_assoc.
Qed.

Lemma rebuild_packages_total data m buf cur pkgs :
  payloads_fit m pkgs →
  ∃ st, fold_result (rebuild_package data m) (buf, cur) pkgs = Ok st.
Proof.
  revert buf cur. induction pkgs as [|pkg pkgs IH]; intros buf cur Hfit;
    cbn [fold_result].
  - by eexists.
  - inversion Hfit as [|? ? Hpkg Hrest]; subst.
    assert (rebuild_package data m (buf, cur) pkg =
            Ok (buf ++ package_bytes data m cur pkg, header_offset pkg + total_size pkg))
      as -> by by apply rebuild_package_ok.
    cbn. by apply IH.
Qed.

(** The rebuilt buffer is the layout, and a buffer is produced exactly when
    every emitted payload fits a 32-bit size field. *)
Lemma structural_buffer_layout data pkgs m out :
  structural_buffer data pkgs m = Ok out →
  payloads_fit m pkgs ∧ out = layout data m 0 pkgs.
Proof.
  unfold structural_buffer.
  destruct (fold_result _ _ _) as [[buf cur]|e] eqn:E; cbn; [|done].
  apply rebuild_packages_ok in E as [Hfit E]. intros [= <-]. split; [done|].
  cbn [app] in E. rewrite <- E. destruct (cur <? blen data); [done|by rewrite app_nil_r].
Qed.

Lemma structural_buffer_total data pkgs m :
  payloads_fit m pkgs → structural_buffer data pkgs m = Ok (layout data m 0 pkgs).
Proof.
  intros Hfit. destruct (rebuild_packages_total data m [] 0 pkgs Hfit) as [[buf cur] E].
  unfold structural_buffer. rewrite E. cbn.
  apply rebuild_packages_ok in E as [_ E]. cbn [app] in E. rewrite <- E.
  destruct (cur <? blen data); [done|by rewrite app_nil_r].
Qed.

(** A list whose numbers do not decrease is left as it is by the sort. *)
Lemma insert_by_number_head x l :
  (∀ y, head l = Some y → number x <= number y) → insert_by_number x l = x :: l.
Proof.
  destruct l as [|y l]; [done|]. intros H. cbn.
  by destruct (Z.leb_spec (number x) (number y)); [|specialize (H y eq_refl); lia].
Qed.

Lemma sorted_by_number_id c l :
  (∀ i img, l !! i = Some img → number img = c + Z.of_nat i) →
  sorted_by_number l = l.
Proof.
  revert c. induction l as [|x l IH]; intros c Hn; [done|].
  unfold sorted_by_number. cbn [foldr]. fold (sorted_by_number l).
  rewrite (IH (c + 1)).
  - apply insert_by_number_head. intros y Hy.
    pose proof (Hn 0%nat x eq_refl). destruct l as [|y' l]; [done|].
    injection Hy as ->. pose proof (Hn 1%nat y eq_refl). lia.
  - intros i img Hi. rewrite (Hn (S i) img Hi). lia.
Qed.

Lemma detect_images_sorted data k pkg :
  detect_asus_packer_format data !! k = Some pkg →
  sorted_by_number (images pkg) = images pkg.
Proof.
  intros Hk. apply (sorted_by_number_id 1). intros i img Hi.
  rewrite (detect_images_number _ _ _ _ _ Hk Hi). lia.
Qed.

(** The layout around one package, and around one record of a package. *)
Lemma layout_split data m cur pkgs k pkg :
  pkgs !! k = Some pkg →
  ∃ pre cur',
    layout data m cur pkgs =
    pre ++ package_bytes data m cur' pkg
    ++ layout data m (header_offset pkg + total_size pkg) (drop (S k) pkgs).
Proof.
  revert cur k. induction pkgs as [|p pkgs IH]; intros cur k; [done|].
  destruct k as [|k]; cbn [lookup list_lookup layout drop].
  - intros [= ->]. by exists [], cur.
  - intros Hk. destruct (IH (header_offset p + total_size p) k Hk) as (pre & cur' & ->).
    exists (package_bytes data m cur p ++ pre), cur'. by rewrite <- app_assoc.
Qed.

Lemma flat_map_split {A B} (f : A → list B) l i x :
  l !! i = Some x →
  flat_map f l = flat_map f (take i l) ++ f x ++ flat_map f (drop (S i) l).
Proof.
  intros Hi. rewrite <- (take_drop_middle l i x Hi) at 1.
  by rewrite flat_map_app.
Qed.

End AsusStructural.

(** ** Format B: properties of the analyzer's scan and of the repacker *)

Section MsiLemmas.
Import Msi.

Lemma find_step_indexed self data entries off st :
  find_step self data entries off = Ok st → indexed entries → indexed (fst st).
Proof.
  unfold find_step. intros Hstep Hidx.
  destruct (getattr_bytes self "MSI_SIGNATURE") as [sig|]; [|done].
  destruct (getattr_int self "HEADER_SIZE") as [hs|]; [|done].
  cbn in Hstep. case_bool_decide; [|by injection Hstep as <-].
  destruct (_parse_msi_header self data off) as [h|]; [|by injection Hstep as <-].
  destruct (_ <=? _); [|by injection Hstep as <-].
  injection Hstep as <-. cbn [fst]. intros i e Hi.
  apply lookup_app_Some in Hi as [Hi|[Hlen Hi]]; [by apply Hidx|].
  apply list_lookup_singleton_Some in Hi as [Hi <-]. cbn [index]. unfold blen. lia.
Qed.

Lemma find_loop_indexed fuel self data entries off res :
  find_loop fuel self data entries off = Ok res → indexed entries → indexed res.
Proof.
  revert entries off. induction fuel as [|fuel IH]; intros entries off; cbn [find_loop].
  - by intros [= <-].
  - destruct (getattr_int self "HEADER_SIZE") as [hs|]; [|done]. cbn.
    destruct (_ <? _); [|by intros [= <-]].
    destruct (find_step self data entries off) as [st|] eqn:Hstep; [|done]. cbn.
    intros Hloop Hidx. eapply IH; [exact Hloop|]. by eapply find_step_indexed.
Qed.

Lemma find_msi_entries_index self data entries i e :
  _find_msi_entries self data = Ok entries → entries !! i = Some e → index e = Z.of_nat i.
Proof.
  intros Hf Hi. eapply find_loop_indexed; [exact Hf| |exact Hi]. by intros j x.
Qed.

(** *** The header builders *)

Lemma header_from_structure_raises info image_size :
  _create_msi_header_from_structure repacker_init info image_size = Raise AttributeError.
Proof. reflexivity. Qed.

Lemma create_with_structure_fails image_files entries :
  image_files ≠ [] → entries ≠ [] →
  _create_msi_binary_with_structure repacker_init image_files (Some entries)
  = Failed (Some []).
Proof.
  intros Hf He. destruct image_files as [|[name contents] rest]; [done|].
  destruct entries as [|e entries]; [done|].
  unfold _create_msi_binary_with_structure. cbn [enumerate_from write_entries].
  assert (header_for repacker_init (Some (e :: entries)) 0 contents = Raise AttributeError)
    as ->; [|done].
  unfold header_for.
  assert ((0 <? blen (e :: entries)) = true) as ->.
  { apply Z.ltb_lt. unfold blen. cbn [length]. lia. }
  apply header_from_structure_raises.
Qed.

(** *** Collecting and sorting the candidate files *)

Lemma insert_by_image_number_length x l :
  length (insert_by_image_number x l) = S (length l).
Proof.
  induction l as [|y l IH]; [done|]. cbn [insert_by_image_number].
  destruct (_ <=? _); cbn [length]; [done|by rewrite IH].
Qed.

Lemma sort_image_files_length l : length (sort_image_files l) = length l.
Proof.
  induction l as [|x l IH]; [done|]. unfold sort_image_files. cbn [foldr].
  fold (sort_image_files l). by rewrite insert_by_image_number_length, IH.
Qed.

Lemma collect_image_files_length dir :
  (length (collect_image_files dir)
   <= length (filter (λ p, matches_image_name (fst p) = true) dir))%nat.
Proof.
  unfold collect_image_files. induction dir as [|[name e] dir IH]; [done|].
  cbn [omap list_omap]. rewrite filter_cons. cbn [fst].
  unfold admitted at 1.
  destruct (starts_with "image_nr" name && negb (ends_with ".txt" name)).
  - destruct (matches_image_name name) eqn:Hm.
    + rewrite decide_True by done. destruct e; cbn [length]; lia.
    + rewrite decide_False by done. done.
  - destruct (decide _); cbn [length]; lia.
Qed.

(** *** The change detection *)

Lemma detect_entry_unmodified original dir st entry :
  is_modified (classify original dir entry) = false →
  fst (fst (detect_entry original dir st entry)) = fst (fst st).
Proof.
  destruct st as [[m u] c]. unfold detect_entry.
  by destruct (classify original dir entry).
Qed.

Lemma detect_entries_unmodified original dir st entries :
  filter (λ entry, is_modified (classify original dir entry) = true) entries = [] →
  fst (fst (foldl (detect_entry original dir) st entries)) = fst (fst st).
Proof.
  revert st. induction entries as [|entry entries IH]; intros st; [done|].
  rewrite filter_cons. destruct (is_modified (classify original dir entry)) eqn:E.
  - by rewrite decide_True.
  - rewrite decide_False by done. intros Hf. cbn [foldl].
    rewrite IH by done. by apply detect_entry_unmodified.
Qed.

Lemma detect_modified_images_empty inp original :
  modified_entries inp original = [] → _detect_modified_images inp original = ∅.
Proof.
  unfold modified_entries, _detect_modified_images.
  destruct (original_analysis inp) as [entries|]; [|done].
  intros Hf. by rewrite detect_entries_unmodified.
Qed.

End MsiLemmas.

Section MsiHeaders.
Import Msi.

Ltac bind_inv H :=
  repeat match type of H with
         | mbind _ ?r = Ok _ =>
             let E := fresh "E" in
             destruct r eqn:E; cbn [mbind result_bind] in H; [|discriminate H]
         end.

Lemma pack_into_le32_slice buf n h :
  pack_into_le32 buf 8 n = Ok h → unpack_le32 (py_slice h 8 12) = Ok n.
Proof.
  unfold pack_into_le32. intros H. bind_inv H.
  match goal with E : pack_le32 n = Ok _ |- _ => apply pack_le32_inv in E as [-> Hn] end.
  revert H. destruct (Z.ltb_spec (blen buf) (8 + 4)) as [|Hge]; [done|]. intros H.
  assert (h = take (Z.to_nat 8) buf ++ le32 n ++ drop (Z.to_nat (8 + 4)) buf) as ->
    by congruence.
  rewrite (py_slice_app_at (take (Z.to_nat 8) buf) (le32 n)).
  - by apply unpack_le32_le32.
  - unfold blen in *. rewrite length_take. lia.
  - done.
Qed.

(** Both header builders put the length they are given into the size
    field, bytes 8 to 11 of the header. *)
Lemma create_msi_header_size self i n h :
  _create_msi_header self i n = Ok h → unpack_le32 (py_slice h 8 12) = Ok n.
Proof.
  unfold _create_msi_header. intros H. bind_inv H. by eapply pack_into_le32_slice.
Qed.

Lemma create_msi_header_from_structure_size self info n h :
  _create_msi_header_from_structure self info n = Ok h →
  unpack_le32 (py_slice h 8 12) = Ok n.
Proof.
  unfold _create_msi_header_from_structure. intros H. bind_inv H.
  by eapply pack_into_le32_slice.
Qed.

Lemma header_for_size self si i image_data h :
  header_for self si i image_data = Ok h →
  unpack_le32 (py_slice h 8 12) = Ok (blen image_data).
Proof.
  unfold header_for. destruct (match si with Some _ => _ | None => _ end).
  - apply create_msi_header_from_structure_size.
  - apply create_msi_header_size.
Qed.

Lemma write_entries_ok self si files written out :
  write_entries self si files written = Succeeded out →
  Forall (λ f : Z * (string * bytes),
            header_for self si (fst f) (snd (snd f)) = Ok (emitted_header self si f)) files
  ∧ out = written ++ flat_map (λ f, emitted_header self si f ++ snd (snd f)) files.
Proof.
  revert written. induction files as [|[i [name image_data]] files IH]; intros written;
    cbn [write_entries flat_map].
  - intros [= <-]. split; [constructor|by rewrite app_nil_r].
  - destruct (header_for self si i image_data) as [h|e] eqn:Hh; [|done].
    intros [Hall ->]%IH.
    assert (emitted_header self si (i, (name, image_data)) = h) as Hem.
    { unfold emitted_header. cbn [fst snd]. by rewrite Hh. }
    split; [constructor; [by rewrite Hem|done]|].
    rewrite Hem. cbn [fst snd]. by rewrite <- !app_assoc.
Qed.

(** The fuel of the analyzer's scan is sufficient when the header size
    attribute is positive, as it is after [__init__]. *)
Lemma find_step_advances self data entries off st hs :
  getattr_int self "HEADER_SIZE" = Ok hs → 0 < hs → 0 <= off →
  find_step self data entries off = Ok st → off < snd st.
Proof.
  intros Hhs Hpos Hoff. unfold find_step. rewrite Hhs.
  destruct (getattr_bytes self "MSI_SIGNATURE") as [sig|]; [|done].
  cbn [mbind result_bind]. case_bool_decide; [|intros [= <-]; cbn; lia].
  destruct (_parse_msi_header self data off) as [h|] eqn:Hp; [|intros [= <-]; cbn; lia].
  destruct (_ <=? _); [|intros [= <-]; cbn; lia].
  intros [= <-]. cbn [snd].
  assert (0 <= image_size h); [|lia].
  unfold _parse_msi_header in Hp. bind_inv Hp.
  revert Hp. destruct (_ <? _); [done|]. intros Hp. bind_inv Hp.
  injection Hp as <-. cbn [image_size].
  match goal with E : unpack_le32 _ = Ok _ |- _ => apply unpack_le32_range in E end. lia.
Qed.

Lemma find_loop_fuel fuel1 fuel2 self data entries off hs :
  getattr_int self "HEADER_SIZE" = Ok hs → 0 < hs → 0 <= off →
  blen data - off <= Z.of_nat fuel1 → blen data - off <= Z.of_nat fuel2 →
  find_loop fuel1 self data entries off = find_loop fuel2 self data entries off.
Proof.
  intros Hhs Hpos. revert fuel2 entries off.
  induction fuel1 as [|fuel1 IH]; intros fuel2 entries off Hoff H1 H2.
  - destruct fuel2 as [|fuel2]; [done|]. cbn [find_loop]. rewrite Hhs.
    cbn [mbind result_bind]. by destruct (Z.ltb_spec off (blen data - hs)); [lia|].
  - destruct fuel2 as [|fuel2]; cbn [find_loop]; rewrite Hhs; cbn [mbind result_bind].
    + by destruct (Z.ltb_spec off (blen data - hs)); [lia|].
    + destruct (Z.ltb_spec off (blen data - hs)); [|done].
      destruct (find_step self data entries off) as [st|] eqn:Hstep; [|done].
      cbn [mbind result_bind].
      pose proof (find_step_advances _ _ _ _ _ _ Hhs Hpos Hoff Hstep).
      apply IH; lia.
Qed.

End MsiHeaders.

(** ** Format A: the claims about the structural rebuild *)

Section AsusStructuralClaims.
Import Asus.

Lemma detect_images_metadata_offset data k pkg i img :
  detect_asus_packer_format data !! k = Some pkg →
  images pkg !! i = Some img → 32 <= metadata_offset img.
Proof.
  intros (s & Hs & _ & ->)%detect_lookup. cbn [images]. intros Hl.
  unfold scan_entries, entries_from in Hl.
  apply (entry_loop_lookup (λ h _ im, metadata_offset im = h)) in Hl as (h & Hh & ->); [lia|].
  intros h n im h' (isize & ioffs & _ & _ & _ & _ & _ & _ & _ & -> & _)%entry_step_next.
  done.
Qed.

Lemma emitted_metadata_length data m img :
  0 <= metadata_offset img → blen (emitted_metadata data m img) = 32.
Proof.
  intros Hm. unfold emitted_metadata.
  rewrite !blen_app, !le32_length, emitted_pattern_length by done. lia.
Qed.

Lemma payloads_fit_lookup m pkgs k pkg i img :
  payloads_fit m pkgs → pkgs !! k = Some pkg →
  sorted_by_number (images pkg) !! i = Some img →
  blen (emitted_payload m img) < 2 ^ 32.
Proof.
  intros Hfit Hk Hi.
  eapply Forall_lookup_1 in Hfit; [|exact Hk].
  by eapply Forall_lookup_1 in Hfit; [|exact Hi].
Qed.

(** C3, at a concrete input.  The sample's first image is replaced by one
    that is 4 bytes longer, so the rebuild is structural.  In the rebuilt
    buffer the padded payload of the first entry ends at offset 72, but the
    payload of the second entry begins at offset 104: the 32 bytes of the
    second entry's metadata lie between them. *)
Lemma structural_payloads_not_adjacent :
  choose_strategy (detect_changes Samples.extracted_a_grown
                     (detect_asus_packer_format Samples.host_a)) = StructuralRebuild
  ∧ rebuild_asus_packer_preserve_structure Samples.host_a (Some Samples.extracted_a_grown)
    = Written Samples.rebuilt_a_grown
  ∧ map (λ pkg, map (λ img, (absolute_offset img,
                             absolute_offset img + size img + padding_of (size img)))
                  (images pkg))
      (detect_asus_packer_format Samples.rebuilt_a_grown)
    = [[(64, 72); (104, 112)]].
Proof.
  split_and!; vm_compute; reflexivity.
Qed.

(** C3, amended.  Whenever a structural rebuild produces a buffer, for any
    set of modified entries: the buffer is, in the original order of the
    entries and with none dropped, the concatenation of the entries'
    records; the size field of a record decodes to the length of the
    payload emitted in that record; and the record of the next entry, not
    its payload, begins immediately after the padded payload.  In format A
    a record is 32 bytes of metadata, opened by the size field, then the
    payload, then its padding, so the next payload begins 32 bytes after
    the padded payload.  In format B a record is a header, with the size
    field in its bytes 8 to 11, then the payload, without padding. *)
Theorem structural_rebuild_accounting :
  (∀ (data : bytes) (m : gmap Z modified_info) (out : bytes),
     structural_buffer data (detect_asus_packer_format data) m = Ok out →
     out = layout data m 0 (detect_asus_packer_format data)
     ∧ ∀ k pkg, detect_asus_packer_format data !! k = Some pkg →
         sorted_by_number (images pkg) = images pkg
         ∧ ∀ i img, images pkg !! i = Some img →
             let payload := emitted_payload m img in
             let record := emitted_record data m img in
             unpack_le32 (py_slice record 0 4) = Ok (blen payload)
             ∧ py_slice record 32 (32 + blen payload) = payload
             ∧ blen record = 32 + blen payload + padding_of (blen payload))
  ∧ (∀ (self : Msi.instance) (image_files : list (string * bytes))
       (structure_info : option (list Msi.structure_entry)) (out : bytes),
       Msi._create_msi_binary_with_structure self image_files structure_info
       = Msi.Succeeded out →
       out = flat_map (λ f, Msi.emitted_header self structure_info f ++ snd (snd f))
               (enumerate_from 0 image_files)
       ∧ ∀ j f, enumerate_from 0 image_files !! j = Some f →
           image_files !! j = Some (snd f)
           ∧ unpack_le32 (py_slice (Msi.emitted_header self structure_info f) 8 12)
             = Ok (blen (snd (snd f)))).
Proof.
  split.
  - intros data m out [Hfit ->]%structural_buffer_layout. split; [done|].
    intros k pkg Hk. pose proof (detect_images_sorted _ _ _ Hk) as Hsorted.
    split; [done|]. intros i img Hi. cbv zeta.
    pose proof (detect_images_metadata_offset _ _ _ _ _ Hk Hi) as Hmo.
    assert (blen (emitted_payload m img) < 2 ^ 32) as Hlt.
    { eapply payloads_fit_lookup; [exact Hfit|exact Hk|]. by rewrite Hsorted. }
    pose proof (blen_nonneg (emitted_payload m img)) as Hnn.
    pose proof (padding_of_range (blen (emitted_payload m img))) as Hpad.
    split_and!.
    + assert (py_slice (emitted_record data m img) 0 4
              = le32 (blen (emitted_payload m img))) as ->.
      { unfold emitted_record, emitted_metadata. rewrite <- !app_assoc.
        by apply (py_slice_app_at [] (le32 (blen (emitted_payload m img)))). }
      apply unpack_le32_le32. lia.
    + unfold emitted_record. apply py_slice_app_at; [|done].
      rewrite emitted_metadata_length; lia.
    + unfold emitted_record.
      rewrite !blen_app, emitted_metadata_length, zeros_length by lia. lia.
  - intros self image_files structure_info out Hw.
    unfold Msi._create_msi_binary_with_structure in Hw.
    apply write_entries_ok in Hw as [Hall ->]. split; [done|].
    intros j [idx f] Hj. pose proof Hj as [-> Hf]%enumerate_from_lookup.
    split; [done|]. eapply Forall_lookup_1 in Hall; [|exact Hj].
    by apply header_for_size in Hall.
Qed.

Lemma structural_rebuild_accounting_witness :
  (structural_buffer Samples.host_a (detect_asus_packer_format Samples.host_a)
     Samples.modified_a_grown = Ok Samples.rebuilt_a_grown
   ∧ Samples.rebuilt_a_grown
     = layout Samples.host_a Samples.modified_a_grown 0
         (detect_asus_packer_format Samples.host_a))
  ∧ (Msi._create_msi_binary_with_structure Msi.repacker_init Samples.files_b None
     = Msi.Succeeded Samples.rebuilt_b
     ∧ Samples.rebuilt_b
       = flat_map (λ f, Msi.emitted_header Msi.repacker_init None f ++ snd (snd f))
           (enumerate_from 0 Samples.files_b)).
Proof.
  assert (structural_buffer Samples.host_a (detect_asus_packer_format Samples.host_a)
            Samples.modified_a_grown = Ok Samples.rebuilt_a_grown) as HA
    by (vm_compute; reflexivity).
  assert (Msi._create_msi_binary_with_structure Msi.repacker_init Samples.files_b None
          = Msi.Succeeded Samples.rebuilt_b) as HB
    by (vm_compute; reflexivity).
  split; (split; [assumption|]).
  - apply (proj1 structural_rebuild_accounting Samples.host_a Samples.modified_a_grown _ HA).
  - apply (proj2 structural_rebuild_accounting Msi.repacker_init Samples.files_b None _ HB).
Defined.

(** C6.  In every buffer that the structural rebuild produces, the payload
    of every entry, of length [s], is followed by exactly
    [(4 - s mod 4) mod 4] zero bytes, after which the metadata of the next
    entry of the package begins (or, after the last entry, what follows the
    package); the padded payload is a multiple of 4 bytes long. *)
Theorem structural_rebuild_padding (data : bytes) (pkgs : list package_info)
    (m : gmap Z modified_info) (out : bytes) :
  structural_buffer data pkgs m = Ok out →
  ∀ k pkg i img,
    pkgs !! k = Some pkg → sorted_by_number (images pkg) !! i = Some img →
    let payload := emitted_payload m img in
    let pad := (4 - blen payload mod 4) mod 4 in
    (∃ pre,
       out = pre ++ emitted_metadata data m img ++ payload ++ zeros pad
             ++ flat_map (emitted_record data m) (drop (S i) (sorted_by_number (images pkg)))
             ++ layout data m (header_offset pkg + total_size pkg) (drop (S k) pkgs))
    ∧ (∀ img', sorted_by_number (images pkg) !! S i = Some img' →
         flat_map (emitted_record data m) (drop (S i) (sorted_by_number (images pkg)))
         = emitted_metadata data m img' ++ emitted_payload m img'
           ++ zeros (padding_of (blen (emitted_payload m img')))
           ++ flat_map (emitted_record data m)
                (drop (S (S i)) (sorted_by_number (images pkg))))
    ∧ 0 <= pad < 4 ∧ (blen payload + pad) mod 4 = 0.
Proof.
  intros [Hfit ->]%structural_buffer_layout k pkg i img Hk Hi payload pad.
  split_and!.
  - destruct (layout_split data m 0 pkgs k pkg Hk) as (pre & cur' & ->).
    unfold package_bytes.
    rewrite (flat_map_split (emitted_record data m) _ i img Hi).
    exists (pre
            ++ (if cur' <? header_offset pkg
                then py_slice data cur' (header_offset pkg) else [])
            ++ py_slice data (header_offset pkg) (header_end pkg)
            ++ flat_map (emitted_record data m) (take i (sorted_by_number (images pkg)))).
    unfold emitted_record at 2. fold payload. fold (padding_of (blen payload)).
    by rewrite <- !app_assoc.
  - intros img' Hi'. rewrite (drop_S _ _ _ Hi'). cbn [flat_map].
    unfold emitted_record at 1. by rewrite <- !app_assoc.
  - apply (padding_of_range (blen payload)).
  - apply (padding_of_range (blen payload)).
  - apply padding_of_aligned.
Qed.

Lemma structural_rebuild_padding_witness :
  structural_buffer Samples.host_a (detect_asus_packer_format Samples.host_a)
    Samples.modified_a_grown = Ok Samples.rebuilt_a_grown
  ∧ ∀ pkg img,
      detect_asus_packer_format Samples.host_a !! 0%nat = Some pkg →
      sorted_by_number (images pkg) !! 0%nat = Some img →
      let payload := emitted_payload Samples.modified_a_grown img in
      ∃ pre,
        Samples.rebuilt_a_grown
        = pre ++ emitted_metadata Samples.host_a Samples.modified_a_grown img
          ++ payload ++ zeros ((4 - blen payload mod 4) mod 4)
          ++ flat_map (emitted_record Samples.host_a Samples.modified_a_grown)
               (drop 1 (sorted_by_number (images pkg)))
          ++ layout Samples.host_a Samples.modified_a_grown
               (header_offset pkg + total_size pkg)
               (drop 1 (detect_asus_packer_format Samples.host_a)).
Proof.
  assert (structural_buffer Samples.host_a (detect_asus_packer_format Samples.host_a)
            Samples.modified_a_grown = Ok Samples.rebuilt_a_grown) as H
    by (vm_compute; reflexivity).
  split; [exact H|]. intros pkg img Hk Hi.
  exact (proj1 (structural_rebuild_padding Samples.host_a _ Samples.modified_a_grown _ H
                  0%nat pkg 0%nat img Hk Hi)).
Defined.

End AsusStructuralClaims.

(** ** Format A: the claims about the change detection and the strategy *)

Section AsusDetectClaims.
Import Asus.

Lemma detect_images_absolute_offset data k pkg i img :
  detect_asus_packer_format data !! k = Some pkg →
  images pkg !! i = Some img → 0 <= absolute_offset img.
Proof.
  intros (s & Hs & _ & ->)%detect_lookup. cbn [images]. intros Hl.
  unfold scan_entries, entries_from in Hl.
  apply (entry_loop_lookup (λ h _ im, h <= absolute_offset im)) in Hl as (h & Hh & Hle);
    [lia|].
  intros h n im h' (isize & ioffs & _ & _ & _ & _ & ? & _ & _ & -> & _)%entry_step_next.
  cbn [absolute_offset]. lia.
Qed.

Lemma foldl_ext_lookup {St A} (f g : St → A → St) l s :
  (∀ i x s', l !! i = Some x → f s' x = g s' x) → foldl f s l = foldl g s l.
Proof.
  revert s. induction l as [|x l IH]; intros s Hfg; [done|]. cbn [foldl].
  rewrite (Hfg 0%nat x s eq_refl). apply IH. intros i y s' Hi. by apply (Hfg (S i)).
Qed.

Lemma detect_image_same_count pkg_idx files files' st image :
  (classify files image = classify files' image
   ∨ (classify files image = TypeMismatch ∧ classify files' image = Unchanged)) →
  detect_image pkg_idx files st image = detect_image pkg_idx files' st image.
Proof.
  unfold detect_image. destruct st as [[m u] c]. by intros [->|[-> ->]].
Qed.

Lemma classify_other_file files name contents image :
  image_filename image ≠ name →
  classify (<[name := contents]> files) image = classify files image.
Proof. intros Hne. unfold classify. by rewrite lookup_insert_ne. Qed.

(** C4, for format B, at a concrete input.  The change detection of the
    MSI repacker does not sniff the candidate: a JPEG stub supplied for an
    entry that holds a PNG stub is classified as modified, and the repack
    then fails, whereas with the unchanged candidate the original file is
    copied. *)
Lemma msi_type_mismatch_not_rejected :
  Msi._detect_image_type Samples.jpg4 ≠ Msi.image_type Samples.entry_b
  ∧ Msi.classify Samples.original_b Samples.dir_b_mismatch Samples.entry_b
    = Msi.Modified "image_nr0_off0x0.png" Samples.jpg4
  ∧ Msi.classify Samples.original_b Samples.dir_b_unchanged Samples.entry_b
    = Msi.Unchanged
  ∧ Msi.repack_from_directory Msi.repacker_init Samples.input_b_mismatch
      (Some Samples.original_b) = Msi.Failed (Some [])
  ∧ Msi.repack_from_directory Msi.repacker_init Samples.input_b_unchanged
      (Some Samples.original_b) = Msi.Succeeded Samples.original_b.
Proof.
  split_and!; [by vm_compute|vm_compute; reflexivity..].
Qed.

(** C4, amended to format A.  A candidate whose sniffed type differs from
    the type of its entry is rejected: the entry is classified as a type
    mismatch, and the rebuild gives the same result as for the extracted
    directory in which that candidate is the original payload of the
    entry, which is classified as unchanged. *)
Theorem type_mismatch_is_unchanged (data : bytes) (extracted : tree)
    (k : nat) (pkg : package_info) (i : nat) (img : image_info)
    (files : gmap string bytes) (candidate : bytes) :
  detect_asus_packer_format data !! k = Some pkg →
  images pkg !! i = Some img →
  extracted !! pkg_dir_name (Z.of_nat k + 1) = Some files →
  files !! image_filename img = Some candidate →
  detect_asus_image_type candidate ≠ img_type img →
  classify files img = TypeMismatch
  ∧ classify (<[image_filename img := Asus.data img]> files) img = Unchanged
  ∧ rebuild_asus_packer_preserve_structure data (Some extracted)
    = rebuild_asus_packer_preserve_structure data
        (Some (<[pkg_dir_name (Z.of_nat k + 1) :=
                   <[image_filename img := Asus.data img]> files]> extracted)).
Proof.
  intros Hk Hi Hdir Hfile Hty.
  pose proof (detect_images_number _ _ _ _ _ Hk Hi) as Hnum.
  pose proof (detect_images_type _ _ _ _ _ Hk Hi) as Htype.
  pose proof (detect_images_absolute_offset _ _ _ _ _ Hk Hi) as Habs.
  assert (matches_image_name (image_filename img) = true) as Hmatch
    by (apply image_filename_matches; [lia|done..]).
  assert (classify files img = TypeMismatch) as Hc1.
  { unfold classify. rewrite Hmatch, Hfile. cbn [negb].
    unfold _validate_image_replacement.
    destruct (String.eqb_spec (img_type img) (detect_asus_image_type candidate)); [|done].
    congruence. }
  assert (classify (<[image_filename img := Asus.data img]> files) img = Unchanged) as Hc2.
  { unfold classify. rewrite Hmatch, lookup_insert_eq. cbn [negb].
    unfold _validate_image_replacement. rewrite <- Htype, String.eqb_refl. cbn [negb].
    by rewrite bool_decide_eq_true_2. }
  split_and!; [done..|].
  unfold rebuild_asus_packer_preserve_structure.
  destruct (detect_asus_packer_format data) as [|p0 ps] eqn:Hdet; [done|].
  rewrite <- Hdet in *.
  assert (detect_changes extracted (detect_asus_packer_format data)
          = detect_changes
              (<[pkg_dir_name (Z.of_nat k + 1) :=
                   <[image_filename img := Asus.data img]> files]> extracted)
              (detect_asus_packer_format data)) as ->; [|done].
  unfold detect_changes. apply foldl_ext_lookup.
  intros j [idx p] st [-> Hj]%enumerate_from_lookup. unfold detect_package.
  destruct (decide (j = k)) as [->|Hjk].
  - replace (1 + Z.of_nat k) with (Z.of_nat k + 1) by lia.
    rewrite Hdir, lookup_insert_eq.
    assert (p = pkg) as -> by congruence.
    apply foldl_ext_lookup. intros i' img' st' Hi'.
    apply detect_image_same_count.
    destruct (decide (i' = i)) as [->|Hne].
    + assert (img' = img) as -> by congruence. right. by split.
    + left. symmetry. apply classify_other_file. intros Heq.
      pose proof (detect_images_number _ _ _ _ _ Hk Hi') as Hnum'.
      apply image_filename_number in Heq; lia.
  - rewrite lookup_insert_ne; [done|].
    intros Heq. apply pkg_dir_name_inj in Heq; lia.
Qed.

Lemma type_mismatch_is_unchanged_witness :
  classify Samples.files_a_mismatch Samples.image_a1 = TypeMismatch
  ∧ classify (<[image_filename Samples.image_a1 := Asus.data Samples.image_a1]>
                Samples.files_a_mismatch) Samples.image_a1 = Unchanged
  ∧ rebuild_asus_packer_preserve_structure Samples.host_a (Some Samples.extracted_a_mismatch)
    = rebuild_asus_packer_preserve_structure Samples.host_a
        (Some (<[pkg_dir_name (Z.of_nat 0 + 1) :=
                   <[image_filename Samples.image_a1 := Asus.data Samples.image_a1]>
                     Samples.files_a_mismatch]> Samples.extracted_a_mismatch)).
Proof.
  apply (type_mismatch_is_unchanged Samples.host_a Samples.extracted_a_mismatch
           0%nat Samples.package_a 0%nat Samples.image_a1
           Samples.files_a_mismatch Samples.jpg4);
    [vm_compute; reflexivity..|by vm_compute].
Defined.

End AsusDetectClaims.

(** ** The remaining claims *)

Section StrategyClaims.
Import Asus.

(** C1.  The sample's two images are replaced by a longer and a shorter
    one, with size changes [+4] and [-4].  Both entries are classified as
    modified and their changes sum to zero, so the rebuild takes the direct
    replacement, which skips both for their size: the file written is the
    input, and neither replacement is in it.  The structural rebuild of the
    same input would have emitted both. *)
Theorem cancelling_deltas_take_direct_replace :
  let packages := detect_asus_packer_format Samples.host_a in
  let st := detect_changes Samples.extracted_a_swapped packages in
  map (λ e, number (snd e)) (modified_entries Samples.extracted_a_swapped packages) = [1; 2]
  ∧ size_diff <$> fst (fst st) !! 64 = Some 4
  ∧ size_diff <$> fst (fst st) !! 100 = Some (-4)
  ∧ total_size_change (fst (fst st)) = 0
  ∧ choose_strategy st = DirectReplace
  ∧ rebuild_asus_packer_preserve_structure Samples.host_a (Some Samples.extracted_a_swapped)
    = Written Samples.host_a
  ∧ ∃ out, _structure_preserving_rebuild Samples.host_a packages (fst (fst st)) = Written out
           ∧ out ≠ Samples.host_a
           ∧ py_slice out 64 72 = Samples.png8 ∧ py_slice out 104 108 = Samples.png4.
Proof.
  cbv zeta. split_and!; [vm_compute; reflexivity..|].
  eexists. split; [vm_compute; reflexivity|].
  split_and!; [by vm_compute|vm_compute; reflexivity..].
Qed.

(** C2, at a concrete input.  A host buffer in which the scan finds no
    container has no entry classified as modified, yet the rebuild fails
    and writes nothing. *)
Lemma rebuild_without_container_fails :
  detect_asus_packer_format Samples.png8 = []
  ∧ modified_entries ∅ (detect_asus_packer_format Samples.png8) = []
  ∧ rebuild_asus_packer_preserve_structure Samples.png8 (Some ∅) = Failed.
Proof. split_and!; vm_compute; reflexivity. Qed.

(** C2, amended.  When no entry is classified as modified, the rebuild
    writes a buffer identical to its input: in format A for every host
    buffer in which the scan finds at least one container, in format B for
    every run of the structure-preservation mode against an original
    file. *)
Theorem rebuild_without_modification_is_identity :
  (∀ (data : bytes) (extracted : tree),
     detect_asus_packer_format data ≠ [] →
     modified_entries extracted (detect_asus_packer_format data) = [] →
     rebuild_asus_packer_preserve_structure data (Some extracted) = Written data)
  ∧ (∀ (self : Msi.instance) (inp : Msi.pack_input) (original_data : bytes),
       Msi.modified_entries inp original_data = [] →
       Msi.repack_from_directory self inp (Some original_data)
       = Msi.Succeeded original_data).
Proof.
  split.
  - intros data extracted Hne Hm.
    destruct (detect_asus_packer_format data) as [|pkg pkgs] eqn:Hd; [done|].
    by eapply rebuild_copy.
  - intros self inp original_data Hm. unfold Msi.repack_from_directory.
    rewrite detect_modified_images_empty by done. by rewrite bool_decide_eq_true_2.
Qed.

Lemma rebuild_without_modification_is_identity_witness :
  rebuild_asus_packer_preserve_structure Samples.host_a (Some Samples.extracted_a)
  = Written Samples.host_a
  ∧ Msi.repack_from_directory Msi.repacker_init Samples.input_b_unchanged
      (Some Samples.original_b) = Msi.Succeeded Samples.original_b.
Proof.
  split.
  - apply (proj1 rebuild_without_modification_is_identity Samples.host_a Samples.extracted_a);
      [by vm_compute|vm_compute; reflexivity].
  - apply (proj2 rebuild_without_modification_is_identity Msi.repacker_init
             Samples.input_b_unchanged Samples.original_b).
    vm_compute; reflexivity.
Defined.

End StrategyClaims.

Section IndexClaims.

(** C8, at a concrete input.  The scanner numbers the two entries of the
    sample container 1 and 2, and the candidate of the first entry is
    looked up under [image_nr1_...]: the index of format A is not the
    0-based position. *)
Lemma asus_entries_are_numbered_from_one :
  map (λ pkg, map (λ img, (Asus.number img, Asus.image_filename img)) (Asus.images pkg))
    (Asus.detect_asus_packer_format Samples.host_a)
  = [[(1, "image_nr1_off0x00000040.png"%string);
      (2, "image_nr2_off0x00000064.png"%string)]].
Proof. vm_compute. reflexivity. Qed.

(** C8, amended.  The index recorded for an entry and used in the name of
    its replacement candidate is the sequence position of the entry within
    its container: counted from 1 in format A (the first entry has number
    1), counted from 0 in format B (the first entry has index 0). *)
Theorem entry_index_is_sequence_position :
  (∀ (data : bytes) (k : nat) (pkg : Asus.package_info) (i : nat) (img : Asus.image_info),
     Asus.detect_asus_packer_format data !! k = Some pkg →
     Asus.images pkg !! i = Some img →
     Asus.number img = Z.of_nat i + 1
     ∧ Asus.image_filename img
       = "image_nr" +:+ format_d (Z.of_nat i + 1) +:+ "_off0x"
         +:+ format_08x (Asus.absolute_offset img) +:+ "." +:+ Asus.img_type img)
  ∧ (∀ (self : Msi.instance) (data : bytes) (entries : list Msi.msi_entry)
       (i : nat) (entry : Msi.msi_entry),
       Msi._find_msi_entries self data = Ok entries →
       entries !! i = Some entry →
       Msi.index entry = Z.of_nat i
       ∧ Msi.entry_filename entry
         = "image_nr" +:+ format_d (Z.of_nat i) +:+ "_off0x" +:+ format_X (Msi.offset entry)).
Proof.
  split.
  - intros data k pkg i img Hk Hi.
    pose proof (detect_images_number _ _ _ _ _ Hk Hi) as Hn.
    split; [done|]. unfold Asus.image_filename. by rewrite Hn.
  - intros self data entries i entry Hf Hi.
    pose proof (find_msi_entries_index _ _ _ _ _ Hf Hi) as Hn.
    split; [done|]. unfold Msi.entry_filename. by rewrite Hn.
Qed.

Lemma entry_index_is_sequence_position_witness :
  (Asus.number Samples.image_a1 = Z.of_nat 0 + 1
   ∧ Asus.image_filename Samples.image_a1
     = "image_nr" +:+ format_d (Z.of_nat 0 + 1) +:+ "_off0x"
       +:+ format_08x (Asus.absolute_offset Samples.image_a1) +:+ "."
       +:+ Asus.img_type Samples.image_a1)
  ∧ ∀ entry, Samples.entries_b !! 1%nat = Some entry →
      Msi.index entry = Z.of_nat 1
      ∧ Msi.entry_filename entry
        = "image_nr" +:+ format_d (Z.of_nat 1) +:+ "_off0x" +:+ format_X (Msi.offset entry).
Proof.
  split.
  - apply (proj1 entry_index_is_sequence_position Samples.host_a 0%nat Samples.package_a
             0%nat Samples.image_a1); vm_compute; reflexivity.
  - intros entry Hentry.
    apply (proj2 entry_index_is_sequence_position Samples.analyzer_sig4 Samples.host_b
             Samples.entries_b 1%nat entry); [vm_compute; reflexivity|exact Hentry].
Defined.

(** The analyzer as it is initialised compares a 4-byte slice with its
    5-byte signature, and finds no entry in any buffer. *)
Lemma find_msi_entries_sample :
  Msi._find_msi_entries Msi.analyzer_init Samples.host_b = Ok []
  ∧ map Msi.index Samples.entries_b = [0; 1].
Proof. split; vm_compute; reflexivity. Qed.

End IndexClaims.

Section MsiClaims.
Import Msi.

(** C9.  The header builder that uses the preserved structure information
    raises [AttributeError] for every input: it reads [self.msi_signature],
    which [__init__] never sets.  Hence every creation of a binary with
    structure information for its first file fails, leaving an empty output
    file, and every structure-preserving repack that has at least one
    structure entry available returns failure. *)
Theorem structure_header_always_raises :
  (∀ (info : structure_entry) (image_size : Z),
     _create_msi_header_from_structure repacker_init info image_size
     = Raise AttributeError)
  ∧ (∀ (image_files : list (string * bytes)) (entries : list structure_entry),
       image_files ≠ [] → entries ≠ [] →
       _create_msi_binary_with_structure repacker_init image_files (Some entries)
       = Failed (Some []))
  ∧ (∀ (inp : pack_input) (entries : list structure_entry),
       structure_info_of inp = Some entries → entries ≠ [] →
       ∃ file, _repack_with_structure_preservation repacker_init inp = Failed file).
Proof.
  split_and!.
  - apply header_from_structure_raises.
  - apply create_with_structure_fails.
  - intros inp entries Hs Hne. unfold _repack_with_structure_preservation. rewrite Hs.
    destruct (Z.ltb_spec (blen (sort_image_files (collect_image_files (msi_pack_dir inp)))) 2)
      as [|Hge]; [by eexists|].
    exists (Some []). apply create_with_structure_fails; [|done].
    intros Hnil. rewrite Hnil in Hge. unfold blen in Hge. cbn in Hge. lia.
Qed.

Lemma structure_header_always_raises_witness :
  ∃ file, _repack_with_structure_preservation repacker_init Samples.input_b_mismatch
          = Failed file.
Proof.
  apply (proj2 (proj2 structure_header_always_raises) Samples.input_b_mismatch
           [structure_of_entry Samples.entry_b]); [reflexivity|discriminate].
Defined.

(** C10.  When fewer than two names of the directory match the
    [image_nr<number>_off0x<hex>.<extension>] pattern, the
    structure-preservation repack returns failure before an output file is
    opened; a repack that succeeds has collected at least two images. *)
Theorem repack_needs_two_images (self : instance) (inp : pack_input) :
  (blen (filter (λ p, matches_image_name (fst p) = true) (msi_pack_dir inp)) < 2 →
   _repack_with_structure_preservation self inp = Failed None)
  ∧ (∀ out, _repack_with_structure_preservation self inp = Succeeded out →
            2 <= blen (collect_image_files (msi_pack_dir inp))).
Proof.
  unfold _repack_with_structure_preservation.
  pose proof (collect_image_files_length (msi_pack_dir inp)) as Hle.
  pose proof (sort_image_files_length (collect_image_files (msi_pack_dir inp))) as Hs.
  destruct (Z.ltb_spec (blen (sort_image_files (collect_image_files (msi_pack_dir inp)))) 2)
    as [Hlt|Hge]; unfold blen in *.
  - split; [done|]. by intros out.
  - split; [lia|]. intros _ _. lia.
Qed.

Lemma repack_needs_two_images_witness :
  blen (filter (λ p, matches_image_name (fst p) = true)
          (msi_pack_dir Samples.input_b_single)) < 2
  ∧ _repack_with_structure_preservation repacker_init Samples.input_b_single = Failed None.
Proof.
  assert (blen (filter (λ p, matches_image_name (fst p) = true)
                  (msi_pack_dir Samples.input_b_single)) < 2) as H by (by vm_compute).
  split; [exact H|].
  exact (proj1 (repack_needs_two_images repacker_init Samples.input_b_single) H).
Defined.

End MsiClaims.

(** ** The three passes of [analyze_embedded_files] *)

Section ScanLoop.
Import Asus.

Variable magic : bytes.
Variable candidate : bytes → Z → option embedded_file.
Variable loop : nat → bytes → Z → list embedded_file → list embedded_file.

Hypothesis magic_nonempty : magic ≠ [].
Hypothesis loop_O : ∀ data start acc, loop O data start acc = acc.
Hypothesis loop_S : ∀ fuel data start acc,
  loop (S fuel) data start acc =
  match bytes_find magic data start with
  | None => acc
  | Some pos =>
      loop fuel data (pos + 1)
        (match candidate data pos with Some f => acc ++ [f] | None => acc end)
  end.

(** A pass visits exactly the occurrences of its magic from the start
    position on, provided the fuel covers the rest of the buffer. *)
Lemma scan_loop_elem fuel data start acc f :
  0 <= start → blen data - start < Z.of_nat fuel →
  f ∈ loop fuel data start acc ↔
  f ∈ acc ∨ ∃ p, start <= p ∧ occurs_at magic data p ∧ candidate data p = Some f.
Proof.
  revert start acc. induction fuel as [|fuel IH]; intros start acc Hs Hfuel.
  - rewrite loop_O. split; [by left|]. intros [?|(p & Hp & Hocc & _)]; [done|].
    apply occurs_at_bound in Hocc; [|done].
    pose proof (blen_nonneg magic). lia.
  - rewrite loop_S. destruct (bytes_find magic data start) as [pos|] eqn:Hfind.
    + apply bytes_find_some in Hfind as (Hle & Hocc & Hno); [|done].
      rewrite IH by lia. split.
      * intros [Hin|(p & Hp & Hop & Hc)].
        -- destruct (candidate data pos) as [f0|] eqn:Hc; [|by left].
           apply elem_of_app in Hin as [Hin|Hin]; [by left|].
           apply list_elem_of_singleton in Hin as ->. right. exists pos.
           split_and!; [lia|done..].
        -- right. exists p. split_and!; [lia|done..].
      * intros [Hin|(p & Hp & Hop & Hc)].
        -- left. destruct (candidate data pos); [|done].
           apply elem_of_app. by left.
        -- destruct (decide (p = pos)) as [->|Hne].
           ++ left. rewrite Hc. apply elem_of_app. right. by apply list_elem_of_singleton.
           ++ right. exists p. split_and!; [|done..].
              destruct (decide (p < pos)); [|lia].
              exfalso. apply (Hno p); [lia|done].
    + split; [by left|]. intros [?|(p & Hp & Hocc & _)]; [done|].
      exfalso. by apply (bytes_find_none _ _ _ magic_nonempty Hs Hfind p).
Qed.

End ScanLoop.

Section EmbeddedFiles.
Import Asus.

Lemma bytes_find_first pat data start e :
  pat ≠ [] → 0 <= start → start <= e → occurs_at pat data e →
  (∀ j, start <= j < e → ¬ occurs_at pat data j) →
  bytes_find pat data start = Some e.
Proof.
  intros Hne Hs He Hocc Hno.
  destruct (bytes_find pat data start) as [e'|] eqn:Hfind.
  - apply bytes_find_some in Hfind as (Hle & Hocc' & Hno'); [|done].
    destruct (Z.lt_trichotomy e e') as [Hlt|[->|Hgt]]; [|done|].
    + exfalso. apply (Hno' e); [lia|done].
    + exfalso. apply (Hno e'); [lia|done].
  - exfalso. by apply (bytes_find_none _ _ _ Hne Hs Hfind e).
Qed.

Lemma png_loop_elem fuel data start acc f :
  0 <= start → blen data - start < Z.of_nat fuel →
  f ∈ png_loop fuel data start acc ↔
  f ∈ acc ∨ ∃ p, start <= p ∧ occurs_at png_signature data p ∧ png_candidate data p = Some f.
Proof. by apply (scan_loop_elem png_signature png_candidate png_loop). Qed.

Lemma jpeg_loop_elem fuel data start acc f :
  0 <= start → blen data - start < Z.of_nat fuel →
  f ∈ jpeg_loop fuel data start acc ↔
  f ∈ acc ∨ ∃ p, start <= p ∧ occurs_at jpeg_magic data p ∧ jpeg_candidate data p = Some f.
Proof. by apply (scan_loop_elem jpeg_magic jpeg_candidate jpeg_loop). Qed.

(** The file that the PNG pass reports for a signature at [p]: it ends
    with the first [IEND] trailer at or after [p]. *)
Lemma png_candidate_some data p f :
  0 <= p →
  png_candidate data p = Some f ↔
  ∃ e, p <= e ∧ occurs_at png_iend data e
       ∧ (∀ j, p <= j < e → ¬ occurs_at png_iend data j)
       ∧ f = {| ef_type := "PNG Image"; ef_start := p;
                ef_size := e + 8 - p; ef_end := e + 8 |}.
Proof.
  intros Hp. unfold png_candidate. split.
  - destruct (bytes_find png_iend data p) as [e|] eqn:Hfind; [|done].
    apply bytes_find_some in Hfind as (Hle & Hocc & Hno); [|done].
    intros [= <-]. exists e. split_and!; [done..|]. f_equal. lia.
  - intros (e & Hle & Hocc & Hno & ->).
    rewrite (bytes_find_first png_iend data p e); [|done..]. do 2 f_equal. lia.
Qed.

(** The inner loop of the JPEG pass finds the first end marker at or
    after its start position. *)
Lemma jpeg_end_loop_some fuel data s e :
  0 <= s → jpeg_end_loop fuel data s = Some e →
  s <= e - 2 ∧ occurs_at jpeg_eoi data (e - 2)
  ∧ ∀ j, s <= j < e - 2 → ¬ occurs_at jpeg_eoi data j.
Proof.
  revert s. induction fuel as [|fuel IH]; intros s Hs; cbn [jpeg_end_loop]; [done|].
  destruct (Z.ltb_spec s (blen data - 1)); [|done].
  case_bool_decide as Hsl.
  - intros [= <-]. replace (s + 2 - 2) with s by lia. split_and!; [lia| |lia].
    by apply (py_slice_occurs jpeg_eoi data s).
  - intros (Hle & Hocc & Hno)%IH; [|lia]. split_and!; [lia|done|].
    intros j Hj. destruct (decide (j = s)) as [->|Hne]; [|apply Hno; lia].
    intros Hocc'. apply Hsl. by apply (py_slice_occurs jpeg_eoi data s).
Qed.

Lemma jpeg_end_loop_none fuel data s :
  0 <= s → blen data - s <= Z.of_nat fuel → jpeg_end_loop fuel data s = None →
  ∀ j, s <= j → ¬ occurs_at jpeg_eoi data j.
Proof.
  revert s. induction fuel as [|fuel IH]; intros s Hs Hfuel; cbn [jpeg_end_loop].
  - intros _ j Hj Hocc. apply occurs_at_bound in Hocc; [|done].
    change (blen jpeg_eoi) with 2 in Hocc. lia.
  - destruct (Z.ltb_spec s (blen data - 1)).
    + case_bool_decide as Hsl; [done|]. intros Hn j Hj.
      destruct (decide (j = s)) as [->|Hne].
      * intros Hocc'. apply Hsl. by apply (py_slice_occurs jpeg_eoi data s).
      * apply (IH (s + 1)); [lia|lia|done|lia].
    + intros _ j Hj Hocc. apply occurs_at_bound in Hocc; [|done].
      change (blen jpeg_eoi) with 2 in Hocc. lia.
Qed.

Lemma jpeg_candidate_some data p f :
  0 <= p →
  jpeg_candidate data p = Some f ↔
  ∃ e, p + 3 <= e ∧ occurs_at jpeg_eoi data e
       ∧ (∀ j, p + 3 <= j < e → ¬ occurs_at jpeg_eoi data j)
       ∧ f = {| ef_type := "JPEG Image"; ef_start := p;
                ef_size := e + 2 - p; ef_end := e + 2 |}.
Proof.
  intros Hp. unfold jpeg_candidate. split.
  - destruct (jpeg_end_loop (length data) data (p + 3)) as [e|] eqn:Hl; [|done].
    apply jpeg_end_loop_some in Hl as (Hle & Hocc & Hno); [|lia].
    intros [= <-]. exists (e - 2). split_and!; [lia|done|done|]. f_equal; lia.
  - intros (e & Hle & Hocc & Hno & ->).
    destruct (jpeg_end_loop (length data) data (p + 3)) as [e'|] eqn:Hl.
    + apply jpeg_end_loop_some in Hl as (Hle' & Hocc' & Hno'); [|lia].
      destruct (Z.lt_trichotomy e (e' - 2)) as [Hlt|[->|Hgt]].
      * exfalso. apply (Hno' e); [lia|done].
      * f_equal. f_equal; lia.
      * exfalso. apply (Hno (e' - 2)); [lia|done].
    + exfalso. apply (jpeg_end_loop_none (length data) data (p + 3)) with (j := e) in Hl;
        [done|lia|unfold blen; lia|lia].
Qed.

(** Membership in the list after the three passes. *)
Lemma embedded_files_elem data f :
  f ∈ embedded_files data ↔
  (∃ p, 0 <= p ∧ occurs_at png_signature data p ∧ png_candidate data p = Some f)
  ∨ (∃ p, 0 <= p ∧ occurs_at jpeg_magic data p ∧ jpeg_candidate data p = Some f)
  ∨ (∃ p, 0 <= p ∧ occurs_at bmp_magic data p ∧ bmp_candidate data p = Some f).
Proof.
  unfold embedded_files. pose proof (blen_nonneg data) as Hn.
  assert (blen data - 0 < Z.of_nat (S (length data))) as Hfuel by (unfold blen; lia).
  rewrite bmp_loop_elem, jpeg_loop_elem, png_loop_elem by (done || lia).
  rewrite elem_of_nil. tauto.
Qed.

Lemma bmp_candidate_record data p f :
  bmp_candidate data p = Some f →
  ∃ size, 100 <= size ∧ p + size <= blen data
          ∧ f = {| ef_type := "BMP Image"; ef_start := p;
                   ef_size := size; ef_end := p + size |}.
Proof.
  unfold bmp_candidate.
  destruct (Z.leb_spec (p + 6) (blen data)); [|done].
  destruct (unpack_le32 _) as [sz|]; [|done].
  destruct (Z.leb_spec 100 sz); [|done].
  destruct (Z.leb_spec sz (50 * 1024 * 1024)); [|done].
  destruct (Z.leb_spec (p + sz) (blen data)); [|done].
  cbn [andb]. intros [= <-]. by exists sz.
Qed.

(** Every file that the three passes report lies inside the analysed
    buffer, is not empty, and has its size and its end in agreement. *)
Theorem embedded_files_in_bounds (data : bytes) (f : embedded_file) :
  f ∈ embedded_files data →
  0 <= ef_start f ∧ ef_start f < ef_end f ∧ ef_end f <= blen data
  ∧ ef_size f = ef_end f - ef_start f
  ∧ (ef_type f = "PNG Image"%string ∨ ef_type f = "JPEG Image"%string
     ∨ ef_type f = "BMP Image"%string).
Proof.
  intros [(p & Hp & _ & Hc)|[(p & Hp & _ & Hc)|(p & Hp & _ & Hc)]]%embedded_files_elem.
  - apply png_candidate_some in Hc as (e & Hle & Hocc & _ & ->); [|done].
    apply occurs_at_bound in Hocc; [|done]. change (blen png_iend) with 8 in Hocc.
    cbn. split_and!; [lia..|by left].
  - apply jpeg_candidate_some in Hc as (e & Hle & Hocc & _ & ->); [|done].
    apply occurs_at_bound in Hocc; [|done]. change (blen jpeg_eoi) with 2 in Hocc.
    cbn. split_and!; [lia..|by right; left].
  - apply bmp_candidate_record in Hc as (sz & Hsz & Hb & ->).
    cbn. split_and!; [lia..|by right; right].
Qed.

Lemma embedded_files_in_bounds_witness :
  0 <= ef_start Samples.embedded_bmp_100
  ∧ ef_start Samples.embedded_bmp_100 < ef_end Samples.embedded_bmp_100
  ∧ ef_end Samples.embedded_bmp_100 <= blen Samples.bmp_100
  ∧ ef_size Samples.embedded_bmp_100
    = ef_end Samples.embedded_bmp_100 - ef_start Samples.embedded_bmp_100
  ∧ (ef_type Samples.embedded_bmp_100 = "PNG Image"%string
     ∨ ef_type Samples.embedded_bmp_100 = "JPEG Image"%string
     ∨ ef_type Samples.embedded_bmp_100 = "BMP Image"%string).
Proof.
  apply (embedded_files_in_bounds Samples.bmp_100 Samples.embedded_bmp_100).
  assert (embedded_files Samples.bmp_100 = [Samples.embedded_bmp_100]) as ->
    by (vm_compute; reflexivity).
  left.
Defined.

(** A PNG signature is reported as a PNG image exactly when an [IEND]
    trailer occurs at or after it; the reported file ends with the first
    such trailer. *)
Theorem png_file_reported_iff (data : bytes) (p e : Z) :
  occurs_at png_signature data p →
  {| ef_type := "PNG Image"; ef_start := p; ef_size := e + 8 - p; ef_end := e + 8 |}
    ∈ embedded_files data
  ↔ p <= e ∧ occurs_at png_iend data e ∧ ∀ j, p <= j < e → ¬ occurs_at png_iend data j.
Proof.
  intros Hsig. pose proof Hsig as [Hp _]. rewrite embedded_files_elem. split.
  - intros [(q & Hq & _ & Hc)|[(q & Hq & _ & Hc)|(q & Hq & _ & Hc)]].
    + apply png_candidate_some in Hc as (e' & Hle & Hocc & Hno & [= <- He]); [|done].
      by replace e with e' by lia.
    + by apply jpeg_candidate_some in Hc as (e' & _ & _ & _ & [=]).
    + by apply bmp_candidate_record in Hc as (sz & _ & _ & [=]).
  - intros (Hle & Hocc & Hno). left. exists p. split_and!; [done..|].
    apply png_candidate_some; [done|]. by exists e.
Qed.

Lemma png_file_reported_iff_witness :
  {| ef_type := "PNG Image"; ef_start := 1; ef_size := 16 + 8 - 1; ef_end := 16 + 8 |}
    ∈ embedded_files Samples.png_24
  ↔ 1 <= 16 ∧ occurs_at png_iend Samples.png_24 16
    ∧ ∀ j, 1 <= j < 16 → ¬ occurs_at png_iend Samples.png_24 j.
Proof.
  apply (png_file_reported_iff Samples.png_24 1 16). split; [lia|reflexivity].
Defined.

(** A JPEG start marker is reported as a JPEG image exactly when an end
    marker [FF D9] occurs three bytes or more after it; the reported file
    ends with the first such marker. *)
Theorem jpeg_file_reported_iff (data : bytes) (p e : Z) :
  occurs_at jpeg_magic data p →
  {| ef_type := "JPEG Image"; ef_start := p; ef_size := e + 2 - p; ef_end := e + 2 |}
    ∈ embedded_files data
  ↔ p + 3 <= e ∧ occurs_at jpeg_eoi data e
    ∧ ∀ j, p + 3 <= j < e → ¬ occurs_at jpeg_eoi data j.
Proof.
  intros Hsig. pose proof Hsig as [Hp _]. rewrite embedded_files_elem. split.
  - intros [(q & Hq & _ & Hc)|[(q & Hq & _ & Hc)|(q & Hq & _ & Hc)]].
    + by apply png_candidate_some in Hc as (e' & _ & _ & _ & [=]).
    + apply jpeg_candidate_some in Hc as (e' & Hle & Hocc & Hno & [= <- He]); [|done].
      by replace e with e' by lia.
    + by apply bmp_candidate_record in Hc as (sz & _ & _ & [=]).
  - intros (Hle & Hocc & Hno). right. left. exists p. split_and!; [done..|].
    apply jpeg_candidate_some; [done|]. by exists e.
Qed.

Lemma jpeg_file_reported_iff_witness :
  {| ef_type := "JPEG Image"; ef_start := 1; ef_size := 7 + 2 - 1; ef_end := 7 + 2 |}
    ∈ embedded_files Samples.jpeg_9
  ↔ 1 + 3 <= 7 ∧ occurs_at jpeg_eoi Samples.jpeg_9 7
    ∧ ∀ j, 1 + 3 <= j < 7 → ¬ occurs_at jpeg_eoi Samples.jpeg_9 j.
Proof.
  apply (jpeg_file_reported_iff Samples.jpeg_9 1 7). split; [lia|reflexivity].
Defined.

End EmbeddedFiles.

(** ** Format A: further properties of the scanner *)

Section AsusScanMore.
Import Asus.

Lemma entry_loop_first fuel data head nr img :
  fst (entry_loop fuel data head nr []) !! 0%nat = Some img → metadata_offset img = head.
Proof.
  destruct fuel as [|fuel]; cbn [entry_loop]; [done|].
  destruct (entry_step data head nr) as [r|im head'] eqn:Hstep; [done|].
  rewrite entry_loop_acc. cbn. intros [= <-].
  by apply entry_step_next in Hstep as (? & ? & _ & _ & _ & _ & _ & _ & _ & -> & _).
Qed.

Lemma entry_loop_stride fuel data head nr i a b :
  fst (entry_loop fuel data head nr []) !! i = Some a →
  fst (entry_loop fuel data head nr []) !! S i = Some b →
  metadata_offset b = metadata_offset a + record_span a.
Proof.
  revert head nr i. induction fuel as [|fuel IH]; intros head nr i; cbn [entry_loop]; [done|].
  destruct (entry_step data head nr) as [r|im head'] eqn:Hstep; [done|].
  rewrite entry_loop_acc. cbn [fst app].
  destruct i as [|i]; cbn [lookup list_lookup].
  - intros [= <-] Hb. apply entry_loop_first in Hb. rewrite Hb.
    apply entry_step_next in Hstep as (isize & ioffs & _ & _ & _ & _ & _ & _ & _ & -> & ->).
    unfold record_span. cbn. lia.
  - apply IH.
Qed.

Lemma entry_loop_final fuel data head nr :
  snd (entry_loop fuel data head nr [])
  = head + foldr Z.add 0 (map record_span (fst (entry_loop fuel data head nr []))).
Proof.
  revert head nr. induction fuel as [|fuel IH]; intros head nr; cbn [entry_loop].
  - cbn. lia.
  - destruct (entry_step data head nr) as [r|im head'] eqn:Hstep; [cbn; lia|].
    rewrite entry_loop_acc. cbn [fst snd app map foldr]. rewrite IH.
    apply entry_step_next in Hstep as (isize & ioffs & _ & _ & _ & _ & _ & _ & _ & -> & ->).
    unfold record_span. cbn [size]. lia.
Qed.



(** The entries of a package lie one after the other: the first metadata
    follows the signature, each next metadata follows the padded payload of
    the entry before, and the package's total size is the signature plus
    the spans of its entries. *)
Theorem scanned_entries_stride (data : bytes) (k : nat) (pkg : package_info) :
  detect_asus_packer_format data !! k = Some pkg →
  header_end pkg = header_offset pkg + 32
  ∧ (∀ img, images pkg !! 0%nat = Some img → metadata_offset img = header_end pkg)
  ∧ (∀ i a b, images pkg !! i = Some a → images pkg !! S i = Some b →
       metadata_offset b = metadata_offset a + record_span a)
  ∧ total_size pkg = 32 + foldr Z.add 0 (map record_span (images pkg)).
Proof.
  intros (s & Hs & _ & ->)%detect_lookup. cbn [images header_end header_offset total_size].
  unfold scan_entries, entries_from. split_and!.
  - done.
  - apply entry_loop_first.
  - apply entry_loop_stride.
  - rewrite entry_loop_final. lia.
Qed.

Lemma scanned_entries_stride_witness :
  header_end Samples.package_a = header_offset Samples.package_a + 32
  ∧ (∀ img, images Samples.package_a !! 0%nat = Some img →
       metadata_offset img = header_end Samples.package_a)
  ∧ (∀ i a b, images Samples.package_a !! i = Some a →
       images Samples.package_a !! S i = Some b →
       metadata_offset b = metadata_offset a + record_span a)
  ∧ total_size Samples.package_a
    = 32 + foldr Z.add 0 (map record_span (images Samples.package_a)).
Proof.
  apply (scanned_entries_stride Samples.host_a 0%nat Samples.package_a).
  vm_compute; reflexivity.
Defined.

Lemma package_loop_first fuel data pos pkg :
  package_loop fuel data pos [] !! 0%nat = Some pkg →
  bytes_find asus_pattern data pos = Some (header_offset pkg).
Proof.
  destruct fuel as [|fuel]; cbn [package_loop]; [done|].
  destruct (bytes_find asus_pattern data pos) as [s|] eqn:Hfind; [|done].
  destruct (scan_entries data _) as [imgs h].
  rewrite package_loop_acc. cbn. by intros [= <-].
Qed.


(** The first package starts at the first occurrence of the signature in
    the file. *)
Theorem first_package_at_first_signature (data : bytes) (p : package_info) :
  detect_asus_packer_format data !! 0%nat = Some p →
  occurs_at asus_pattern data (header_offset p)
  ∧ ∀ j, j < header_offset p → ¬ occurs_at asus_pattern data j.
Proof.
  intros Hp. apply package_loop_first in Hp.
  apply bytes_find_some in Hp as (_ & Hocc & Hno); [|done].
  split; [done|]. intros j Hj Hocc'. apply (Hno j); [|done].
  destruct Hocc'. lia.
Qed.

Lemma first_package_at_first_signature_witness :
  occurs_at asus_pattern Samples.host_a_twice (header_offset Samples.package_a_first)
  ∧ ∀ j, j < header_offset Samples.package_a_first →
      ¬ occurs_at asus_pattern Samples.host_a_twice j.
Proof.
  apply (first_package_at_first_signature Samples.host_a_twice Samples.package_a_first).
  vm_compute; reflexivity.
Defined.



(** The scan reports no package exactly when the signature occurs nowhere
    in the file. *)
Theorem no_package_iff_no_signature (data : bytes) :
  detect_asus_packer_format data = [] ↔ ∀ j, ¬ occurs_at asus_pattern data j.
Proof.
  unfold detect_asus_packer_format. split.
  - intros Hd j Hocc.
    destruct (bytes_find asus_pattern data 0) as [s|] eqn:Hfind.
    + by rewrite (packages_from_some data 0 s) in Hd.
    + apply (bytes_find_none asus_pattern data 0) with (k := j) in Hfind;
        [done|apply asus_pattern_nonempty|lia|by destruct Hocc].
  - intros Hno. apply packages_from_none.
    destruct (bytes_find asus_pattern data 0) as [s|] eqn:Hfind; [|done].
    apply bytes_find_some in Hfind as (_ & Hocc & _); [|done]. by apply Hno in Hocc.
Qed.

End AsusScanMore.

(** ** Format A: the change detection and the direct replacement *)

Section AsusDetectMore.
Import Asus.

Lemma foldl_lookup_inv {St A} (I : St → Prop) (f : St → A → St) l s :
  I s → (∀ i x s', l !! i = Some x → I s' → I (f s' x)) → I (foldl f s l).
Proof.
  revert s. induction l as [|x l IH]; intros s Hs Hstep; [done|]. cbn [foldl].
  apply IH; [by apply (Hstep 0%nat)|]. intros i y s' Hi. by apply (Hstep (S i)).
Qed.

Lemma classify_modified files image x :
  classify files image = Modified x →
  files !! image_filename image = Some x
  ∧ x ≠ data image
  ∧ detect_asus_image_type x = img_type image.
Proof.
  unfold classify. destruct (negb (matches_image_name _)); [done|].
  destruct (files !! image_filename image) as [e|]; [|done].
  unfold _validate_image_replacement.
  destruct (String.eqb_spec (img_type image) (detect_asus_image_type e)) as [Heq|]; [|done].
  cbn [negb]. case_bool_decide; [done|]. by intros [= <-].
Qed.

(** Every entry of [modified_images] comes from an image of a scanned
    package whose file in the package's directory differs from the payload
    and passes the type check; its key is the image's absolute offset and
    its size fields are computed from the file. *)
Theorem modified_images_recorded (extracted : tree) (pkgs : list package_info)
    (off : Z) (info : modified_info) :
  fst (fst (detect_changes extracted pkgs)) !! off = Some info →
  recorded extracted pkgs off info.
Proof.
  revert off info. unfold detect_changes.
  apply (foldl_lookup_inv
           (λ st : detect_state, ∀ off info,
              fst (fst st) !! off = Some info → recorded extracted pkgs off info)).
  { intros off info. cbn. by rewrite lookup_empty. }
  intros k [idx pkg] st (-> & Hk)%enumerate_from_lookup Hst. cbn [detect_package].
  replace (1 + Z.of_nat k) with (Z.of_nat k + 1) by lia.
  destruct (extracted !! pkg_dir_name (Z.of_nat k + 1)) as [files|] eqn:Hdir;
    [|exact Hst].
  apply foldl_lookup_inv; [exact Hst|]. clear st Hst.
  intros i img [[m u] c] Hi Hst off info. unfold detect_image.
  destruct (classify files img) as [| | | |x] eqn:Hc; try apply Hst.
  cbn [fst]. destruct (decide (off = absolute_offset img)) as [->|Hne].
  - rewrite lookup_insert_eq. intros [= <-].
    apply classify_modified in Hc as (Hf & Hx & Ht).
    exists k, i, pkg, files. cbn. by split_and!.
  - rewrite lookup_insert_ne by done. apply Hst.
Qed.

Lemma modified_images_recorded_witness :
  recorded Samples.extracted_a_grown (detect_asus_packer_format Samples.host_a)
    64 Samples.info_a_grown.
Proof.
  apply (modified_images_recorded Samples.extracted_a_grown
           (detect_asus_packer_format Samples.host_a) 64 Samples.info_a_grown).
  vm_compute; reflexivity.
Defined.

Lemma py_slice_assign_same_length {A} (buf v : list A) a :
  0 <= a → a + blen v <= blen buf →
  length (py_slice_assign buf a (a + blen v) v) = length buf
  ∧ ∀ p : nat, ¬ (a <= Z.of_nat p < a + blen v) →
      py_slice_assign buf a (a + blen v) v !! p = buf !! p.
Proof.
  intros Ha Hb. unfold py_slice_assign. pose proof (blen_nonneg v) as Hv.
  rewrite !norm_index_in_range by lia. rewrite Z.max_r by lia.
  unfold blen in *. split.
  - rewrite !length_app, length_take, length_drop. lia.
  - intros p Hp. destruct (decide (Z.of_nat p < a)) as [Hlt|Hge].
    + rewrite lookup_app_l by (rewrite length_take; lia).
      apply lookup_take_lt. lia.
    + rewrite lookup_app_r by (rewrite length_take; lia).
      rewrite lookup_app_r by (rewrite length_take; lia).
      rewrite lookup_drop, length_take. f_equal. lia.
Qed.

(** When every recorded span lies inside the file, the direct replacement
    writes a file of the same length that agrees with the original at
    every position outside the recorded spans. *)
Theorem direct_replace_keeps_rest (data : bytes) (modified_images : gmap Z modified_info) :
  map_Forall (λ off info, 0 <= off ∧ off + size (original_image info) <= blen data)
    modified_images →
  ∃ out, _direct_replace_images data modified_images = Written out
         ∧ blen out = blen data
         ∧ ∀ p : nat,
             (∀ off info, modified_images !! off = Some info → ¬ in_span off info p) →
             out !! p = data !! p.
Proof.
  intros Hin. unfold _direct_replace_images. eexists. split; [done|].
  apply (foldl_lookup_inv
           (λ buf : bytes,
              blen buf = blen data
              ∧ ∀ p : nat,
                  (∀ off info, modified_images !! off = Some info → ¬ in_span off info p) →
                  buf !! p = data !! p)); [done|].
  intros _ off buf _ [Hlen Hrest]. unfold direct_replace_step.
  destruct (modified_images !! off) as [info|] eqn:Hoff; [|done].
  destruct (Z.eqb_spec (blen (new_data info)) (size (original_image info))) as [Hsz|];
    [|done]. cbn [negb].
  destruct (negb (_validate_image_replacement _ _)); [done|].
  destruct (Hin _ _ Hoff) as [H0 Hend]. rewrite <- Hsz in *.
  destruct (py_slice_assign_same_length buf (new_data info) off H0 ltac:(lia)) as [Hl Hp].
  split; [unfold blen in *; lia|].
  intros p Hout. rewrite Hp; [by apply Hrest|].
  specialize (Hout _ _ Hoff). unfold in_span in Hout. lia.
Qed.

Lemma direct_replace_keeps_rest_witness :
  ∃ out, _direct_replace_images Samples.host_a Samples.modified_a_edited = Written out
         ∧ blen out = blen Samples.host_a
         ∧ ∀ p : nat,
             (∀ off info, Samples.modified_a_edited !! off = Some info →
                ¬ in_span off info p) →
             out !! p = Samples.host_a !! p.
Proof.
  apply (direct_replace_keeps_rest Samples.host_a Samples.modified_a_edited).
  apply (bool_decide_unpack _). vm_compute. exact I.
Defined.

Lemma detect_images_payload_end data k pkg i img :
  detect_asus_packer_format data !! k = Some pkg →
  images pkg !! i = Some img → absolute_offset img + size img <= blen data.
Proof.
  intros (s & Hs & _ & ->)%detect_lookup. cbn [images]. intros Hl.
  unfold scan_entries, entries_from in Hl.
  apply (entry_loop_lookup (λ _ _ im, absolute_offset im + size im <= blen data))
    in Hl as (h & _ & Hle); [done|].
  intros h n im h' (isize & ioffs & _ & _ & _ & _ & _ & _ & ? & -> & _)%entry_step_next.
  cbn [absolute_offset size]. lia.
Qed.

Lemma detect_changes_in_bounds data extracted :
  map_Forall (λ off info, 0 <= off ∧ off + size (original_image info) <= blen data)
    (fst (fst (detect_changes extracted (detect_asus_packer_format data)))).
Proof.
  unfold detect_changes.
  apply (foldl_lookup_inv
           (λ st : detect_state,
              map_Forall (λ off info,
                            0 <= off ∧ off + size (original_image info) <= blen data)
                (fst (fst st)))).
  { cbn. apply map_Forall_empty. }
  intros k [idx pkg] st (-> & Hk)%enumerate_from_lookup Hst. cbn [detect_package].
  destruct (extracted !! pkg_dir_name (1 + Z.of_nat k)) as [files|]; [|exact Hst].
  apply foldl_lookup_inv; [exact Hst|]. clear st Hst.
  intros i img [[m u] c] Hi Hst. unfold detect_image.
  destruct (classify files img) as [| | | |x]; try exact Hst.
  cbn [fst] in *. apply map_Forall_insert_2; [|done]. cbn [original_image]. split.
  - by eapply detect_images_absolute_offset.
  - by eapply detect_images_payload_end.
Qed.

Lemma direct_replace_length data m l :
  map_Forall (λ off info, 0 <= off ∧ off + size (original_image info) <= blen data) m →
  blen (foldl (direct_replace_step m) data l) = blen data.
Proof.
  intros Hin. apply (foldl_lookup_inv (λ buf : bytes, blen buf = blen data)); [done|].
  intros _ off buf _ Hlen. unfold direct_replace_step.
  destruct (m !! off) as [info|] eqn:Hoff; [|done].
  destruct (Z.eqb_spec (blen (new_data info)) (size (original_image info))) as [Hsz|];
    [|done]. cbn [negb].
  destruct (negb (_validate_image_replacement _ _)); [done|].
  destruct (Hin _ _ Hoff) as [H0 Hend]. rewrite <- Hsz in *.
  destruct (py_slice_assign_same_length buf (new_data info) off H0 ltac:(lia)) as [Hl _].
  unfold blen in *. lia.
Qed.

(** A rebuild whose recorded size changes add up to zero writes a file
    of the length of the original: it either copies the file or replaces
    spans in place, and it skips every replacement of another length. *)
Theorem rebuild_keeps_length_without_size_change (data : bytes) (extracted : tree)
    (out : bytes) :
  rebuild_asus_packer_preserve_structure data (Some extracted) = Written out →
  total_size_change
    (fst (fst (detect_changes extracted (detect_asus_packer_format data)))) = 0 →
  blen out = blen data.
Proof.
  unfold rebuild_asus_packer_preserve_structure.
  pose proof (detect_changes_in_bounds data extracted) as Hin.
  destruct (detect_asus_packer_format data) as [|p ps]; [done|].
  destruct (detect_changes extracted (p :: ps)) as [[m u] c]. cbn [fst] in *.
  unfold choose_strategy. destruct (c =? 0); [by intros [= <-]|].
  intros Hw Hsum. rewrite Hsum in Hw. cbn in Hw. unfold _direct_replace_images in Hw.
  injection Hw as <-. by apply direct_replace_length.
Qed.

Lemma rebuild_keeps_length_without_size_change_witness :
  blen Samples.rebuilt_a_edited = blen Samples.host_a.
Proof.
  apply (rebuild_keeps_length_without_size_change Samples.host_a
           Samples.extracted_a_edited Samples.rebuilt_a_edited);
    vm_compute; reflexivity.
Defined.

End AsusDetectMore.

Section AsusDirectReplace.
Import Asus.

Lemma py_slice_assign_read {A} (buf v : list A) a :
  0 <= a → a + blen v <= blen buf →
  py_slice (py_slice_assign buf a (a + blen v) v) a (a + blen v) = v.
Proof.
  intros Ha Hb. unfold py_slice_assign. pose proof (blen_nonneg v) as Hv.
  rewrite !norm_index_in_range by lia. rewrite Z.max_r by lia.
  apply py_slice_app_at; [|done]. unfold blen in *. rewrite length_take. lia.
Qed.

Lemma py_slice_agree {A} (l1 l2 : list A) a b :
  0 <= a → a <= b → b <= blen l1 → length l1 = length l2 →
  (∀ p : nat, a <= Z.of_nat p < b → l1 !! p = l2 !! p) →
  py_slice l1 a b = py_slice l2 a b.
Proof.
  intros Ha Hab Hb Hlen Hagree. unfold blen in *.
  rewrite !py_slice_in_range by (unfold blen; lia).
  apply list_eq. intros i. rewrite !lookup_take.
  destruct (decide (i < Z.to_nat (b - a))%nat); [|done].
  rewrite !lookup_drop. apply Hagree. lia.
Qed.

Variable data : bytes.
Variable m : gmap Z modified_info.

Hypothesis spans_inside :
  map_Forall (λ off info,
                0 <= off ∧ 0 <= size (original_image info)
                ∧ off + size (original_image info) <= blen data) m.
Hypothesis spans_disjoint :
  map_Forall (λ o1 i1,
    map_Forall (λ o2 i2,
      o1 = o2 ∨ o1 + size (original_image i1) <= o2
      ∨ o2 + size (original_image i2) <= o1) m) m.

(** The span of a recorded image after the passes over the offsets of
    [l]. *)
Lemma direct_replace_slice l off info :
  m !! off = Some info →
  py_slice (foldl (direct_replace_step m) data l) off (off + size (original_image info))
  = if bool_decide (off ∈ l)
       && (blen (new_data info) =? size (original_image info))
       && _validate_image_replacement (original_image info) (new_data info)
    then new_data info
    else py_slice data off (off + size (original_image info)).
Proof.
  intros Hoff. destruct (spans_inside _ _ Hoff) as (H0 & Hs & Hend).
  assert (map_Forall (λ off info, 0 <= off ∧ off + size (original_image info) <= blen data)
            m) as Hin'.
  { eapply map_Forall_impl; [exact spans_inside|]. cbn. intros ?? (? & ? & ?). done. }
  induction l as [|x l IH] using rev_ind.
  { cbn [foldl]. rewrite bool_decide_eq_false_2; [done|]. apply not_elem_of_nil. }
  rewrite foldl_snoc.
  pose proof (direct_replace_length data m l Hin') as Hlen.
  set (buf := foldl (direct_replace_step m) data l) in *.
  destruct (decide (x = off)) as [->|Hne].
  - rewrite (bool_decide_eq_true_2 (off ∈ l ++ [off]))
      by (apply elem_of_app; right; by apply list_elem_of_singleton).
    cbn [andb]. unfold direct_replace_step. rewrite Hoff.
    destruct (Z.eqb_spec (blen (new_data info)) (size (original_image info))) as [Hsz|Hsz];
      cbn [negb andb].
    + destruct (_validate_image_replacement _ _); cbn [negb].
      * rewrite <- Hsz. apply py_slice_assign_read; lia.
      * rewrite IH. by rewrite andb_false_r.
    + rewrite IH. by rewrite andb_false_r.
  - assert (bool_decide (off ∈ l ++ [x]) = bool_decide (off ∈ l)) as ->.
    { apply bool_decide_ext. rewrite elem_of_app, list_elem_of_singleton.
      split; [intros [?|?]; [done|congruence]|by left]. }
    rewrite <- IH. unfold direct_replace_step.
    destruct (m !! x) as [ix|] eqn:Hx; [|done].
    destruct (Z.eqb_spec (blen (new_data ix)) (size (original_image ix))) as [Hsz|];
      [|done]. cbn [negb].
    destruct (negb (_validate_image_replacement _ _)); [done|].
    destruct (spans_inside _ _ Hx) as (Hx0 & _ & Hxend). rewrite <- Hsz in *.
    destruct (py_slice_assign_same_length buf (new_data ix) x Hx0 ltac:(lia)) as [Hl Hp].
    destruct (spans_disjoint _ _ Hx _ _ Hoff) as [?|Hd]; [done|].
    apply py_slice_agree; [lia|lia| |done|].
    + unfold blen in *. lia.
    + intros p Hp'. apply Hp. lia.
Qed.

Lemma sorted_offsets_elem off info : m !! off = Some info → off ∈ sorted_offsets m.
Proof.
  intros Hoff. unfold sorted_offsets. rewrite elem_of_reverse, merge_sort_Permutation.
  apply list_elem_of_fmap. exists (off, info). split; [done|].
  by apply elem_of_map_to_list.
Qed.

End AsusDirectReplace.

Section AsusDirectReplaceInstalls.
Import Asus.

(** When the recorded spans lie inside the file and do not overlap, the
    direct replacement installs every replacement that has the length of
    the original and passes the type check, and leaves the span of every
    other recorded image as it was. *)
Theorem direct_replace_installs (data : bytes) (modified_images : gmap Z modified_info)
    (out : bytes) (off : Z) (info : modified_info) :
  map_Forall (λ off info,
                0 <= off ∧ 0 <= size (original_image info)
                ∧ off + size (original_image info) <= blen data) modified_images →
  map_Forall (λ o1 i1,
    map_Forall (λ o2 i2,
      o1 = o2 ∨ o1 + size (original_image i1) <= o2
      ∨ o2 + size (original_image i2) <= o1) modified_images) modified_images →
  _direct_replace_images data modified_images = Written out →
  modified_images !! off = Some info →
  py_slice out off (off + size (original_image info))
  = if (blen (new_data info) =? size (original_image info))
       && _validate_image_replacement (original_image info) (new_data info)
    then new_data info
    else py_slice data off (off + size (original_image info)).
Proof.
  intros Hin Hdisj [= <-] Hoff.
  rewrite (direct_replace_slice data modified_images Hin Hdisj _ off info Hoff).
  by rewrite (bool_decide_eq_true_2 _ (sorted_offsets_elem modified_images off info Hoff)).
Qed.

Lemma direct_replace_installs_witness :
  py_slice Samples.rebuilt_a_edited 100
    (100 + size (original_image Samples.info_a_edited))
  = if (blen (new_data Samples.info_a_edited)
        =? size (original_image Samples.info_a_edited))
       && _validate_image_replacement (original_image Samples.info_a_edited)
            (new_data Samples.info_a_edited)
    then new_data Samples.info_a_edited
    else py_slice Samples.host_a 100 (100 + size (original_image Samples.info_a_edited)).
Proof.
  apply (direct_replace_installs Samples.host_a Samples.modified_a_edited
           Samples.rebuilt_a_edited 100 Samples.info_a_edited).
  - apply (bool_decide_unpack _). vm_compute. exact I.
  - apply (bool_decide_unpack _). vm_compute. exact I.
  - vm_compute. reflexivity.
  - vm_compute. reflexivity.
Defined.

End AsusDirectReplaceInstalls.


(** ** Format A: further properties of the rebuild *)

Section AsusRebuildMore.
Import Asus.






(** The image that the change detection never warns about: the name
    generated for a scanned entry always has the form that the pattern
    check asks for. *)
Theorem scanned_entry_name_is_well_formed (data : bytes) (k i : nat)
    (pkg : package_info) (img : image_info) (files : gmap string bytes) :
  detect_asus_packer_format data !! k = Some pkg →
  images pkg !! i = Some img →
  matches_image_name (image_filename img) = true ∧ classify files img ≠ BadName.
Proof.
  intros Hk Hi.
  assert (matches_image_name (image_filename img) = true) as Hm.
  { apply image_filename_matches.
    - rewrite (detect_images_number _ _ _ _ _ Hk Hi). lia.
    - by eapply detect_images_absolute_offset.
    - by eapply detect_images_type. }
  split; [done|]. unfold classify. rewrite Hm. cbn [negb].
  destruct (files !! image_filename img); [|done].
  destruct (negb _); [done|]. by case_bool_decide.
Qed.

Lemma scanned_entry_name_is_well_formed_witness :
  matches_image_name (image_filename Samples.image_a1) = true
  ∧ classify Samples.files_a_mismatch Samples.image_a1 ≠ BadName.
Proof.
  apply (scanned_entry_name_is_well_formed Samples.host_a 0%nat 0%nat
           Samples.package_a Samples.image_a1 Samples.files_a_mismatch);
    vm_compute; reflexivity.
Defined.


Lemma py_slice_join {A} (data : list A) a b c :
  0 <= a → a <= b → b <= c → py_slice data a b ++ py_slice data b c = py_slice data a c.
Proof.
  intros Ha Hb Hc. unfold py_slice, norm_index.
  destruct (Z.ltb_spec a 0); [lia|]. destruct (Z.ltb_spec b 0); [lia|].
  destruct (Z.ltb_spec c 0); [lia|].
  set (n := blen data).
  replace (Z.to_nat (Z.min b n)) with
    (Z.to_nat (Z.min a n) + Z.to_nat (Z.min b n - Z.min a n))%nat by lia.
  rewrite <- drop_drop, take_take_drop. f_equal. lia.
Qed.

(** The bytes after the last package that the rebuild copies. *)
Lemma layout_ends data m cur p pkgs pl :
  last (p :: pkgs) = Some pl →
  ∃ mid,
    layout data m cur (p :: pkgs) =
    ((if cur <? header_offset p then py_slice data cur (header_offset p) else [])
     ++ py_slice data (header_offset p) (header_end p))
    ++ mid
    ++ (if header_offset pl + total_size pl <? blen data
        then py_slice_from data (header_offset pl + total_size pl) else []).
Proof.
  revert cur p. induction pkgs as [|p' pkgs IH]; intros cur p Hl.
  - injection Hl as <-. cbn [layout]. unfold package_bytes.
    exists (flat_map (emitted_record data m) (sorted_by_number (images p))).
    by rewrite <- !app_assoc.
  - rewrite last_cons_cons in Hl.
    destruct (IH (header_offset p + total_size p) p' Hl) as [mid Hmid].
    cbn [layout] in *. rewrite Hmid. unfold package_bytes.
    exists (flat_map (emitted_record data m) (sorted_by_number (images p))
            ++ ((if header_offset p + total_size p <? header_offset p'
                 then py_slice data (header_offset p + total_size p) (header_offset p')
                 else [])
                ++ py_slice data (header_offset p') (header_end p')) ++ mid).
    by rewrite <- !app_assoc.
Qed.

(** The structural rebuild copies the file up to the end of the first
    signature and the bytes after the last package unchanged: only what
    lies between them is laid out anew. *)
Theorem structural_rebuild_keeps_surroundings (data : bytes) (m : gmap Z modified_info)
    (p0 pl : package_info) (pkgs : list package_info) (out : bytes) :
  detect_asus_packer_format data = p0 :: pkgs →
  last (p0 :: pkgs) = Some pl →
  _structure_preserving_rebuild data (p0 :: pkgs) m = Written out →
  ∃ mid,
    out = py_slice data 0 (header_end p0) ++ mid
          ++ (if header_offset pl + total_size pl <? blen data
              then py_slice_from data (header_offset pl + total_size pl) else []).
Proof.
  intros Hd Hl Hw. unfold _structure_preserving_rebuild in Hw.
  destruct (structural_buffer data (p0 :: pkgs) m) as [buf|e] eqn:Hbuf; [|done].
  injection Hw as ->. apply structural_buffer_layout in Hbuf as [_ ->].
  destruct (layout_ends data m 0 p0 pkgs pl Hl) as [mid ->]. exists mid.
  do 2 f_equal.
  assert (detect_asus_packer_format data !! 0%nat = Some p0) as H0 by by rewrite Hd.
  apply detect_lookup in H0 as (s & Hs & _ & ->). cbn [header_offset header_end].
  destruct (Z.ltb_spec 0 s).
  - apply py_slice_join; lia.
  - by replace s with 0 by lia.
Qed.

Lemma structural_rebuild_keeps_surroundings_witness :
  ∃ mid,
    Samples.rebuilt_a_grown
    = py_slice Samples.host_a 0 (header_end Samples.package_a) ++ mid
      ++ (if header_offset Samples.package_a + total_size Samples.package_a
             <? blen Samples.host_a
          then py_slice_from Samples.host_a
                 (header_offset Samples.package_a + total_size Samples.package_a)
          else []).
Proof.
  apply (structural_rebuild_keeps_surroundings Samples.host_a Samples.modified_a_grown
           Samples.package_a Samples.package_a [] Samples.rebuilt_a_grown);
    vm_compute; reflexivity.
Defined.






(** No two images of a scan share a path in the extracted directory: the
    directory name determines the package and the file name determines
    the position of the image in it. *)
Theorem extracted_paths_are_distinct (data : bytes) (k k' i j : nat)
    (pkg pkg' : package_info) (a b : image_info) :
  detect_asus_packer_format data !! k = Some pkg →
  detect_asus_packer_format data !! k' = Some pkg' →
  images pkg !! i = Some a → images pkg' !! j = Some b →
  pkg_dir_name (Z.of_nat k + 1) = pkg_dir_name (Z.of_nat k' + 1) →
  image_filename a = image_filename b →
  k = k' ∧ i = j ∧ a = b.
Proof.
  intros Hk Hk' Hi Hj Hdir Hname.
  apply pkg_dir_name_inj in Hdir; [|lia..]. assert (k = k') as <- by lia.
  rewrite Hk in Hk'. injection Hk' as <-.
  pose proof (detect_images_number _ _ _ _ _ Hk Hi) as Ha.
  pose proof (detect_images_number _ _ _ _ _ Hk Hj) as Hb.
  apply image_filename_number in Hname; [|lia..].
  assert (i = j) as <- by lia. rewrite Hi in Hj. by injection Hj as <-.
Qed.

Lemma extracted_paths_are_distinct_witness :
  0%nat = 0%nat ∧ 0%nat = 0%nat ∧ Samples.image_a1 = Samples.image_a1.
Proof.
  apply (extracted_paths_are_distinct Samples.host_a 0 0 0 0 Samples.package_a
           Samples.package_a Samples.image_a1 Samples.image_a1);
    vm_compute; reflexivity.
Defined.

End AsusRebuildMore.

(** ** Format A: the type of an image is read off its first bytes *)

Section AsusTypeMore.
Import Asus.

Lemma digit_char_upper_inj x y :
  0 <= x < 16 → 0 <= y < 16 → digit_char true x = digit_char true y → x = y.
Proof.
  intros Hx Hy Heq. apply (f_equal N_of_ascii) in Heq. unfold digit_char in Heq.
  destruct (Z.ltb_spec x 10), (Z.ltb_spec y 10);
    rewrite !N_ascii_embedding in Heq by lia; lia.
Qed.

Lemma Z_of_byte_inj b b' : Z_of_byte b = Z_of_byte b' → b = b'.
Proof.
  unfold Z_of_byte. intros Heq. apply N2Z.inj in Heq.
  pose proof (Byte.of_to_N b) as H1. rewrite Heq, Byte.of_to_N in H1. congruence.
Qed.

Lemma hexlify_upper_inj bs bs' :
  hexlify_upper bs = hexlify_upper bs' → bs = bs'.
Proof.
  revert bs'. induction bs as [|b bs IH]; intros [|b' bs']; cbn [hexlify_upper]; try done.
  intros [= Hhi Hlo Hrest]. f_equal; [|by apply IH].
  pose proof (Z_of_byte_range b). pose proof (Z_of_byte_range b').
  assert (∀ z, 0 <= z < 256 → 0 <= z / 16 < 16) as Hdiv.
  { intros z Hz. split; [apply Z.div_pos; lia|apply Z.div_lt_upper_bound; lia]. }
  assert (∀ z, 0 <= z mod 16 < 16) as Hmod by (intros z; apply Z.mod_pos_bound; lia).
  apply digit_char_upper_inj in Hhi; [|by auto..].
  apply digit_char_upper_inj in Hlo; [|by auto..].
  apply Z_of_byte_inj.
  rewrite (Z.div_mod (Z_of_byte b) 16), (Z.div_mod (Z_of_byte b') 16) by lia.
  by rewrite Hhi, Hlo.
Qed.

Lemma hexlify_upper_eqb bs bs' :
  String.eqb (hexlify_upper bs) (hexlify_upper bs') = bool_decide (bs = bs').
Proof.
  destruct (String.eqb_spec (hexlify_upper bs) (hexlify_upper bs')) as [Heq|Hne].
  - apply hexlify_upper_inj in Heq. by rewrite bool_decide_eq_true_2.
  - rewrite bool_decide_eq_false_2; [done|]. by intros ->.
Qed.

(** The type depends on the first four bytes only, through their values:
    the comparison of the upper-case hex text is a comparison of bytes. *)
Theorem image_type_is_by_magic (d : bytes) :
  4 <= blen d →
  (detect_asus_image_type d = "bmp"%string ↔ take 2 d = [x42; x4d])
  ∧ (detect_asus_image_type d = "jpg"%string ↔ take 3 d = [xff; xd8; xff])
  ∧ (detect_asus_image_type d = "png"%string ↔ take 4 d = [x89; x50; x4e; x47])
  ∧ (detect_asus_image_type d = "gif"%string ↔ take 4 d = [x47; x49; x46; x38])
  ∧ (detect_asus_image_type d = "ico"%string
     ↔ take 4 d = [x00; x00; x01; x00] ∨ take 4 d = [x00; x00; x02; x00])
  ∧ detect_asus_image_type d = detect_asus_image_type (take 4 d).
Proof.
  intros Hlen. destruct d as [|b0 [|b1 [|b2 [|b3 rest]]]]; try (unfold blen in Hlen; cbn [length] in Hlen; lia).
  assert (∀ r, detect_asus_image_type (b0 :: b1 :: b2 :: b3 :: r) =
    if bool_decide ([b0; b1] = [x42; x4d]) then "bmp"%string
    else if bool_decide ([b0; b1; b2] = [xff; xd8; xff]) then "jpg"%string
    else if bool_decide ([b0; b1; b2; b3] = [x89; x50; x4e; x47]) then "png"%string
    else if bool_decide ([b0; b1; b2; b3] = [x47; x49; x46; x38]) then "gif"%string
    else if bool_decide ([b0; b1; b2; b3] = [x00; x00; x01; x00])
            || bool_decide ([b0; b1; b2; b3] = [x00; x00; x02; x00]) then "ico"%string
    else "img"%string) as Hdet.
  { intros r. unfold detect_asus_image_type.
    assert ((blen (b0 :: b1 :: b2 :: b3 :: r) <? 4) = false) as ->.
    { apply Z.ltb_ge. unfold blen. cbn [length]. lia. }
    assert (py_slice (b0 :: b1 :: b2 :: b3 :: r) 0 4 = [b0; b1; b2; b3]) as ->.
    { unfold py_slice, norm_index, blen. cbn [length Z.ltb Z.compare].
      rewrite Z.min_l, Z.min_l by lia. reflexivity. }
    change (string_take 4 (hexlify_upper [b0; b1; b2; b3]))
      with (hexlify_upper [b0; b1]).
    change (string_take 6 (hexlify_upper [b0; b1; b2; b3]))
      with (hexlify_upper [b0; b1; b2]).
    change "424D"%string with (hexlify_upper [x42; x4d]).
    change "FFD8FF"%string with (hexlify_upper [xff; xd8; xff]).
    change "89504E47"%string with (hexlify_upper [x89; x50; x4e; x47]).
    change "47494638"%string with (hexlify_upper [x47; x49; x46; x38]).
    change "00000100"%string with (hexlify_upper [x00; x00; x01; x00]).
    change "00000200"%string with (hexlify_upper [x00; x00; x02; x00]).
    by rewrite !hexlify_upper_eqb. }
  cbn [firstn]. rewrite (Hdet rest), (Hdet (take 0 rest)).
  repeat match goal with
         | |- context [bool_decide ?P] => destruct (bool_decide_reflect P)
         end; cbn [orb]; intuition congruence.
Qed.

Lemma image_type_is_by_magic_witness :
  (detect_asus_image_type Samples.png8 = "bmp"%string ↔ take 2 Samples.png8 = [x42; x4d])
  ∧ (detect_asus_image_type Samples.png8 = "jpg"%string
     ↔ take 3 Samples.png8 = [xff; xd8; xff])
  ∧ (detect_asus_image_type Samples.png8 = "png"%string
     ↔ take 4 Samples.png8 = [x89; x50; x4e; x47])
  ∧ (detect_asus_image_type Samples.png8 = "gif"%string
     ↔ take 4 Samples.png8 = [x47; x49; x46; x38])
  ∧ (detect_asus_image_type Samples.png8 = "ico"%string
     ↔ take 4 Samples.png8 = [x00; x00; x01; x00]
       ∨ take 4 Samples.png8 = [x00; x00; x02; x00])
  ∧ detect_asus_image_type Samples.png8 = detect_asus_image_type (take 4 Samples.png8).
Proof.
  apply (image_type_is_by_magic Samples.png8). vm_compute. discriminate.
Defined.

End AsusTypeMore.

(** ** Format B: the scanner and the header builder as shipped *)

Section MsiHeaderMore.
Import Msi.

Lemma py_slice_length_le {A} (data : list A) a b :
  0 <= a → a <= b → blen (py_slice data a b) <= b - a.
Proof. intros Ha Hb. rewrite py_slice_length by lia. lia. Qed.

Lemma set_byte_ok buf i v :
  0 <= v <= 255 → (i < length buf)%nat → set_byte buf i v = Ok (<[i := byte_of_Z v]> buf).
Proof.
  intros Hv Hi. unfold set_byte.
  destruct (Z.ltb_spec v 0); [lia|]. destruct (Z.ltb_spec 255 v); [lia|].
  cbn [orb]. by rewrite bool_decide_eq_true_2.
Qed.

Lemma find_step_analyzer data entries off :
  0 <= off → find_step analyzer_init data entries off = Ok (entries, off + 1).
Proof.
  intros Hoff. unfold find_step.
  change (getattr_bytes analyzer_init "MSI_SIGNATURE") with (Ok msi_signature_literal).
  change (getattr_int analyzer_init "HEADER_SIZE") with (Ok 12).
  cbn [mbind result_bind]. rewrite bool_decide_eq_false_2; [done|].
  intros Heq. apply (f_equal blen) in Heq.
  pose proof (py_slice_length_le data off (off + 4) Hoff ltac:(lia)) as Hle.
  rewrite Heq in Hle. change (blen msi_signature_literal) with 5 in Hle. lia.
Qed.

(** The analyzer as shipped finds no entry in any file: its signature
    attribute has five bytes and is compared with a slice of four. *)
Theorem analyzer_finds_no_entry (data : bytes) :
  _find_msi_entries analyzer_init data = Ok [].
Proof.
  unfold _find_msi_entries. generalize (length data) at 1. intros fuel.
  assert (0 <= 0) as H0 by lia. revert H0. generalize 0 at 2 3. 
  induction fuel as [|fuel IH]; intros off Hoff; cbn [find_loop]; [done|].
  change (getattr_int analyzer_init "HEADER_SIZE") with (Ok 12). cbn [mbind result_bind].
  destruct (off <? blen data - 12); [|done].
  rewrite find_step_analyzer by done. cbn [mbind result_bind fst snd]. apply IH. lia.
Qed.

Lemma create_msi_header_value (image_number image_size : Z) :
  _create_msi_header repacker_init image_number image_size =
  if (0 <=? image_size) && (image_size <? 2 ^ 32)
  then Ok (list_byte_of_string "$MsI"
           ++ [x00; x00; byte_of_Z (Z.land image_number 255); x00]
           ++ le32 image_size ++ [x00])
  else Raise StructError.
Proof.
  unfold _create_msi_header.
  assert (0 <= Z.land image_number 255 < 256) as Hx.
  { change 255 with (Z.ones 8). rewrite Z.land_ones by lia.
    apply Z.mod_pos_bound. lia. }
  change (getattr_int repacker_init "HEADER_SIZE") with (Ok 12).
  cbn [mbind result_bind].
  change (bytearray_zeros 12) with (Ok (zeros 12)). cbn [mbind result_bind].
  change (getattr_bytes repacker_init "MSI_SIGNATURE") with (Ok msi_signature_literal).
  cbn [mbind result_bind].
  change (py_slice_assign (zeros 12) 0 4 msi_signature_literal)
    with (msi_signature_literal ++ zeros 8).
  rewrite (set_byte_ok _ 4 0); [|lia|vm_compute; lia]. cbn [mbind result_bind].
  rewrite (set_byte_ok _ 5 0); [|lia|vm_compute; lia]. cbn [mbind result_bind].
  rewrite (set_byte_ok _ 6 (Z.land image_number 255)); [|lia|vm_compute; lia].
  cbn [mbind result_bind].
  rewrite (set_byte_ok _ 7 0); [|lia|vm_compute; lia]. cbn [mbind result_bind].
  unfold pack_into_le32, pack_le32.
  destruct ((0 <=? image_size) && (image_size <? 2 ^ 32)); reflexivity.
Qed.

(** The header that the repacker builds: the four bytes [$MsI], the four
    metadata bytes, the size, and one more zero byte, thirteen bytes in
    all, because a five-byte signature is assigned to a four-byte slice.
    It raises exactly when the size does not fit 32 bits. *)
Theorem create_msi_header_bytes (image_number image_size : Z) :
  match _create_msi_header repacker_init image_number image_size with
  | Ok h =>
      0 <= image_size < 2 ^ 32
      ∧ h = list_byte_of_string "$MsI"
            ++ [x00; x00; byte_of_Z (Z.land image_number 255); x00]
            ++ le32 image_size ++ [x00]
      ∧ blen h = 13
  | Raise e => e = StructError ∧ ¬ (0 <= image_size < 2 ^ 32)
  end.
Proof.
  rewrite create_msi_header_value.
  destruct (Z.leb_spec 0 image_size), (Z.ltb_spec image_size (2 ^ 32)); cbn [andb];
    (split; [lia || done|]); try lia; done.
Qed.

Lemma byte_of_Z_of_byte b : byte_of_Z (Z_of_byte b) = b.
Proof.
  pose proof (Z_of_byte_range b). apply Z_of_byte_inj.
  rewrite Z_of_byte_of_Z. apply Z.mod_small. lia.
Qed.

Lemma le32_unpack bs n : unpack_le32 bs = Ok n → le32 n = bs.
Proof.
  destruct bs as [|b0 [|b1 [|b2 [|b3 [|]]]]]; try discriminate.
  intros [= <-].
  pose proof (Z_of_byte_range b0). pose proof (Z_of_byte_range b1).
  pose proof (Z_of_byte_range b2). pose proof (Z_of_byte_range b3).
  unfold le32.
  transitivity [byte_of_Z (Z_of_byte b0); byte_of_Z (Z_of_byte b1);
                byte_of_Z (Z_of_byte b2); byte_of_Z (Z_of_byte b3)];
    [|by rewrite !byte_of_Z_of_byte].
  assert (∀ x y, x mod 256 = y mod 256 → byte_of_Z x = byte_of_Z y) as Hb.
  { intros x y Heq. unfold byte_of_Z. by rewrite Heq. }
  change (2 ^ 8) with 256. change (2 ^ 16) with 65536. change (2 ^ 24) with 16777216.
  set (n := Z_of_byte b0 + 256 * Z_of_byte b1 + 65536 * Z_of_byte b2
            + 16777216 * Z_of_byte b3).
  rewrite (Hb n (Z_of_byte b0)), (Hb (n / 256) (Z_of_byte b1)),
    (Hb (n / 65536) (Z_of_byte b2)), (Hb (n / 16777216) (Z_of_byte b3));
    [done|subst n; Z.div_mod_to_equations; lia..].
Qed.

Lemma parse_msi_header_of_bytes b0 b1 b2 b3 b4 b5 b6 b7 b8 b9 b10 b11 rest :
  _parse_msi_header analyzer_init
    (b0 :: b1 :: b2 :: b3 :: b4 :: b5 :: b6 :: b7 :: b8 :: b9 :: b10 :: b11 :: rest) 0
  = x ← unpack_le32 [b8; b9; b10; b11];
    Ok {| signature := [b0; b1; b2; b3]; sector := Z_of_byte b4; layer := Z_of_byte b5;
          image_number := Z_of_byte b6; reserved := Z_of_byte b7; image_size := x |}.
Proof.
  unfold _parse_msi_header.
  change (getattr_int analyzer_init "HEADER_SIZE") with (Ok 12). cbn [mbind result_bind].
  destruct (Z.ltb_spec (blen (b0 :: b1 :: b2 :: b3 :: b4 :: b5 :: b6 :: b7 :: b8 :: b9
                               :: b10 :: b11 :: rest)) (0 + 12)) as [Hlt|_].
  { unfold blen in Hlt. cbn [length] in Hlt. lia. }
  assert (py_slice (b0 :: b1 :: b2 :: b3 :: b4 :: b5 :: b6 :: b7 :: b8 :: b9 :: b10
                      :: b11 :: rest) 0 (0 + 12)
          = [b0; b1; b2; b3; b4; b5; b6; b7; b8; b9; b10; b11]) as ->.
  { rewrite py_slice_in_range; [done|lia|lia|]. unfold blen. cbn [length]. lia. }
  reflexivity.
Qed.

(** The header parser of the analyzer raises [ValueError] when fewer than
    twelve bytes are left at the offset, and otherwise returns fields from
    which the twelve bytes can be written back. *)
Theorem parse_msi_header_lossless (data : bytes) (offset : Z) :
  0 <= offset →
  match _parse_msi_header analyzer_init data offset with
  | Ok h =>
      offset + 12 <= blen data
      ∧ py_slice data offset (offset + 12)
        = signature h
          ++ [byte_of_Z (sector h); byte_of_Z (layer h);
              byte_of_Z (image_number h); byte_of_Z (reserved h)]
          ++ le32 (image_size h)
      ∧ blen (signature h) = 4
      ∧ 0 <= sector h < 256 ∧ 0 <= layer h < 256
      ∧ 0 <= image_number h < 256 ∧ 0 <= reserved h < 256
      ∧ 0 <= image_size h < 2 ^ 32
  | Raise e => e = ValueError ∧ blen data < offset + 12
  end.
Proof.
  intros Hoff.
  destruct (Z.ltb_spec (blen data) (offset + 12)) as [Hlt|Hge].
  { unfold _parse_msi_header.
    change (getattr_int analyzer_init "HEADER_SIZE") with (Ok 12). cbn [mbind result_bind].
    destruct (Z.ltb_spec (blen data) (offset + 12)); [done|lia]. }
  assert (_parse_msi_header analyzer_init data offset
          = _parse_msi_header analyzer_init (py_slice data offset (offset + 12)) 0) as ->.
  { unfold _parse_msi_header.
    change (getattr_int analyzer_init "HEADER_SIZE") with (Ok 12). cbn [mbind result_bind].
    pose proof (py_slice_length_in_range data offset (offset + 12) Hoff ltac:(lia) Hge)
      as Hl.
    destruct (Z.ltb_spec (blen data) (offset + 12)); [lia|].
    destruct (Z.ltb_spec (blen (py_slice data offset (offset + 12))) (0 + 12)); [lia|].
    rewrite (py_slice_in_range (py_slice data offset (offset + 12)) 0 (0 + 12)) by lia.
    replace (Z.to_nat (0 + 12 - 0)) with (length (py_slice data offset (offset + 12)))
      by (unfold blen in Hl; lia).
    change (Z.to_nat 0) with 0%nat. by rewrite drop_0, firstn_all. }
  pose proof (py_slice_length_in_range data offset (offset + 12) Hoff ltac:(lia) Hge) as Hl.
  destruct (py_slice data offset (offset + 12))
    as [|b0 [|b1 [|b2 [|b3 [|b4 [|b5 [|b6 [|b7 [|b8 [|b9 [|b10 [|b11 [|]]]]]]]]]]]]];
    unfold blen in Hl; cbn [length] in Hl; try lia.
  rewrite parse_msi_header_of_bytes.
  destruct (unpack_le32 [b8; b9; b10; b11]) as [x|] eqn:Hx; [|done].
  cbn [mbind result_bind signature sector layer image_number reserved image_size].
  rewrite !byte_of_Z_of_byte, (le32_unpack _ _ Hx).
  pose proof (unpack_le32_range _ _ Hx).
  pose proof (Z_of_byte_range b4). pose proof (Z_of_byte_range b5).
  pose proof (Z_of_byte_range b6). pose proof (Z_of_byte_range b7).
  split_and!; (done || lia).
Qed.

Lemma parse_msi_header_lossless_witness :
  match _parse_msi_header analyzer_init Samples.host_b 0 with
  | Ok h =>
      0 + 12 <= blen Samples.host_b
      ∧ py_slice Samples.host_b 0 (0 + 12)
        = signature h
          ++ [byte_of_Z (sector h); byte_of_Z (layer h);
              byte_of_Z (image_number h); byte_of_Z (reserved h)]
          ++ le32 (image_size h)
      ∧ blen (signature h) = 4
      ∧ 0 <= sector h < 256 ∧ 0 <= layer h < 256
      ∧ 0 <= image_number h < 256 ∧ 0 <= reserved h < 256
      ∧ 0 <= image_size h < 2 ^ 32
  | Raise e => e = ValueError ∧ blen Samples.host_b < 0 + 12
  end.
Proof. apply (parse_msi_header_lossless Samples.host_b 0). lia. Defined.

(** What the repacker writes as a header the analyzer's parser reads back:
    the metadata bytes are zero but for the image number modulo 256, and
    the size is the payload's. *)
Theorem header_round_trip (image_number image_size : Z) (h rest : bytes) :
  _create_msi_header repacker_init image_number image_size = Ok h →
  _parse_msi_header analyzer_init (h ++ rest) 0 =
  Ok {| signature := list_byte_of_string "$MsI"; sector := 0; layer := 0;
        image_number := Z.land image_number 255; reserved := 0;
        image_size := image_size |}.
Proof.
  rewrite create_msi_header_value.
  destruct (Z.leb_spec 0 image_size), (Z.ltb_spec image_size (2 ^ 32)); cbn [andb];
    try done.
  intros [= <-]. unfold le32.
  change (list_byte_of_string "$MsI") with [x24; x4d; x73; x49]. cbn [app].
  rewrite parse_msi_header_of_bytes.
  fold (le32 image_size). rewrite unpack_le32_le32 by lia. cbn [mbind result_bind].
  rewrite Z_of_byte_of_Z. f_equal. f_equal.
  change 255 with (Z.ones 8). rewrite Z.land_ones by lia.
  change (2 ^ 8) with 256. by rewrite Z.mod_mod.
Qed.

Lemma header_round_trip_witness :
  _parse_msi_header analyzer_init (Samples.header_b3 ++ Samples.png4) 0 =
  Ok {| signature := list_byte_of_string "$MsI"; sector := 0; layer := 0;
        image_number := Z.land 3 255; reserved := 0; image_size := 4 |}.
Proof.
  apply (header_round_trip 3 4 Samples.header_b3 Samples.png4). vm_compute. reflexivity.
Defined.

End MsiHeaderMore.

(** ** Format B: the binary that the repacker writes *)

Section MsiBinaryMore.
Import Msi.

Lemma create_loop_write_entries self (files : list (string * bytes)) start written :
  create_loop self (enumerate_from start (map snd files)) written
  = write_entries self None (enumerate_from start files) written.
Proof.
  revert start written. induction files as [|[name d] files IH]; intros start written;
    cbn [map enumerate_from create_loop write_entries snd]; [done|].
  unfold header_for. destruct (_create_msi_header self start (blen d)); [apply IH|done].
Qed.

(** Without structure information the structure-preserving writer is the
    plain writer: the two produce the same file and the same return
    value for the same files in the same order. *)
Theorem structure_writer_without_info_is_plain (self : instance)
    (image_files : list (string * bytes)) :
  _create_msi_binary_with_structure self image_files None
  = _create_msi_binary self (map snd image_files).
Proof.
  unfold _create_msi_binary_with_structure, _create_msi_binary.
  by rewrite create_loop_write_entries.
Qed.

Lemma written_entry_length f : blen (written_entry f) = 13 + blen (snd f).
Proof.
  unfold written_entry, blen. rewrite !length_app. cbn [length].
  change (length (list_byte_of_string "$MsI")) with 4%nat.
  change (length (le32 (Z.of_nat (length (snd f))))) with 4%nat. lia.
Qed.

Lemma written_entries_length start files :
  blen (flat_map written_entry (enumerate_from start files))
  = 13 * blen files + foldr Z.add 0 (map blen files).
Proof.
  revert start. induction files as [|d files IH]; intros start; [done|].
  cbn [enumerate_from flat_map map foldr]. rewrite blen_app, IH, written_entry_length.
  unfold blen. cbn [snd length]. lia.
Qed.

Lemma create_loop_repacker files start written :
  match create_loop repacker_init (enumerate_from start files) written with
  | Succeeded out =>
      Forall (λ d, blen d < 2 ^ 32) files
      ∧ out = written ++ flat_map written_entry (enumerate_from start files)
  | Failed w =>
      ∃ (k : nat) d,
        files !! k = Some d ∧ 2 ^ 32 <= blen d
        ∧ Forall (λ d, blen d < 2 ^ 32) (take k files)
        ∧ w = Some (written ++ flat_map written_entry (enumerate_from start (take k files)))
  end.
Proof.
  revert start written. induction files as [|d files IH]; intros start written;
    cbn [enumerate_from create_loop].
  { split; [done|]. by rewrite app_nil_r. }
  rewrite create_msi_header_value. pose proof (blen_nonneg d) as Hd.
  destruct (Z.leb_spec 0 (blen d)); [|lia].
  destruct (Z.ltb_spec (blen d) (2 ^ 32)) as [Hlt|Hge]; cbn [andb].
  - specialize (IH (start + 1)
      (written ++ (list_byte_of_string "$MsI"
                   ++ [x00; x00; byte_of_Z (Z.land start 255); x00]
                   ++ le32 (blen d) ++ [x00]) ++ d)).
    assert (∀ l, written ++ written_entry (start, d) ++ l
                 = (written ++ (list_byte_of_string "$MsI"
                      ++ [x00; x00; byte_of_Z (Z.land start 255); x00]
                      ++ le32 (blen d) ++ [x00]) ++ d) ++ l) as Happ.
    { intros l. unfold written_entry. cbn [fst snd]. by rewrite <- !app_assoc. }
    destruct (create_loop repacker_init _ _) as [w|out].
    + destruct IH as (k & d' & Hk & Hbig & Hsmall & ->).
      exists (S k), d'. cbn [take lookup list_lookup enumerate_from flat_map].
      split_and!; [done|done|by constructor|]. by rewrite Happ.
    + destruct IH as [Hall ->]. split; [by constructor|].
      cbn [flat_map]. by rewrite Happ.
  - exists 0%nat, d. cbn [take enumerate_from flat_map lookup list_lookup].
    split_and!; [done|lia|done|]. by rewrite app_nil_r.
Qed.

(** The plain writer of the repacker as shipped: it writes for every file
    thirteen header bytes and the payload, so the output is thirteen bytes
    per file longer than the payloads together; it stops at the first file
    of [2^32] bytes or more and leaves what it has written until then. *)
Theorem create_msi_binary_layout (image_files : list bytes) :
  match _create_msi_binary repacker_init image_files with
  | Succeeded out =>
      Forall (λ d, blen d < 2 ^ 32) image_files
      ∧ out = flat_map written_entry (enumerate_from 0 image_files)
      ∧ blen out = 13 * blen image_files + foldr Z.add 0 (map blen image_files)
  | Failed w =>
      ∃ (k : nat) d,
        image_files !! k = Some d ∧ 2 ^ 32 <= blen d
        ∧ Forall (λ d, blen d < 2 ^ 32) (take k image_files)
        ∧ w = Some (flat_map written_entry (enumerate_from 0 (take k image_files)))
  end.
Proof.
  unfold _create_msi_binary.
  pose proof (create_loop_repacker image_files 0 []) as H.
  destruct (create_loop repacker_init _ _) as [w|out].
  - exact H.
  - destruct H as [Hall ->]. split_and!; [done|done|]. apply written_entries_length.
Qed.

End MsiBinaryMore.

(** ** Format B: the change detection and the repack with an original file *)

Section MsiRepackMore.
Import Msi.

Lemma msi_classify_modified path x original_data dir entry :
  classify original_data dir entry = Modified path x →
  offset entry + image_data_size entry <= blen original_data
  ∧ path = candidate_path dir (entry_filename entry) (image_type entry)
  ∧ dir_lookup path dir = Some (File x)
  ∧ x ≠ py_slice original_data (offset entry) (offset entry + image_data_size entry).
Proof.
  unfold classify.
  destruct (Z.ltb_spec (blen original_data) (offset entry + image_data_size entry));
    [done|].
  destruct (dir_lookup (candidate_path dir _ _) dir) as [[c|]|] eqn:Hl; try done.
  case_bool_decide; [done|]. intros [= <- <-]. by split_and!.
Qed.

(** Every entry of the [modified_images] of format B stands for an entry
    of the analysis whose span lies inside the original file and whose
    candidate file differs from that span; its key is the entry's index
    and its size fields are computed from the candidate. *)
Theorem msi_modified_images_recorded (inp : pack_input) (original_data : bytes)
    (idx : Z) (info : modified_info) :
  _detect_modified_images inp original_data !! idx = Some info →
  recorded inp original_data idx info.
Proof.
  unfold _detect_modified_images, recorded.
  destruct (original_analysis inp) as [entries|]; [|by rewrite lookup_empty].
  revert idx info.
  apply (foldl_lookup_inv
           (λ st : detect_state, ∀ idx info,
              fst (fst st) !! idx = Some info →
              let entry := original_entry info in
              ∃ entries' (i : nat),
                Some entries = Some entries' ∧ entries' !! i = Some entry
                ∧ idx = index entry
                ∧ offset entry + image_data_size entry <= blen original_data
                ∧ filepath info
                  = candidate_path (msi_pack_dir inp) (entry_filename entry)
                      (image_type entry)
                ∧ dir_lookup (filepath info) (msi_pack_dir inp)
                  = Some (File (new_data info))
                ∧ new_data info
                  ≠ py_slice original_data (offset entry)
                      (offset entry + image_data_size entry)
                ∧ new_size info = blen (new_data info)
                ∧ size_diff info = blen (new_data info) - image_data_size entry)).
  { intros idx info. cbn. by rewrite lookup_empty. }
  intros i entry [[m u] c] Hi Hst idx info. unfold detect_entry.
  destruct (classify original_data (msi_pack_dir inp) entry) as [| | | |path x] eqn:Hc;
    try apply Hst.
  cbn [fst]. destruct (decide (idx = index entry)) as [->|Hne].
  - rewrite lookup_insert_eq. intros [= <-].
    apply msi_classify_modified in Hc as (Hb & Hp & Hl & Hx).
    exists entries, i. cbn. by split_and!.
  - rewrite lookup_insert_ne by done. apply Hst.
Qed.

Lemma msi_modified_images_recorded_witness :
  recorded Samples.input_b_mismatch Samples.original_b 0 Samples.info_b_mismatch.
Proof.
  apply (msi_modified_images_recorded Samples.input_b_mismatch Samples.original_b 0
           Samples.info_b_mismatch).
  vm_compute; reflexivity.
Defined.

Lemma detect_modified_images_analysis inp original_data :
  _detect_modified_images inp original_data ≠ ∅ →
  ∃ entry entries, original_analysis inp = Some (entry :: entries).
Proof.
  unfold _detect_modified_images.
  destruct (original_analysis inp) as [[|entry entries]|]; [done| |done].
  intros _. by exists entry, entries.
Qed.

(** With an original file the repacker as shipped never writes a new
    image file: it copies the original when no candidate differs, and
    otherwise it fails, before opening the output when fewer than two
    names are admitted, and with an empty output file else. *)
Theorem repack_with_original_copies_or_fails (inp : pack_input) (original_data : bytes) :
  match repack_from_directory repacker_init inp (Some original_data) with
  | Succeeded out =>
      out = original_data ∧ _detect_modified_images inp original_data = ∅
  | Failed None =>
      _detect_modified_images inp original_data ≠ ∅
      ∧ blen (collect_image_files (msi_pack_dir inp)) < 2
  | Failed (Some written) =>
      written = []
      ∧ _detect_modified_images inp original_data ≠ ∅
      ∧ 2 <= blen (collect_image_files (msi_pack_dir inp))
  end.
Proof.
  unfold repack_from_directory. case_bool_decide as Hm; [done|].
  destruct (detect_modified_images_analysis _ _ Hm) as (entry & entries & Ha).
  unfold _repack_with_structure_preservation.
  pose proof (sort_image_files_length (collect_image_files (msi_pack_dir inp))) as Hs.
  destruct (Z.ltb_spec (blen (sort_image_files (collect_image_files (msi_pack_dir inp)))) 2)
    as [Hlt|Hge]; unfold blen in *.
  { split; [done|lia]. }
  unfold structure_info_of. rewrite Ha. cbn [map].
  rewrite create_with_structure_fails; [|intros E; rewrite E in Hge; cbn in Hge; lia|done].
  split_and!; [done|done|lia].
Qed.

End MsiRepackMore.

(** ** Format B: file names, the order of the files, and the original span *)

Section MsiNamesMore.
Import Msi.

Lemma extract_image_number_read_back n rest :
  0 <= n → _extract_image_number ("image_nr" +:+ format_d n +:+ String "_" rest) = n.
Proof.
  intros Hn. unfold _extract_image_number. rewrite strip_prefix_app.
  destruct (format_d_decimal n Hn) as (Hall & Hne & Hval).
  rewrite span_while_app by done.
  destruct (format_d n) as [|c s] eqn:Hd; [done|]. cbn [string_is_empty].
  by change (starts_with "_" (String "_" rest)) with true.
Qed.

(** The image number that the repacker reads off a candidate's name is
    the index of the entry that the name was generated for, whatever the
    extension. *)
Theorem extract_image_number_of_entry_name (entry : msi_entry) (ext : string) :
  0 <= index entry →
  _extract_image_number (entry_filename entry +:+ ext) = index entry.
Proof.
  intros Hi. unfold entry_filename. rewrite !string_app_assoc.
  change ("_off0x" +:+ ?r)%string with (String "_" ("off0x" +:+ r)).
  by apply extract_image_number_read_back.
Qed.

Lemma extract_image_number_of_entry_name_witness :
  _extract_image_number (entry_filename Samples.entry_b +:+ ".png") = index Samples.entry_b.
Proof.
  apply (extract_image_number_of_entry_name Samples.entry_b ".png"). vm_compute. discriminate.
Defined.

Lemma insert_by_image_number_perm x l : insert_by_image_number x l ≡ₚ x :: l.
Proof.
  induction l as [|y l IH]; cbn [insert_by_image_number]; [done|].
  destruct (_ <=? _); [done|]. rewrite IH. apply Permutation_swap.
Qed.

Lemma insert_by_image_number_sorted x l :
  StronglySorted (λ a b, _extract_image_number (fst a) <= _extract_image_number (fst b)) l →
  StronglySorted (λ a b, _extract_image_number (fst a) <= _extract_image_number (fst b))
    (insert_by_image_number x l).
Proof.
  induction 1 as [|y l Hs IH Hall]; cbn [insert_by_image_number].
  { repeat constructor. }
  destruct (Z.leb_spec (_extract_image_number (fst x)) (_extract_image_number (fst y)))
    as [Hle|Hgt].
  - constructor; [by constructor|]. constructor; [done|].
    eapply Forall_impl; [exact Hall|]. cbn. intros z Hz. lia.
  - constructor; [done|]. rewrite insert_by_image_number_perm.
    constructor; [lia|done].
Qed.

Lemma insert_by_image_number_filter k x l :
  filter (λ a, _extract_image_number (fst a) = k) (insert_by_image_number x l)
  = filter (λ a, _extract_image_number (fst a) = k) (x :: l).
Proof.
  induction l as [|y l IH]; cbn [insert_by_image_number]; [done|].
  destruct (Z.leb_spec (_extract_image_number (fst x)) (_extract_image_number (fst y)))
    as [Hle|Hgt]; [done|].
  rewrite filter_cons, IH, !filter_cons.
  destruct (decide (_extract_image_number (fst y) = k)) as [Hy|Hy];
    destruct (decide (_extract_image_number (fst x) = k)) as [Hx|Hx]; try done. lia.
Qed.

(** The files are written in the order of their image numbers, and files
    with the same number keep the order of the directory listing; none is
    lost or repeated. *)
Theorem sort_image_files_sorted_stable (l : list (string * bytes)) :
  sort_image_files l ≡ₚ l
  ∧ StronglySorted (λ a b, _extract_image_number (fst a) <= _extract_image_number (fst b))
      (sort_image_files l)
  ∧ ∀ k, filter (λ a, _extract_image_number (fst a) = k) (sort_image_files l)
         = filter (λ a, _extract_image_number (fst a) = k) l.
Proof.
  unfold sort_image_files. induction l as [|x l (Hp & Hs & Hf)]; cbn [foldr].
  { split_and!; [done|constructor|done]. }
  split_and!.
  - rewrite insert_by_image_number_perm. by constructor.
  - by apply insert_by_image_number_sorted.
  - intros k. rewrite insert_by_image_number_filter, !filter_cons, Hf. done.
Qed.

(** The original span that the simple change detection compares with: no
    span when the offset is at or past the end, else the bytes from the
    offset on, at most as many as expected. *)
Theorem find_original_image_span (original_data : bytes) (offset expected_size : Z) :
  0 <= offset → 0 <= expected_size →
  match _find_original_image_at_offset original_data offset expected_size with
  | None => blen original_data <= offset
  | Some d =>
      offset < blen original_data
      ∧ d = take (Z.to_nat expected_size) (drop (Z.to_nat offset) original_data)
      ∧ blen d = Z.min expected_size (blen original_data - offset)
  end.
Proof.
  intros Ho He. unfold _find_original_image_at_offset.
  destruct (Z.leb_spec (blen original_data) offset) as [|Hlt]; [done|].
  destruct (Z.leb_spec (offset + expected_size) (blen original_data)) as [Hfit|Hover].
  - split; [done|]. rewrite py_slice_in_range by lia.
    replace (offset + expected_size - offset) with expected_size by lia.
    split; [done|]. unfold blen in *. rewrite length_take, length_drop. lia.
  - split; [done|]. unfold py_slice_from. rewrite norm_index_in_range by lia.
    unfold blen in *. split.
    + rewrite take_ge; [done|]. rewrite length_drop. lia.
    + rewrite length_drop. lia.
Qed.

Lemma find_original_image_span_witness :
  match _find_original_image_at_offset Samples.original_b 12 8 with
  | None => blen Samples.original_b <= 12
  | Some d =>
      12 < blen Samples.original_b
      ∧ d = take (Z.to_nat 8) (drop (Z.to_nat 12) Samples.original_b)
      ∧ blen d = Z.min 8 (blen Samples.original_b - 12)
  end.
Proof. apply (find_original_image_span Samples.original_b 12 8); lia. Defined.

Lemma startswith_cons_ne (b b' : byte) d pat :
  b ≠ b' → bytes_startswith (b :: d) (b' :: pat) = false.
Proof.
  intros Hne. unfold bytes_startswith. apply bool_decide_eq_false_2.
  cbn [length take]. intros [= ?]. done.
Qed.

(** The type of an image is the description of the magic pattern that it
    starts with: the patterns begin with different bytes, so at most one
    applies and the order of the table does not matter. *)
Theorem detect_image_type_by_magic (image_data pat : bytes) (desc : string) :
  (pat, desc) ∈ magic_patterns → bytes_startswith image_data pat = true →
  _detect_image_type image_data = desc.
Proof.
  intros Hin Hs. destruct image_data as [|b d].
  { unfold magic_patterns in Hin.
    repeat (apply elem_of_cons in Hin as [[= -> ->]|Hin]; [by vm_compute in Hs|]).
    by apply elem_of_nil in Hin. }
  unfold _detect_image_type, magic_patterns in *.
  repeat (apply elem_of_cons in Hin as [[= -> ->]|Hin];
    [ pose proof Hs as Hs'; unfold bytes_startswith in Hs';
      apply bool_decide_eq_true_1 in Hs'; cbn [length take list_byte_of_string] in Hs';
      injection Hs' as -> ?; cbn [find fst];
      rewrite ?startswith_cons_ne by discriminate; rewrite ?Hs; reflexivity |]).
  by apply elem_of_nil in Hin.
Qed.

Lemma detect_image_type_by_magic_witness :
  _detect_image_type Samples.png8 = "PNG Image Start"%string.
Proof.
  apply (detect_image_type_by_magic Samples.png8 [x89; x50; x4e; x47]);
    [|vm_compute; reflexivity].
  unfold magic_patterns. do 2 right. left.
Defined.

End MsiNamesMore.
